(** * jsonschema: reflection of Go values into JSON Schema nodes

    A shallow embedding of the reflection walker of the [jsonschema]
    package together with the properties of the walker that its
    specification states.

    The source files hold more than one revision of the package.  The
    model follows the revision whose walker is
    [reflectType(definitions, t, v, root)]: [reflect.go] lines 1-152,
    [reflect_types.go] lines 1-210, and the tag reader with [parseTags],
    [applyValidation] and [applyInfo].  [getSliceValue] comes from the
    later revision of [reflect_types.go] (lines 369-375), whose
    [reflectSlice] is the same as the one modelled.

    The walker is written against Go's [reflect] package.  The part of
    [reflect] that the walker uses is modelled first (type descriptors,
    values, [Zero], [New], [Indirect], ...), then the schema node, the tag
    reader, and the walker itself; the theorems follow the definitions. *)

From Stdlib Require Import ZArith Ascii String.
From stdpp Require Import gmap strings list fin_maps.

#[local] Set Warnings "-register-all".
#[local] Open Scope Z_scope.

(** ** Outcome of a Go computation

    A call either returns, or panics, or (in the model only) exhausts the
    recursion budget that stands for Go's unbounded call stack. *)

Inductive GoPanic :=
| IndexOutOfRange        (* runtime error: index out of range *)
| NilDereference         (* method call on a nil reflect.Type *)
| KindMismatch           (* reflect: call of <method> on <kind> Value/Type *)
| InvalidValue           (* reflect: call of <method> on zero Value *)
| TypeAssertion.         (* interface conversion: missing method *)

Inductive Result (A : Type) :=
| Ok (a : A)
| Panic (p : GoPanic)
| OutOfFuel.
Arguments Ok {A} a.
Arguments Panic {A} p.
Arguments OutOfFuel {A}.

Definition bind {A B} (r : Result A) (k : A -> Result B) : Result B :=
  match r with
  | Ok a => k a
  | Panic p => Panic p
  | OutOfFuel => OutOfFuel
  end.

Notation "x <- r ;; k" := (bind r (fun x => k))
  (at level 100, r at next level, right associativity).

Definition is_Ok {A} (r : Result A) : bool :=
  match r with Ok _ => true | _ => false end.

(** Left-to-right loop over a list with an accumulator, stopping at the
    first panic: the shape of every [for ... range] loop of the walker. *)
Fixpoint foldM {A S} (f : S -> A -> Result S) (s : S) (l : list A) : Result S :=
  match l with
  | [] => Ok s
  | a :: l' => s' <- f s a ;; foldM f s' l'
  end.

(** ** The capability interfaces ([reflect_types.go], lines 25-44)

    [protoEnum], [implicitOneOf], [implicitAnyOf], [implicitAllOf] and
    [enumType] each consist of one method. *)

Inductive Capability := CapPBEnum | CapOneOf | CapAnyOf | CapAllOf | CapEnum.

(** A method is declared with a value receiver (it then belongs to the
    method sets of [T] and of [*T]) or with a pointer receiver (method set
    of [*T] only). *)
Inductive Recv := ByValue | ByPointer.

#[global] Instance Capability_eq_dec : EqDecision Capability.
Proof. solve_decision. Defined.
#[global] Instance Recv_eq_dec : EqDecision Recv.
Proof. solve_decision. Defined.

(** What a type declaration contributes to a descriptor: its name (empty
    for an unnamed type), its package path, and which of the five
    capability methods it has (declared or promoted). *)
Record Decl := mkDecl {
  d_name : string;
  d_pkg : string;
  d_methods : list (Capability * Recv)
}.

#[global] Instance Decl_eq_dec : EqDecision Decl.
Proof. solve_decision. Defined.

Definition unnamed : Decl := mkDecl "" "" [].
Definition builtin (n : string) : Decl := mkDecl n "" [].

(** ** The fragment of package [reflect] used by the walker *)

Module reflect.

Inductive Kind :=
| Invalid | Bool
| Int | Int8 | Int16 | Int32 | Int64
| Uint | Uint8 | Uint16 | Uint32 | Uint64 | Uintptr
| Float32 | Float64 | Complex64 | Complex128
| Array | Chan | Func | Interface | Map | Ptr | Slice
| String | Struct | UnsafePointer.

#[global] Instance Kind_eq_dec : EqDecision Kind.
Proof. solve_decision. Defined.

(** [reflect.StructTag], abstracted to the key/value pairs it encodes,
    in the order in which they are written. *)
Definition StructTag := list (string * string).

(** [StructTag.Lookup] returns the value of the first pair with the key. *)
Fixpoint Lookup (tag : StructTag) (key : string) : option string :=
  match tag with
  | [] => None
  | (k, v) :: tag' => if String.eqb k key then Some v else Lookup tag' key
  end.

Definition Get (tag : StructTag) (key : string) : string :=
  match Lookup tag key with Some v => v | None => "" end.

Record StructField_ (T : Type) := mkField {
  Name : string;
  PkgPath : string;        (* empty for an exported field *)
  Anonymous : bool;        (* embedded field *)
  Tag : StructTag;
  Typ : T
}.
Arguments mkField {T}.
Arguments Name {T}.
Arguments PkgPath {T}.
Arguments Anonymous {T}.
Arguments Tag {T}.
Arguments Typ {T}.

(** Type descriptors ([reflect.Type]).  [Scalar] covers the kinds
    without components (booleans, numbers, strings, unsafe pointers). *)
Inductive rtype :=
| Scalar (d : Decl) (k : Kind)
| TPtr (d : Decl) (elem : rtype)
| TSlice (d : Decl) (elem : rtype)
| TArray (d : Decl) (len : nat) (elem : rtype)
| TMap (d : Decl) (key elem : rtype)
| TChan (d : Decl) (elem : rtype)
| TFunc (d : Decl)
| TInterface (d : Decl)
| TStruct (d : Decl) (fields : list (StructField_ rtype)).

Abbreviation StructField := (StructField_ rtype).

Definition decl (t : rtype) : Decl :=
  match t with
  | Scalar d _ | TPtr d _ | TSlice d _ | TArray d _ _ | TMap d _ _
  | TChan d _ | TFunc d | TInterface d | TStruct d _ => d
  end.

(** [t.Kind()] *)
Definition Type_Kind (t : rtype) : Kind :=
  match t with
  | Scalar _ k => k
  | TPtr _ _ => Ptr
  | TSlice _ _ => Slice
  | TArray _ _ _ => Array
  | TMap _ _ _ => Map
  | TChan _ _ => Chan
  | TFunc _ => Func
  | TInterface _ => Interface
  | TStruct _ _ => Struct
  end.

(** [t.Name()] *)
Definition Type_Name (t : rtype) : string := d_name (decl t).

(** [t.Elem()]: panics unless the kind is Array, Chan, Map, Ptr or Slice. *)
Definition Type_Elem (t : rtype) : Result rtype :=
  match t with
  | TPtr _ e | TSlice _ e | TArray _ _ e | TMap _ _ e | TChan _ e => Ok e
  | _ => Panic KindMismatch
  end.

(** [t.Len()]: panics unless the kind is Array. *)
Definition Type_Len (t : rtype) : Result Z :=
  match t with
  | TArray _ n _ => Ok (Z.of_nat n)
  | _ => Panic KindMismatch
  end.

Definition has_method (t : rtype) (c : Capability) (r : Recv) : bool :=
  bool_decide ((c, r) ∈ d_methods (decl t)).

(** [t.Implements(u)] for [u] one of the five capability interfaces.
    The method set of an unnamed pointer type [*T] ([T] neither a pointer
    nor an interface) holds the methods of [T] of both receivers; every
    other type offers its value-receiver methods. *)
Definition Implements (t : rtype) (c : Capability) : bool :=
  match t with
  | TPtr d e =>
      if String.eqb (d_name d) "" then
        match e with
        | TPtr _ _ | TInterface _ => false
        | _ => has_method e c ByValue || has_method e c ByPointer
        end
      else has_method t c ByValue
  | _ => has_method t c ByValue
  end.

(** Identity of type descriptors ([t == u] on [reflect.Type]). *)
Fixpoint Type_eqb (a b : rtype) {struct a} : bool :=
  match a, b with
  | Scalar d k, Scalar d' k' => bool_decide (d = d') && bool_decide (k = k')
  | TPtr d e, TPtr d' e' => bool_decide (d = d') && Type_eqb e e'
  | TSlice d e, TSlice d' e' => bool_decide (d = d') && Type_eqb e e'
  | TArray d n e, TArray d' n' e' =>
      bool_decide (d = d') && bool_decide (n = n') && Type_eqb e e'
  | TMap d k e, TMap d' k' e' =>
      bool_decide (d = d') && Type_eqb k k' && Type_eqb e e'
  | TChan d e, TChan d' e' => bool_decide (d = d') && Type_eqb e e'
  | TFunc d, TFunc d' => bool_decide (d = d')
  | TInterface d, TInterface d' => bool_decide (d = d')
  | TStruct d fs, TStruct d' fs' =>
      bool_decide (d = d') &&
      (fix fields_eqb (l l' : list StructField) {struct l} : bool :=
         match l, l' with
         | [], [] => true
         | f :: r, f' :: r' =>
             bool_decide (Name f = Name f')
             && bool_decide (PkgPath f = PkgPath f')
             && bool_decide (Anonymous f = Anonymous f')
             && bool_decide (Tag f = Tag f')
             && Type_eqb (Typ f) (Typ f')
             && fields_eqb r r'
         | _, _ => false
         end) fs fs'
  | _, _ => false
  end.

(** Values ([reflect.Value]).  [VInvalid] is the zero [Value]; every
    other value carries its type and its data. *)
Inductive Value :=
| VInvalid
| Val (t : rtype) (d : Data)
with Data :=
| DBool (b : bool)
| DInt (n : Z)                         (* the signed and unsigned integers *)
| DFloat (bits : Z)                    (* IEEE 754 bit pattern *)
| DString (s : string)
| DList (l : list Value)               (* struct fields; slice or array elements *)
| DMap (m : list (Value * Value))
| DPtr (target : option Value)         (* None is the nil pointer *)
| DIface (dyn : option Value)          (* None is the nil interface *)
| DOpaque.                             (* channels, functions, complex numbers, ... *)

(** A Go value of static type [interface{}]: nil or a boxed value. *)
Definition any := option Value.

(** [reflect.ValueOf] and [reflect.TypeOf] *)
Definition ValueOf (a : any) : Value :=
  match a with Some v => v | None => VInvalid end.

Definition Value_Type (v : Value) : Result rtype :=
  match v with
  | VInvalid => Panic InvalidValue
  | Val t _ => Ok t
  end.

Definition TypeOf (a : any) : option rtype :=
  match ValueOf a with
  | VInvalid => None
  | Val t _ => Some t
  end.

(** [v.Kind()], [v.IsValid()] *)
Definition Value_Kind (v : Value) : Kind :=
  match v with
  | VInvalid => Invalid
  | Val t _ => Type_Kind t
  end.

Definition IsValid (v : Value) : bool :=
  match v with VInvalid => false | Val _ _ => true end.

(** [v.Elem()]: the pointee of a pointer, the content of an interface;
    the zero [Value] when that is nil; a panic on every other kind. *)
Definition Value_Elem (v : Value) : Result Value :=
  match v with
  | Val _ (DPtr (Some x)) | Val _ (DIface (Some x)) => Ok x
  | Val _ (DPtr None) | Val _ (DIface None) => Ok VInvalid
  | VInvalid => Panic InvalidValue
  | _ => Panic KindMismatch
  end.

(** [reflect.Indirect] *)
Definition Indirect (v : Value) : Value :=
  match v with
  | Val _ (DPtr (Some x)) => x
  | Val _ (DPtr None) => VInvalid
  | _ => v
  end.

(** [v.Interface()]: the value boxed as [interface{}]; for a value of
    interface kind, its content. *)
Definition Value_Interface (v : Value) : Result any :=
  match v with
  | VInvalid => Panic InvalidValue
  | Val _ (DIface dyn) => Ok dyn
  | Val _ _ => Ok (Some v)
  end.

(** The field values of a struct value ([v.NumField()], [v.Field(i)]);
    a panic on every other kind. *)
Definition Value_Fields (v : Value) : Result (list (StructField * Value)) :=
  match v with
  | VInvalid => Panic InvalidValue
  | Val (TStruct _ fs) (DList vs) => Ok (zip fs vs)
  | Val _ _ => Panic KindMismatch
  end.

(** [v.Len()]: defined on arrays, channels, maps, slices, strings and
    pointers to arrays (a channel is taken to hold no buffered element). *)
Definition Value_Len (v : Value) : Result nat :=
  match v with
  | VInvalid => Panic InvalidValue
  | Val (TSlice _ _) (DList vs) | Val (TArray _ _ _) (DList vs) => Ok (length vs)
  | Val (TMap _ _ _) (DMap m) => Ok (length m)
  | Val (Scalar _ String) (DString s) => Ok (String.length s)
  | Val (TChan _ _) _ => Ok 0%nat
  | Val (TPtr _ (TArray _ n _)) _ => Ok n
  | Val _ _ => Panic KindMismatch
  end.

(** [v.Index(i)]: defined on arrays, slices and strings; an index out of
    range panics. *)
Definition Value_Index (v : Value) (i : nat) : Result Value :=
  match v with
  | VInvalid => Panic InvalidValue
  | Val (TSlice _ _) (DList vs) | Val (TArray _ _ _) (DList vs) =>
      match vs !! i with
      | Some x => Ok x
      | None => Panic IndexOutOfRange
      end
  | Val (Scalar _ String) (DString s) =>
      match String.get i s with
      | Some c => Ok (Val (Scalar (builtin "uint8") Uint8)
                       (DInt (Z.of_nat (nat_of_ascii c))))
      | None => Panic IndexOutOfRange
      end
  | Val _ _ => Panic KindMismatch
  end.

Definition zeroScalar (k : Kind) : Data :=
  match k with
  | Bool => DBool false
  | Int | Int8 | Int16 | Int32 | Int64
  | Uint | Uint8 | Uint16 | Uint32 | Uint64 | Uintptr => DInt 0
  | Float32 | Float64 => DFloat 0
  | String => DString ""
  | _ => DOpaque
  end.

(** [reflect.Zero] *)
Fixpoint Zero (t : rtype) : Value :=
  match t with
  | Scalar _ k => Val t (zeroScalar k)
  | TPtr _ _ => Val t (DPtr None)
  | TSlice _ _ => Val t (DList [])
  | TArray _ n e => Val t (DList (replicate n (Zero e)))
  | TMap _ _ _ => Val t (DMap [])
  | TChan _ _ | TFunc _ => Val t DOpaque
  | TInterface _ => Val t (DIface None)
  | TStruct _ fs =>
      Val t (DList ((fix zeros (l : list StructField) : list Value :=
                       match l with
                       | [] => []
                       | f :: r => Zero (Typ f) :: zeros r
                       end) fs))
  end.

Definition PtrTo (t : rtype) : rtype := TPtr unnamed t.

(** [reflect.New]: a pointer to a fresh zero value. *)
Definition New (t : rtype) : Value := Val (PtrTo t) (DPtr (Some (Zero t))).

End reflect.

Import reflect (rtype, Value, any, StructField).

(** ** The schema node

    Modelled from the spec: the struct [Type] (one schema node), the map
    type [Definitions], and the constructors [newType] and [newReference]
    are declared in a file of the package that is missing from the
    source files.  The record below has the attributes of the spec's Schema
    Node (section 3) under the field names that the walker assigns to; the
    Go field [Type] is called [Typ] and the field [Definitions] is called
    [Definitions_] here.  [Typ] and [Ref] are empty when unset, and
    [AdditionalProperties] holds the raw JSON text. *)

Inductive Type_ := mkType_ {
  Version : string;
  Ref : string;
  Typ : string;
  Title : string;
  Format : string;
  Default : any;
  Enum : list any;
  OneOf : list Type_;
  AnyOf : list Type_;
  AllOf : list Type_;
  Items : option Type_;
  Properties : gmap string Type_;
  PatternProperties : gmap string Type_;
  AdditionalProperties : string;
  Required : list string; Definitions_ : gmap string Type_;
  Media : option Type_;
  BinaryEncoding : string;
  MinItems : Z;
  MaxItems : Z;
  UniqueItems : bool;
  MinLength : Z;
  MaxLength : Z;
  MultipleOf : Z;
  Minimum : Z;
  Maximum : Z;
  ExclusiveMinimum : bool;
  ExclusiveMaximum : bool
}.

Abbreviation Definitions := (gmap string Type_).

(** The Go zero value [Type{}]. *)
Definition emptyType : Type_ :=
  {| Version := ""; Ref := ""; Typ := ""; Title := ""; Format := "";
     Default := None; Enum := []; OneOf := []; AnyOf := []; AllOf := [];
     Items := None; Properties := ∅; PatternProperties := ∅;
     AdditionalProperties := ""; Required := []; Definitions_ := ∅;
     Media := None; BinaryEncoding := "";
     MinItems := 0; MaxItems := 0; UniqueItems := false;
     MinLength := 0; MaxLength := 0;
     MultipleOf := 0; Minimum := 0; Maximum := 0;
     ExclusiveMinimum := false; ExclusiveMaximum := false |}.

(** Field assignments [dst.F = x]. *)
Definition set_Version (x : string) (dst : Type_) : Type_ :=
  {| Version := x; Ref := Ref dst; Typ := Typ dst; Title := Title dst; Format
     := Format dst; Default := Default dst; Enum := Enum dst; OneOf := OneOf
     dst; AnyOf := AnyOf dst; AllOf := AllOf dst; Items := Items dst;
     Properties := Properties dst; PatternProperties := PatternProperties dst;
     AdditionalProperties := AdditionalProperties dst; Required := Required
     dst; Definitions_ := Definitions_ dst; Media := Media dst; BinaryEncoding
     := BinaryEncoding dst; MinItems := MinItems dst; MaxItems := MaxItems
     dst; UniqueItems := UniqueItems dst; MinLength := MinLength dst;
     MaxLength := MaxLength dst; MultipleOf := MultipleOf dst; Minimum :=
     Minimum dst; Maximum := Maximum dst; ExclusiveMinimum := ExclusiveMinimum
     dst; ExclusiveMaximum := ExclusiveMaximum dst |}.
Definition set_Ref (x : string) (dst : Type_) : Type_ :=
  {| Version := Version dst; Ref := x; Typ := Typ dst; Title := Title dst;
     Format := Format dst; Default := Default dst; Enum := Enum dst; OneOf :=
     OneOf dst; AnyOf := AnyOf dst; AllOf := AllOf dst; Items := Items dst;
     Properties := Properties dst; PatternProperties := PatternProperties dst;
     AdditionalProperties := AdditionalProperties dst; Required := Required
     dst; Definitions_ := Definitions_ dst; Media := Media dst; BinaryEncoding
     := BinaryEncoding dst; MinItems := MinItems dst; MaxItems := MaxItems
     dst; UniqueItems := UniqueItems dst; MinLength := MinLength dst;
     MaxLength := MaxLength dst; MultipleOf := MultipleOf dst; Minimum :=
     Minimum dst; Maximum := Maximum dst; ExclusiveMinimum := ExclusiveMinimum
     dst; ExclusiveMaximum := ExclusiveMaximum dst |}.
Definition set_Typ (x : string) (dst : Type_) : Type_ :=
  {| Version := Version dst; Ref := Ref dst; Typ := x; Title := Title dst;
     Format := Format dst; Default := Default dst; Enum := Enum dst; OneOf :=
     OneOf dst; AnyOf := AnyOf dst; AllOf := AllOf dst; Items := Items dst;
     Properties := Properties dst; PatternProperties := PatternProperties dst;
     AdditionalProperties := AdditionalProperties dst; Required := Required
     dst; Definitions_ := Definitions_ dst; Media := Media dst; BinaryEncoding
     := BinaryEncoding dst; MinItems := MinItems dst; MaxItems := MaxItems
     dst; UniqueItems := UniqueItems dst; MinLength := MinLength dst;
     MaxLength := MaxLength dst; MultipleOf := MultipleOf dst; Minimum :=
     Minimum dst; Maximum := Maximum dst; ExclusiveMinimum := ExclusiveMinimum
     dst; ExclusiveMaximum := ExclusiveMaximum dst |}.
Definition set_Title (x : string) (dst : Type_) : Type_ :=
  {| Version := Version dst; Ref := Ref dst; Typ := Typ dst; Title := x;
     Format := Format dst; Default := Default dst; Enum := Enum dst; OneOf :=
     OneOf dst; AnyOf := AnyOf dst; AllOf := AllOf dst; Items := Items dst;
     Properties := Properties dst; PatternProperties := PatternProperties dst;
     AdditionalProperties := AdditionalProperties dst; Required := Required
     dst; Definitions_ := Definitions_ dst; Media := Media dst; BinaryEncoding
     := BinaryEncoding dst; MinItems := MinItems dst; MaxItems := MaxItems
     dst; UniqueItems := UniqueItems dst; MinLength := MinLength dst;
     MaxLength := MaxLength dst; MultipleOf := MultipleOf dst; Minimum :=
     Minimum dst; Maximum := Maximum dst; ExclusiveMinimum := ExclusiveMinimum
     dst; ExclusiveMaximum := ExclusiveMaximum dst |}.
Definition set_Format (x : string) (dst : Type_) : Type_ :=
  {| Version := Version dst; Ref := Ref dst; Typ := Typ dst; Title := Title
     dst; Format := x; Default := Default dst; Enum := Enum dst; OneOf :=
     OneOf dst; AnyOf := AnyOf dst; AllOf := AllOf dst; Items := Items dst;
     Properties := Properties dst; PatternProperties := PatternProperties dst;
     AdditionalProperties := AdditionalProperties dst; Required := Required
     dst; Definitions_ := Definitions_ dst; Media := Media dst; BinaryEncoding
     := BinaryEncoding dst; MinItems := MinItems dst; MaxItems := MaxItems
     dst; UniqueItems := UniqueItems dst; MinLength := MinLength dst;
     MaxLength := MaxLength dst; MultipleOf := MultipleOf dst; Minimum :=
     Minimum dst; Maximum := Maximum dst; ExclusiveMinimum := ExclusiveMinimum
     dst; ExclusiveMaximum := ExclusiveMaximum dst |}.
Definition set_Default (x : any) (dst : Type_) : Type_ :=
  {| Version := Version dst; Ref := Ref dst; Typ := Typ dst; Title := Title
     dst; Format := Format dst; Default := x; Enum := Enum dst; OneOf := OneOf
     dst; AnyOf := AnyOf dst; AllOf := AllOf dst; Items := Items dst;
     Properties := Properties dst; PatternProperties := PatternProperties dst;
     AdditionalProperties := AdditionalProperties dst; Required := Required
     dst; Definitions_ := Definitions_ dst; Media := Media dst; BinaryEncoding
     := BinaryEncoding dst; MinItems := MinItems dst; MaxItems := MaxItems
     dst; UniqueItems := UniqueItems dst; MinLength := MinLength dst;
     MaxLength := MaxLength dst; MultipleOf := MultipleOf dst; Minimum :=
     Minimum dst; Maximum := Maximum dst; ExclusiveMinimum := ExclusiveMinimum
     dst; ExclusiveMaximum := ExclusiveMaximum dst |}.
Definition set_Enum (x : list any) (dst : Type_) : Type_ :=
  {| Version := Version dst; Ref := Ref dst; Typ := Typ dst; Title := Title
     dst; Format := Format dst; Default := Default dst; Enum := x; OneOf :=
     OneOf dst; AnyOf := AnyOf dst; AllOf := AllOf dst; Items := Items dst;
     Properties := Properties dst; PatternProperties := PatternProperties dst;
     AdditionalProperties := AdditionalProperties dst; Required := Required
     dst; Definitions_ := Definitions_ dst; Media := Media dst; BinaryEncoding
     := BinaryEncoding dst; MinItems := MinItems dst; MaxItems := MaxItems
     dst; UniqueItems := UniqueItems dst; MinLength := MinLength dst;
     MaxLength := MaxLength dst; MultipleOf := MultipleOf dst; Minimum :=
     Minimum dst; Maximum := Maximum dst; ExclusiveMinimum := ExclusiveMinimum
     dst; ExclusiveMaximum := ExclusiveMaximum dst |}.
Definition set_OneOf (x : list Type_) (dst : Type_) : Type_ :=
  {| Version := Version dst; Ref := Ref dst; Typ := Typ dst; Title := Title
     dst; Format := Format dst; Default := Default dst; Enum := Enum dst;
     OneOf := x; AnyOf := AnyOf dst; AllOf := AllOf dst; Items := Items dst;
     Properties := Properties dst; PatternProperties := PatternProperties dst;
     AdditionalProperties := AdditionalProperties dst; Required := Required
     dst; Definitions_ := Definitions_ dst; Media := Media dst; BinaryEncoding
     := BinaryEncoding dst; MinItems := MinItems dst; MaxItems := MaxItems
     dst; UniqueItems := UniqueItems dst; MinLength := MinLength dst;
     MaxLength := MaxLength dst; MultipleOf := MultipleOf dst; Minimum :=
     Minimum dst; Maximum := Maximum dst; ExclusiveMinimum := ExclusiveMinimum
     dst; ExclusiveMaximum := ExclusiveMaximum dst |}.
Definition set_AnyOf (x : list Type_) (dst : Type_) : Type_ :=
  {| Version := Version dst; Ref := Ref dst; Typ := Typ dst; Title := Title
     dst; Format := Format dst; Default := Default dst; Enum := Enum dst;
     OneOf := OneOf dst; AnyOf := x; AllOf := AllOf dst; Items := Items dst;
     Properties := Properties dst; PatternProperties := PatternProperties dst;
     AdditionalProperties := AdditionalProperties dst; Required := Required
     dst; Definitions_ := Definitions_ dst; Media := Media dst; BinaryEncoding
     := BinaryEncoding dst; MinItems := MinItems dst; MaxItems := MaxItems
     dst; UniqueItems := UniqueItems dst; MinLength := MinLength dst;
     MaxLength := MaxLength dst; MultipleOf := MultipleOf dst; Minimum :=
     Minimum dst; Maximum := Maximum dst; ExclusiveMinimum := ExclusiveMinimum
     dst; ExclusiveMaximum := ExclusiveMaximum dst |}.
Definition set_AllOf (x : list Type_) (dst : Type_) : Type_ :=
  {| Version := Version dst; Ref := Ref dst; Typ := Typ dst; Title := Title
     dst; Format := Format dst; Default := Default dst; Enum := Enum dst;
     OneOf := OneOf dst; AnyOf := AnyOf dst; AllOf := x; Items := Items dst;
     Properties := Properties dst; PatternProperties := PatternProperties dst;
     AdditionalProperties := AdditionalProperties dst; Required := Required
     dst; Definitions_ := Definitions_ dst; Media := Media dst; BinaryEncoding
     := BinaryEncoding dst; MinItems := MinItems dst; MaxItems := MaxItems
     dst; UniqueItems := UniqueItems dst; MinLength := MinLength dst;
     MaxLength := MaxLength dst; MultipleOf := MultipleOf dst; Minimum :=
     Minimum dst; Maximum := Maximum dst; ExclusiveMinimum := ExclusiveMinimum
     dst; ExclusiveMaximum := ExclusiveMaximum dst |}.
Definition set_Items (x : option Type_) (dst : Type_) : Type_ :=
  {| Version := Version dst; Ref := Ref dst; Typ := Typ dst; Title := Title
     dst; Format := Format dst; Default := Default dst; Enum := Enum dst;
     OneOf := OneOf dst; AnyOf := AnyOf dst; AllOf := AllOf dst; Items := x;
     Properties := Properties dst; PatternProperties := PatternProperties dst;
     AdditionalProperties := AdditionalProperties dst; Required := Required
     dst; Definitions_ := Definitions_ dst; Media := Media dst; BinaryEncoding
     := BinaryEncoding dst; MinItems := MinItems dst; MaxItems := MaxItems
     dst; UniqueItems := UniqueItems dst; MinLength := MinLength dst;
     MaxLength := MaxLength dst; MultipleOf := MultipleOf dst; Minimum :=
     Minimum dst; Maximum := Maximum dst; ExclusiveMinimum := ExclusiveMinimum
     dst; ExclusiveMaximum := ExclusiveMaximum dst |}.
Definition set_Properties (x : gmap string Type_) (dst : Type_) : Type_ :=
  {| Version := Version dst; Ref := Ref dst; Typ := Typ dst; Title := Title
     dst; Format := Format dst; Default := Default dst; Enum := Enum dst;
     OneOf := OneOf dst; AnyOf := AnyOf dst; AllOf := AllOf dst; Items :=
     Items dst; Properties := x; PatternProperties := PatternProperties dst;
     AdditionalProperties := AdditionalProperties dst; Required := Required
     dst; Definitions_ := Definitions_ dst; Media := Media dst; BinaryEncoding
     := BinaryEncoding dst; MinItems := MinItems dst; MaxItems := MaxItems
     dst; UniqueItems := UniqueItems dst; MinLength := MinLength dst;
     MaxLength := MaxLength dst; MultipleOf := MultipleOf dst; Minimum :=
     Minimum dst; Maximum := Maximum dst; ExclusiveMinimum := ExclusiveMinimum
     dst; ExclusiveMaximum := ExclusiveMaximum dst |}.
Definition set_PatternProperties (x : gmap string Type_) (dst : Type_) : Type_ :=
  {| Version := Version dst; Ref := Ref dst; Typ := Typ dst; Title := Title
     dst; Format := Format dst; Default := Default dst; Enum := Enum dst;
     OneOf := OneOf dst; AnyOf := AnyOf dst; AllOf := AllOf dst; Items :=
     Items dst; Properties := Properties dst; PatternProperties := x;
     AdditionalProperties := AdditionalProperties dst; Required := Required
     dst; Definitions_ := Definitions_ dst; Media := Media dst; BinaryEncoding
     := BinaryEncoding dst; MinItems := MinItems dst; MaxItems := MaxItems
     dst; UniqueItems := UniqueItems dst; MinLength := MinLength dst;
     MaxLength := MaxLength dst; MultipleOf := MultipleOf dst; Minimum :=
     Minimum dst; Maximum := Maximum dst; ExclusiveMinimum := ExclusiveMinimum
     dst; ExclusiveMaximum := ExclusiveMaximum dst |}.
Definition set_AdditionalProperties (x : string) (dst : Type_) : Type_ :=
  {| Version := Version dst; Ref := Ref dst; Typ := Typ dst; Title := Title
     dst; Format := Format dst; Default := Default dst; Enum := Enum dst;
     OneOf := OneOf dst; AnyOf := AnyOf dst; AllOf := AllOf dst; Items :=
     Items dst; Properties := Properties dst; PatternProperties :=
     PatternProperties dst; AdditionalProperties := x; Required := Required
     dst; Definitions_ := Definitions_ dst; Media := Media dst; BinaryEncoding
     := BinaryEncoding dst; MinItems := MinItems dst; MaxItems := MaxItems
     dst; UniqueItems := UniqueItems dst; MinLength := MinLength dst;
     MaxLength := MaxLength dst; MultipleOf := MultipleOf dst; Minimum :=
     Minimum dst; Maximum := Maximum dst; ExclusiveMinimum := ExclusiveMinimum
     dst; ExclusiveMaximum := ExclusiveMaximum dst |}.
Definition set_Media (x : option Type_) (dst : Type_) : Type_ :=
  {| Version := Version dst; Ref := Ref dst; Typ := Typ dst; Title := Title
     dst; Format := Format dst; Default := Default dst; Enum := Enum dst;
     OneOf := OneOf dst; AnyOf := AnyOf dst; AllOf := AllOf dst; Items :=
     Items dst; Properties := Properties dst; PatternProperties :=
     PatternProperties dst; AdditionalProperties := AdditionalProperties dst;
     Required := Required dst; Definitions_ := Definitions_ dst; Media := x;
     BinaryEncoding := BinaryEncoding dst; MinItems := MinItems dst; MaxItems
     := MaxItems dst; UniqueItems := UniqueItems dst; MinLength := MinLength
     dst; MaxLength := MaxLength dst; MultipleOf := MultipleOf dst; Minimum :=
     Minimum dst; Maximum := Maximum dst; ExclusiveMinimum := ExclusiveMinimum
     dst; ExclusiveMaximum := ExclusiveMaximum dst |}.
Definition set_BinaryEncoding (x : string) (dst : Type_) : Type_ :=
  {| Version := Version dst; Ref := Ref dst; Typ := Typ dst; Title := Title
     dst; Format := Format dst; Default := Default dst; Enum := Enum dst;
     OneOf := OneOf dst; AnyOf := AnyOf dst; AllOf := AllOf dst; Items :=
     Items dst; Properties := Properties dst; PatternProperties :=
     PatternProperties dst; AdditionalProperties := AdditionalProperties dst;
     Required := Required dst; Definitions_ := Definitions_ dst; Media :=
     Media dst; BinaryEncoding := x; MinItems := MinItems dst; MaxItems :=
     MaxItems dst; UniqueItems := UniqueItems dst; MinLength := MinLength dst;
     MaxLength := MaxLength dst; MultipleOf := MultipleOf dst; Minimum :=
     Minimum dst; Maximum := Maximum dst; ExclusiveMinimum := ExclusiveMinimum
     dst; ExclusiveMaximum := ExclusiveMaximum dst |}.
Definition set_MinItems (x : Z) (dst : Type_) : Type_ :=
  {| Version := Version dst; Ref := Ref dst; Typ := Typ dst; Title := Title
     dst; Format := Format dst; Default := Default dst; Enum := Enum dst;
     OneOf := OneOf dst; AnyOf := AnyOf dst; AllOf := AllOf dst; Items :=
     Items dst; Properties := Properties dst; PatternProperties :=
     PatternProperties dst; AdditionalProperties := AdditionalProperties dst;
     Required := Required dst; Definitions_ := Definitions_ dst; Media :=
     Media dst; BinaryEncoding := BinaryEncoding dst; MinItems := x; MaxItems
     := MaxItems dst; UniqueItems := UniqueItems dst; MinLength := MinLength
     dst; MaxLength := MaxLength dst; MultipleOf := MultipleOf dst; Minimum :=
     Minimum dst; Maximum := Maximum dst; ExclusiveMinimum := ExclusiveMinimum
     dst; ExclusiveMaximum := ExclusiveMaximum dst |}.
Definition set_MaxItems (x : Z) (dst : Type_) : Type_ :=
  {| Version := Version dst; Ref := Ref dst; Typ := Typ dst; Title := Title
     dst; Format := Format dst; Default := Default dst; Enum := Enum dst;
     OneOf := OneOf dst; AnyOf := AnyOf dst; AllOf := AllOf dst; Items :=
     Items dst; Properties := Properties dst; PatternProperties :=
     PatternProperties dst; AdditionalProperties := AdditionalProperties dst;
     Required := Required dst; Definitions_ := Definitions_ dst; Media :=
     Media dst; BinaryEncoding := BinaryEncoding dst; MinItems := MinItems
     dst; MaxItems := x; UniqueItems := UniqueItems dst; MinLength :=
     MinLength dst; MaxLength := MaxLength dst; MultipleOf := MultipleOf dst;
     Minimum := Minimum dst; Maximum := Maximum dst; ExclusiveMinimum :=
     ExclusiveMinimum dst; ExclusiveMaximum := ExclusiveMaximum dst |}.
Definition set_UniqueItems (x : bool) (dst : Type_) : Type_ :=
  {| Version := Version dst; Ref := Ref dst; Typ := Typ dst; Title := Title
     dst; Format := Format dst; Default := Default dst; Enum := Enum dst;
     OneOf := OneOf dst; AnyOf := AnyOf dst; AllOf := AllOf dst; Items :=
     Items dst; Properties := Properties dst; PatternProperties :=
     PatternProperties dst; AdditionalProperties := AdditionalProperties dst;
     Required := Required dst; Definitions_ := Definitions_ dst; Media :=
     Media dst; BinaryEncoding := BinaryEncoding dst; MinItems := MinItems
     dst; MaxItems := MaxItems dst; UniqueItems := x; MinLength := MinLength
     dst; MaxLength := MaxLength dst; MultipleOf := MultipleOf dst; Minimum :=
     Minimum dst; Maximum := Maximum dst; ExclusiveMinimum := ExclusiveMinimum
     dst; ExclusiveMaximum := ExclusiveMaximum dst |}.
Definition set_MinLength (x : Z) (dst : Type_) : Type_ :=
  {| Version := Version dst; Ref := Ref dst; Typ := Typ dst; Title := Title
     dst; Format := Format dst; Default := Default dst; Enum := Enum dst;
     OneOf := OneOf dst; AnyOf := AnyOf dst; AllOf := AllOf dst; Items :=
     Items dst; Properties := Properties dst; PatternProperties :=
     PatternProperties dst; AdditionalProperties := AdditionalProperties dst;
     Required := Required dst; Definitions_ := Definitions_ dst; Media :=
     Media dst; BinaryEncoding := BinaryEncoding dst; MinItems := MinItems
     dst; MaxItems := MaxItems dst; UniqueItems := UniqueItems dst; MinLength
     := x; MaxLength := MaxLength dst; MultipleOf := MultipleOf dst; Minimum
     := Minimum dst; Maximum := Maximum dst; ExclusiveMinimum :=
     ExclusiveMinimum dst; ExclusiveMaximum := ExclusiveMaximum dst |}.
Definition set_MaxLength (x : Z) (dst : Type_) : Type_ :=
  {| Version := Version dst; Ref := Ref dst; Typ := Typ dst; Title := Title
     dst; Format := Format dst; Default := Default dst; Enum := Enum dst;
     OneOf := OneOf dst; AnyOf := AnyOf dst; AllOf := AllOf dst; Items :=
     Items dst; Properties := Properties dst; PatternProperties :=
     PatternProperties dst; AdditionalProperties := AdditionalProperties dst;
     Required := Required dst; Definitions_ := Definitions_ dst; Media :=
     Media dst; BinaryEncoding := BinaryEncoding dst; MinItems := MinItems
     dst; MaxItems := MaxItems dst; UniqueItems := UniqueItems dst; MinLength
     := MinLength dst; MaxLength := x; MultipleOf := MultipleOf dst; Minimum
     := Minimum dst; Maximum := Maximum dst; ExclusiveMinimum :=
     ExclusiveMinimum dst; ExclusiveMaximum := ExclusiveMaximum dst |}.
Definition set_MultipleOf (x : Z) (dst : Type_) : Type_ :=
  {| Version := Version dst; Ref := Ref dst; Typ := Typ dst; Title := Title
     dst; Format := Format dst; Default := Default dst; Enum := Enum dst;
     OneOf := OneOf dst; AnyOf := AnyOf dst; AllOf := AllOf dst; Items :=
     Items dst; Properties := Properties dst; PatternProperties :=
     PatternProperties dst; AdditionalProperties := AdditionalProperties dst;
     Required := Required dst; Definitions_ := Definitions_ dst; Media :=
     Media dst; BinaryEncoding := BinaryEncoding dst; MinItems := MinItems
     dst; MaxItems := MaxItems dst; UniqueItems := UniqueItems dst; MinLength
     := MinLength dst; MaxLength := MaxLength dst; MultipleOf := x; Minimum :=
     Minimum dst; Maximum := Maximum dst; ExclusiveMinimum := ExclusiveMinimum
     dst; ExclusiveMaximum := ExclusiveMaximum dst |}.
Definition set_Minimum (x : Z) (dst : Type_) : Type_ :=
  {| Version := Version dst; Ref := Ref dst; Typ := Typ dst; Title := Title
     dst; Format := Format dst; Default := Default dst; Enum := Enum dst;
     OneOf := OneOf dst; AnyOf := AnyOf dst; AllOf := AllOf dst; Items :=
     Items dst; Properties := Properties dst; PatternProperties :=
     PatternProperties dst; AdditionalProperties := AdditionalProperties dst;
     Required := Required dst; Definitions_ := Definitions_ dst; Media :=
     Media dst; BinaryEncoding := BinaryEncoding dst; MinItems := MinItems
     dst; MaxItems := MaxItems dst; UniqueItems := UniqueItems dst; MinLength
     := MinLength dst; MaxLength := MaxLength dst; MultipleOf := MultipleOf
     dst; Minimum := x; Maximum := Maximum dst; ExclusiveMinimum :=
     ExclusiveMinimum dst; ExclusiveMaximum := ExclusiveMaximum dst |}.
Definition set_Maximum (x : Z) (dst : Type_) : Type_ :=
  {| Version := Version dst; Ref := Ref dst; Typ := Typ dst; Title := Title
     dst; Format := Format dst; Default := Default dst; Enum := Enum dst;
     OneOf := OneOf dst; AnyOf := AnyOf dst; AllOf := AllOf dst; Items :=
     Items dst; Properties := Properties dst; PatternProperties :=
     PatternProperties dst; AdditionalProperties := AdditionalProperties dst;
     Required := Required dst; Definitions_ := Definitions_ dst; Media :=
     Media dst; BinaryEncoding := BinaryEncoding dst; MinItems := MinItems
     dst; MaxItems := MaxItems dst; UniqueItems := UniqueItems dst; MinLength
     := MinLength dst; MaxLength := MaxLength dst; MultipleOf := MultipleOf
     dst; Minimum := Minimum dst; Maximum := x; ExclusiveMinimum :=
     ExclusiveMinimum dst; ExclusiveMaximum := ExclusiveMaximum dst |}.
Definition set_ExclusiveMinimum (x : bool) (dst : Type_) : Type_ :=
  {| Version := Version dst; Ref := Ref dst; Typ := Typ dst; Title := Title
     dst; Format := Format dst; Default := Default dst; Enum := Enum dst;
     OneOf := OneOf dst; AnyOf := AnyOf dst; AllOf := AllOf dst; Items :=
     Items dst; Properties := Properties dst; PatternProperties :=
     PatternProperties dst; AdditionalProperties := AdditionalProperties dst;
     Required := Required dst; Definitions_ := Definitions_ dst; Media :=
     Media dst; BinaryEncoding := BinaryEncoding dst; MinItems := MinItems
     dst; MaxItems := MaxItems dst; UniqueItems := UniqueItems dst; MinLength
     := MinLength dst; MaxLength := MaxLength dst; MultipleOf := MultipleOf
     dst; Minimum := Minimum dst; Maximum := Maximum dst; ExclusiveMinimum :=
     x; ExclusiveMaximum := ExclusiveMaximum dst |}.
Definition set_ExclusiveMaximum (x : bool) (dst : Type_) : Type_ :=
  {| Version := Version dst; Ref := Ref dst; Typ := Typ dst; Title := Title
     dst; Format := Format dst; Default := Default dst; Enum := Enum dst;
     OneOf := OneOf dst; AnyOf := AnyOf dst; AllOf := AllOf dst; Items :=
     Items dst; Properties := Properties dst; PatternProperties :=
     PatternProperties dst; AdditionalProperties := AdditionalProperties dst;
     Required := Required dst; Definitions_ := Definitions_ dst; Media :=
     Media dst; BinaryEncoding := BinaryEncoding dst; MinItems := MinItems
     dst; MaxItems := MaxItems dst; UniqueItems := UniqueItems dst; MinLength
     := MinLength dst; MaxLength := MaxLength dst; MultipleOf := MultipleOf
     dst; Minimum := Minimum dst; Maximum := Maximum dst; ExclusiveMinimum :=
     ExclusiveMinimum dst; ExclusiveMaximum := x |}.

(** ** Constants of the package ([reflect.go], lines 13-20) *)

Definition tTypeObject : string := "object".
Definition tTypeString : string := "string".
Definition tTypeInteger : string := "integer".
Definition tTypeNumber : string := "number".
Definition tTypeBoolean : string := "boolean".
Definition tTypeArray : string := "array".

(** Modelled from the spec: [newType] is declared in the missing file.
    The walker assigns into the [Properties] of the node it returns, so
    the node has its kind set and an allocated, empty property map (the
    model does not tell a nil map from an empty one). *)
Definition newType (typ : string) : Type_ :=
  set_Properties ∅ (set_Typ typ emptyType).

(** Modelled from the spec: [newReference] is declared in the missing
    file; [schema_test.go] fixes its result:
    [newReference("string").Ref = "#/definitions/string"]. *)
Definition newReference (typ : string) : Type_ :=
  set_Ref ("#/definitions/" +:+ typ) emptyType.

(** ** The fragment of packages [strings] and [strconv] used by the tag
    reader *)

(** [strings.Split(s, ",")[0]] *)
Fixpoint Split_head (s : string) : string :=
  match s with
  | EmptyString => EmptyString
  | String c r => if Ascii.eqb c ","%char then EmptyString else String c (Split_head r)
  end.

Module strconv.

(** [strconv.ParseBool]: the value and whether parsing succeeded. *)
Definition ParseBool (str : string) : bool * bool :=
  if bool_decide (str ∈ ["1"; "t"; "T"; "TRUE"; "true"; "True"]) then (true, true)
  else if bool_decide (str ∈ ["0"; "f"; "F"; "FALSE"; "false"; "False"]) then (false, true)
  else (false, false).

Inductive NumParse := Syntax | Range | Num (n : Z).

Definition digit (c : ascii) : option Z :=
  let n := Z.of_nat (nat_of_ascii c) in
  if (48 <=? n) && (n <=? 57) then Some (n - 48) else None.

Definition maxUint64 : Z := 2 ^ 64 - 1.

(** The digit loop of [strconv.ParseUint(s, 10, 64)]. *)
Fixpoint ParseUint_loop (s : string) (n : Z) : NumParse :=
  match s with
  | EmptyString => Num n
  | String c r =>
      match digit c with
      | None => Syntax
      | Some d =>
          if maxUint64 / 10 + 1 <=? n then Range
          else if maxUint64 <? n * 10 + d then Range
          else ParseUint_loop r (n * 10 + d)
      end
  end.

Definition ParseUint (s : string) : NumParse :=
  match s with
  | EmptyString => Syntax
  | _ => ParseUint_loop s 0
  end.

(** [strconv.Atoi] where [int] has 64 bits: the value and whether
    parsing succeeded.  A syntax error yields 0, a range error the
    nearest bound. *)
Definition Atoi (s : string) : Z * bool :=
  match s with
  | EmptyString => (0, false)
  | String c r =>
      let neg := Ascii.eqb c "-"%char in
      let s' := if Ascii.eqb c "+"%char || neg then r else s in
      let cutoff := 2 ^ 63 in
      match ParseUint s' with
      | Syntax => (0, false)
      | Range => (if neg then - cutoff else cutoff - 1, false)
      | Num un =>
          if negb neg && (cutoff <=? un) then (cutoff - 1, false)
          else if neg && (cutoff <? un) then (- cutoff, false)
          else (if neg then - un else un, true)
      end
  end.

End strconv.

(** ** The tag reader ([parseTags] and its constants) *)

Definition tagName : string := "name".
Definition tagNameJson : string := "json".
Definition tagTitle : string := "title".
Definition tagRequired : string := "required".
Definition tagIgnore : string := "ignore".
Definition tagStringMinLength : string := "minLength".
Definition tagStringMaxLength : string := "maxLength".
Definition tagStringFormat : string := "format".
Definition tagNumberMultipleOf : string := "multipleOf".
Definition tagNumberMinimum : string := "minimum".
Definition tagNumberMaximum : string := "maximum".
Definition tagNumberExclusiveMaximum : string := "exclusiveMaximum".
Definition tagNumberExclusiveMinimum : string := "exclusiveMinimum".
Definition tagArrayMinItems : string := "minItems".
Definition tagArrayMaxItems : string := "maxItems".
Definition tagArrayUniqueItems : string := "uniqueItems".
Definition tagConditionShowIf : string := "show_if".
Definition tagConditionHideIf : string := "hide_if".

Record tags := mkTags {
  name : string;
  title : string;
  required : bool;
  ignored : bool;
  (* string specific *)
  minLength : Z;
  maxLength : Z;
  format : string;
  (* number specific *)
  multipleOf : Z;
  minimum : Z;
  maximum : Z;
  exclusiveMaximum : bool;
  exclusiveMinimum : bool;
  (* array specific *)
  minItems : Z;
  maxItems : Z;
  uniqueItems : bool;
  showIf : string;
  hideIf : string
}.

(** The Go zero value [tags{}]. *)
Definition emptyTags : tags :=
  mkTags "" "" false false 0 0 "" 0 0 0 false false 0 0 false "" "".

Definition parseTags (tag : reflect.StructTag) : tags :=
  let get := reflect.Get tag in
  let rest (n : string) : tags :=
    {| name := n;
       title := get tagTitle;
       ignored := fst (strconv.ParseBool (get tagIgnore));
       required := fst (strconv.ParseBool (get tagRequired));
       minLength := fst (strconv.Atoi (get tagStringMinLength));
       maxLength := fst (strconv.Atoi (get tagStringMaxLength));
       format := get tagStringFormat;
       multipleOf := fst (strconv.Atoi (get tagNumberMultipleOf));
       minimum := fst (strconv.Atoi (get tagNumberMinimum));
       maximum := fst (strconv.Atoi (get tagNumberMaximum));
       exclusiveMinimum := fst (strconv.ParseBool (get tagNumberExclusiveMinimum));
       exclusiveMaximum := fst (strconv.ParseBool (get tagNumberExclusiveMaximum));
       minItems := fst (strconv.Atoi (get tagArrayMinItems));
       maxItems := fst (strconv.Atoi (get tagArrayMaxItems));
       uniqueItems := fst (strconv.ParseBool (get tagArrayUniqueItems));
       showIf := get tagConditionShowIf;
       hideIf := get tagConditionHideIf |} in
  match reflect.Lookup tag tagName with
  | Some n => rest n
  | None =>
      let part0 := Split_head (get tagNameJson) in
      if String.eqb part0 "-"
      then mkTags "" "" false true 0 0 "" 0 0 0 false false 0 0 false "" ""
      else rest part0
  end.

(** ** Metadata application ([applyValidation], [applyInfo]) *)

Definition applyValidation (dst : Type_) (t : tags) : Type_ :=
  if String.eqb (Typ dst) tTypeString then
    let dst := set_MinLength (minLength t) dst in
    let dst := set_MaxLength (maxLength t) dst in
    if negb (String.eqb (format t) "") then set_Format (format t) dst else dst
  else if String.eqb (Typ dst) tTypeNumber then
    let dst := set_MultipleOf (multipleOf t) dst in
    let dst := set_Minimum (minimum t) dst in
    let dst := set_Maximum (maximum t) dst in
    let dst := set_ExclusiveMinimum (exclusiveMinimum t) dst in
    set_ExclusiveMaximum (exclusiveMaximum t) dst
  else if String.eqb (Typ dst) tTypeArray then
    let dst := set_MinItems (minItems t) dst in
    let dst := set_MaxItems (maxItems t) dst in
    set_UniqueItems (uniqueItems t) dst
  else dst.

Definition applyInfo (dst : Type_) (t : tags) : Type_ :=
  set_Title (title t) dst.

(** ** Descriptors of the types the walker knows by identity
    ([reflect_types.go], lines 13-18)

    [time.Time], [net.IP] and [url.URL] are described as the Go standard
    library declares them; only their identity matters to the walker. *)

Definition scalarT (n : string) (k : reflect.Kind) : rtype :=
  reflect.Scalar (builtin n) k.

Definition stringT : rtype := scalarT "string" reflect.String.
Definition boolT : rtype := scalarT "bool" reflect.Bool.
Definition intT : rtype := scalarT "int" reflect.Int.
Definition int64T : rtype := scalarT "int64" reflect.Int64.
Definition uint8T : rtype := scalarT "uint8" reflect.Uint8.
Definition uint64T : rtype := scalarT "uint64" reflect.Uint64.
Definition float64T : rtype := scalarT "float64" reflect.Float64.
Definition emptyInterfaceT : rtype := reflect.TInterface unnamed.

(** An unexported field of a standard library struct. *)
Definition hidden (pkg n : string) (t : rtype) : StructField :=
  reflect.mkField n pkg false [] t.

(** An exported, untagged field of a standard library struct. *)
Definition exported (n : string) (t : rtype) : StructField :=
  reflect.mkField n "" false [] t.

Definition time_zone : rtype :=
  reflect.TStruct (mkDecl "zone" "time" [])
    [hidden "time" "name" stringT; hidden "time" "offset" intT;
     hidden "time" "isDST" boolT].

Definition time_zoneTrans : rtype :=
  reflect.TStruct (mkDecl "zoneTrans" "time" [])
    [hidden "time" "when" int64T; hidden "time" "index" uint8T;
     hidden "time" "isstd" boolT; hidden "time" "isutc" boolT].

Definition time_Location : rtype :=
  reflect.TStruct (mkDecl "Location" "time" [])
    [hidden "time" "name" stringT;
     hidden "time" "zone" (reflect.TSlice unnamed time_zone);
     hidden "time" "tx" (reflect.TSlice unnamed time_zoneTrans);
     hidden "time" "extend" stringT;
     hidden "time" "cacheStart" int64T;
     hidden "time" "cacheEnd" int64T;
     hidden "time" "cacheZone" (reflect.PtrTo time_zone)].

Definition url_Userinfo : rtype :=
  reflect.TStruct (mkDecl "Userinfo" "net/url" [])
    [hidden "net/url" "username" stringT;
     hidden "net/url" "password" stringT;
     hidden "net/url" "passwordSet" boolT].

Definition typeTime : rtype :=
  reflect.TStruct (mkDecl "Time" "time" [])
    [hidden "time" "wall" uint64T; hidden "time" "ext" int64T;
     hidden "time" "loc" (reflect.PtrTo time_Location)].

Definition typeIP : rtype := reflect.TSlice (mkDecl "IP" "net" []) uint8T.

Definition typeURI : rtype :=
  reflect.TStruct (mkDecl "URL" "net/url" [])
    [exported "Scheme" stringT; exported "Opaque" stringT;
     exported "User" (reflect.PtrTo url_Userinfo);
     exported "Host" stringT; exported "Path" stringT;
     exported "RawPath" stringT; exported "OmitHost" boolT;
     exported "ForceQuery" boolT; exported "RawQuery" stringT;
     exported "Fragment" stringT; exported "RawFragment" stringT].

Definition typeByteSlice : rtype := reflect.TSlice unnamed uint8T.

(** [t == u] where [t] is a possibly nil [reflect.Type]. *)
Definition is_type (t : option rtype) (u : rtype) : bool :=
  match t with
  | Some t' => reflect.Type_eqb t' u
  | None => false
  end.

(** A method call on a possibly nil [reflect.Type]. *)
Definition deref_type (t : option rtype) : Result rtype :=
  match t with
  | Some t' => Ok t'
  | None => Panic NilDereference
  end.

Definition kind_is (k k' : reflect.Kind) : bool := bool_decide (k = k').

(** ** The walker ([reflect.go] lines 22-152, [reflect_types.go] lines
    46-210)

    The registry [definitions] is a Go map, shared by reference between
    all calls of one reflection: the model threads it through every call
    and returns it next to the node.  The nodes are never assigned to
    after they are stored in the registry or in a parent node, so the
    pointers [*Type] are modelled by the nodes they point to. *)

(** The signature of [reflectType]. *)
Definition Walk : Type :=
  forall (definitions : Definitions) (t : option rtype) (v : Value)
    (root : bool), Result (Type_ * Definitions).

(** The signature of [reflectStruct]. *)
Definition WalkStruct : Type :=
  forall (definitions : Definitions) (v : Value), Result (Type_ * Definitions).

Section Walker.

(** The constant [Version], declared in the missing file. *)
Variable Version_ : string.

(** The bodies of the capability methods [OneOf], [AnyOf], [AllOf] and
    [Enum] of the program's types: [method c x] is the list returned by
    the method of capability [c] on the receiver [x].  The methods are
    taken to return without panicking. *)
Variable method : Capability -> Value -> list any.

(** [v.Interface().(I).M()] for the interface [I] and its method [M] of
    capability [c]: the type assertion panics on a nil interface and on
    a dynamic type that lacks the method. *)
Definition assertMethod (c : Capability) (v : Value) : Result (list any) :=
  i <- reflect.Value_Interface v ;;
  match i with
  | Some (reflect.Val t d) =>
      if reflect.Implements t c then Ok (method c (reflect.Val t d))
      else Panic TypeAssertion
  | _ => Panic TypeAssertion
  end.

Definition reflectTime (definition : Definitions) (v : Value) : Type_ :=
  set_Format "date-time" (set_Typ tTypeString emptyType).

Definition reflectIP (definition : Definitions) (v : Value) : Type_ :=
  set_Format "ipv4" (set_Typ tTypeString emptyType).

Definition reflectURI (definition : Definitions) (v : Value) : Type_ :=
  set_Format "uri" (set_Typ tTypeString emptyType).

Definition reflectPBEnum (definition : Definitions) (v : Value) : Type_ :=
  set_OneOf [set_Typ tTypeString emptyType; set_Typ tTypeInteger emptyType]
    emptyType.

Definition reflectEnum (reflectType : Walk) (definition : Definitions)
    (v : Value) : Result (Type_ * Definitions) :=
  variants <- assertMethod CapEnum v ;;
  match variants with
  | [] => Panic IndexOutOfRange
  | variant0 :: _ =>
      let variantValueOf := reflect.ValueOf variant0 in
      let variantTypeOf := reflect.TypeOf variant0 in
      r <- reflectType definition variantTypeOf variantValueOf false ;;
      let (vType, definition) := r in
      default <- reflect.Value_Interface v ;;
      Ok (set_Default default (set_Enum variants
            (set_Typ (Typ vType) emptyType)), definition)
  end.

(** The loop shared by [reflectOneOf], [reflectAnyOf] and [reflectAllOf]:
    every variant is walked in order, with [root = false]. *)
Definition reflectVariants (reflectType : Walk) (definition : Definitions)
    (variants : list any) : Result (list Type_ * Definitions) :=
  foldM (fun (st : list Type_ * Definitions) (variant : any) =>
           let (nodes, definition) := st in
           r <- reflectType definition (reflect.TypeOf variant)
                  (reflect.ValueOf variant) false ;;
           let (node, definition) := r in
           Ok (nodes ++ [node], definition))
        ([], definition) variants.

Definition reflectOneOf (reflectType : Walk) (definition : Definitions)
    (v : Value) : Result (Type_ * Definitions) :=
  variants <- assertMethod CapOneOf v ;;
  r <- reflectVariants reflectType definition variants ;;
  let (oneOf, definition) := r in
  default <- reflect.Value_Interface v ;;
  Ok (set_Default default (set_OneOf oneOf emptyType), definition).

Definition reflectAnyOf (reflectType : Walk) (definition : Definitions)
    (v : Value) : Result (Type_ * Definitions) :=
  variants <- assertMethod CapAnyOf v ;;
  r <- reflectVariants reflectType definition variants ;;
  let (anyOf, definition) := r in
  default <- reflect.Value_Interface v ;;
  Ok (set_Default default (set_AnyOf anyOf emptyType), definition).

Definition reflectAllOf (reflectType : Walk) (definition : Definitions)
    (v : Value) : Result (Type_ * Definitions) :=
  variants <- assertMethod CapAllOf v ;;
  r <- reflectVariants reflectType definition variants ;;
  let (allOf, definition) := r in
  default <- reflect.Value_Interface v ;;
  Ok (set_Default default (set_AllOf allOf emptyType), definition).

(** [getSliceValue] ([reflect_types.go], lines 369-375); no function of
    the package calls it. *)
Definition getSliceValue (v : Value) : Result Value :=
  n <- reflect.Value_Len v ;;
  if (0 <? n)%nat then reflect.Value_Index v 0
  else
    t <- reflect.Value_Type v ;;
    te <- reflect.Type_Elem t ;;
    Ok (reflect.New te).

Definition reflectSlice (reflectType : Walk) (definition : Definitions)
    (v : Value) : Result (Type_ * Definitions) :=
  let returnType := newType "" in
  t <- reflect.Value_Type v ;;
  returnType <-
    (if kind_is (reflect.Type_Kind t) reflect.Array then
       n <- reflect.Type_Len t ;;
       Ok (set_MaxItems n (set_MinItems n returnType))
     else Ok returnType) ;;
  te <- reflect.Type_Elem t ;;
  let elemValue := reflect.New te in
  if reflect.Type_eqb t typeByteSlice then
    Ok (set_Media (Some (set_BinaryEncoding "base64" emptyType))
          (set_Typ tTypeString returnType), definition)
  else
    r <- reflectType definition (Some (reflect.PtrTo te)) elemValue false ;;
    let (items, definition) := r in
    Ok (set_Items (Some items) (set_Typ "array" returnType), definition).

Definition reflectMap (reflectType : Walk) (definitions : Definitions)
    (v : Value) : Result (Type_ * Definitions) :=
  t <- reflect.Value_Type v ;;
  val <- reflect.Type_Elem t ;;
  r <- reflectType definitions (Some val) (reflect.New val) false ;;
  let (node, definitions) := r in
  let rt := set_PatternProperties {[ ".*" := node ]}
              (set_Typ tTypeObject emptyType) in
  Ok (set_PatternProperties
        (delete "additionalProperties" (PatternProperties rt)) rt,
      definitions).

Definition reflectInteger (definitions : Definitions) (v : Value)
    : Result Type_ :=
  default <- reflect.Value_Interface v ;;
  Ok (set_Default default (set_Typ tTypeInteger emptyType)).

Definition reflectNumber (definitions : Definitions) (v : Value)
    : Result Type_ :=
  default <- reflect.Value_Interface v ;;
  Ok (set_Default default (set_Typ tTypeNumber emptyType)).

Definition reflectBool (definitions : Definitions) (v : Value)
    : Result Type_ :=
  default <- reflect.Value_Interface v ;;
  Ok (set_Default default (set_Typ tTypeBoolean emptyType)).

Definition reflectString (definitions : Definitions) (v : Value)
    : Result Type_ :=
  default <- reflect.Value_Interface v ;;
  Ok (set_Default default (set_Typ tTypeString emptyType)).

Definition reflectInterface (definitions : Definitions) (t : option rtype)
    (v : Value) : Type_ :=
  set_AdditionalProperties "true" (set_Typ tTypeObject emptyType).

(** The first two statements of [reflectType] ([reflect.go], lines
    38-48): a pointer is dereferenced, a nil pointer replaced by the zero
    value of the pointee type, and an interface value is replaced by its
    content. *)
Definition unwrap (t : option rtype) (v : Value) : Result Value :=
  v <-
    (if kind_is (reflect.Value_Kind v) reflect.Ptr then
       v <- reflect.Value_Elem v ;;          (* deref ptr *)
       if negb (reflect.IsValid v) then
         t <- deref_type t ;;
         te <- reflect.Type_Elem t ;;
         Ok (reflect.Zero te)                (* create zero value *)
       else Ok v
     else Ok v) ;;
  if kind_is (reflect.Value_Kind v) reflect.Interface then
    e <- reflect.Value_Elem v ;;
    Ok (reflect.Indirect e)
  else Ok v.

(** The [switch v.Kind()] of [reflectType] and its fall-through
    ([reflect.go], lines 76-108). *)
Definition reflectKind (reflectType : Walk) (reflectStruct : WalkStruct)
    (definitions : Definitions) (t : option rtype) (v : Value) (root : bool)
    : Result (Type_ * Definitions) :=
  match reflect.Value_Kind v with
  | reflect.Struct =>
      r <- reflectStruct definitions v ;;
      let (currentType, definitions) := r in
      if root then Ok (currentType, definitions)
      else
        vt <- reflect.Value_Type v ;;
        Ok (newReference (reflect.Type_Name vt),
            <[ reflect.Type_Name vt := currentType ]> definitions)
  | reflect.Slice => reflectSlice reflectType definitions v
  | reflect.Map => reflectMap reflectType definitions v
  | reflect.Int | reflect.Int8 | reflect.Int16 | reflect.Int32 | reflect.Int64
  | reflect.Uint | reflect.Uint8 | reflect.Uint16 | reflect.Uint32
  | reflect.Uint64 =>
      node <- reflectInteger definitions v ;; Ok (node, definitions)
  | reflect.Float32 | reflect.Float64 =>
      node <- reflectNumber definitions v ;; Ok (node, definitions)
  | reflect.Bool =>
      node <- reflectBool definitions v ;; Ok (node, definitions)
  | reflect.String =>
      node <- reflectString definitions v ;; Ok (node, definitions)
  | _ => Ok (reflectInterface definitions t v, definitions)
  end.

(** The body of [reflectType] ([reflect.go], lines 37-109), with the
    recursive calls as parameters. *)
Definition reflectType_body (reflectType : Walk) (reflectStruct : WalkStruct)
    (definitions : Definitions) (t : option rtype) (v : Value) (root : bool)
    : Result (Type_ * Definitions) :=
  v <- unwrap t v ;;
  if is_type t typeTime then Ok (reflectTime definitions v, definitions)
  else if is_type t typeIP then Ok (reflectIP definitions v, definitions)
  else if is_type t typeURI then Ok (reflectURI definitions v, definitions)
  else
    t' <- deref_type t ;;
    if reflect.Implements t' CapPBEnum then
      Ok (reflectPBEnum definitions v, definitions)
    else if reflect.Implements t' CapOneOf then
      reflectOneOf reflectType definitions v
    else if reflect.Implements t' CapAnyOf then
      reflectAnyOf reflectType definitions v
    else if reflect.Implements t' CapAllOf then
      reflectAllOf reflectType definitions v
    else if reflect.Implements t' CapEnum then
      reflectEnum reflectType definitions v
    else reflectKind reflectType reflectStruct definitions t v root.

(** One iteration of the loop of [reflectStruct] ([reflect.go], lines
    115-148): the state is the node under construction and the
    registry. *)
Definition reflectStruct_field (reflectType : Walk)
    (reflectStruct : WalkStruct) (st : Type_ * Definitions)
    (fv : StructField * Value) : Result (Type_ * Definitions) :=
  let (currentType, definitions) := st in
  let (structField, structValue) := fv in
  (* unexported field *)
  if negb (String.eqb (reflect.PkgPath structField) "") then Ok st
  else
    st <-
      (* embedded field *)
      (if reflect.Anonymous structField then
         r <- reflectStruct definitions structValue ;;
         let (typ, definitions) := r in
         let properties := Properties typ ∪ Properties currentType in
         Ok (set_Properties properties currentType,
             Definitions_ typ ∪ definitions)
       else Ok st) ;;
    let (currentType, definitions) := st in
    let tags := parseTags (reflect.Tag structField) in
    if String.eqb (name tags) "" || ignored tags then Ok st
    else
      r <- reflectType definitions (Some (reflect.Typ structField))
             structValue false ;;
      let (fieldType, definitions) := r in
      let fieldType := applyInfo fieldType tags in
      let fieldType := applyValidation fieldType tags in
      Ok (set_Properties (<[ name tags := fieldType ]> (Properties currentType))
            currentType,
          definitions).

(** The body of [reflectStruct] ([reflect.go], lines 111-152). *)
Definition reflectStruct_body (reflectType : Walk)
    (reflectStruct : WalkStruct) (definitions : Definitions) (v : Value)
    : Result (Type_ * Definitions) :=
  let currentType := newType tTypeObject in
  fields <- reflect.Value_Fields v ;;
  foldM (reflectStruct_field reflectType reflectStruct)
    (currentType, definitions) fields.

(** [reflectType] and [reflectStruct].  Go bounds the recursion by the
    call stack only; [fuel] bounds the depth of nested calls. *)
Fixpoint reflectType (fuel : nat) : Walk :=
  match fuel with
  | O => fun _ _ _ _ => OutOfFuel
  | S fuel' => reflectType_body (reflectType fuel') (reflectStruct fuel')
  end
with reflectStruct (fuel : nat) : WalkStruct :=
  match fuel with
  | O => fun _ _ => OutOfFuel
  | S fuel' => reflectStruct_body (reflectType fuel') (reflectStruct fuel')
  end.

Record Schema := mkSchema {
  Schema_Type : Type_;
  Schema_Definitions : Definitions
}.

(** [Reflect] ([reflect.go], lines 22-35). *)
Definition Reflect (fuel : nat) (v : any) : Result Schema :=
  let valueOf := reflect.ValueOf v in
  let typeOf := reflect.TypeOf v in
  let valueOf := reflect.Indirect valueOf in
  let definitions : Definitions := ∅ in
  r <- reflectType fuel definitions typeOf valueOf true ;;
  let (root, definitions) := r in
  let root := set_Version Version_ root in
  Ok (mkSchema root definitions).

End Walker.

(** ** Fixtures

    Types and values of the package's tests ([reflect_test.go],
    [complex_types_test.go] and the test file of the walker), and a few in
    their style. *)

Module Fixtures.

Definition pkg : string := "jsonschema".

Definition strV (s : string) : Value := reflect.Val stringT (reflect.DString s).
Definition intV (n : Z) : Value := reflect.Val intT (reflect.DInt n).
Definition nilPtr (elem : rtype) : Value :=
  reflect.Val (reflect.PtrTo elem) (reflect.DPtr None).

(** A field [Name T `json:"j"`]. *)
Definition jsonField (n j : string) (t : rtype) : StructField :=
  reflect.mkField n "" false [("json", j)] t.

(** [type GrandfatherType struct { FamilyName string }], the field
    named [family_name] and marked required in the tag syntax of
    [parseTags]. *)
Definition GrandfatherType : rtype :=
  reflect.TStruct (mkDecl "GrandfatherType" pkg [])
    [reflect.mkField "FamilyName" "" false
       [("json", "family_name"); ("required", "true")] stringT].

Definition grandfather (familyName : string) : Value :=
  reflect.Val GrandfatherType (reflect.DList [strV familyName]).

(** A struct with two members of type [GrandfatherType]. *)
Definition Family : rtype :=
  reflect.TStruct (mkDecl "Family" pkg [])
    [jsonField "Paternal" "paternal" GrandfatherType;
     jsonField "Maternal" "maternal" GrandfatherType].

Definition family : Value :=
  reflect.Val Family (reflect.DList [grandfather "x"; grandfather "y"]).

(** The tag of [Age int] of [TestUser], in the tag syntax of
    [parseTags]. *)
Definition ageTag : reflect.StructTag :=
  [("json", "age"); ("minimum", "18"); ("maximum", "120");
   ("exclusiveMaximum", "true"); ("exclusiveMinimum", "true")].

(** [type String string] and [type ColorPicker struct { String }]. *)
Definition String_ : rtype :=
  reflect.Scalar (mkDecl "String" pkg []) reflect.String.

Definition ColorPicker : rtype :=
  reflect.TStruct (mkDecl "ColorPicker" pkg [])
    [reflect.mkField "String" "" true [] String_].

Definition colorPicker : Value :=
  reflect.Val ColorPicker
    (reflect.DList [reflect.Val String_ (reflect.DString "")]).

(** The same with an unexported embedded type:
    [type str string] and [type Swatch struct { str }]. *)
Definition str_ : rtype :=
  reflect.Scalar (mkDecl "str" pkg []) reflect.String.

Definition Swatch : rtype :=
  reflect.TStruct (mkDecl "Swatch" pkg [])
    [reflect.mkField "str" pkg true [] str_].

Definition swatch : Value :=
  reflect.Val Swatch
    (reflect.DList [reflect.Val str_ (reflect.DString "")]).

(** [type enum []string] with
    [func (dt enum) Enum() []interface{}] returning the elements of
    the receiver ([reflect_test.go]). *)
Definition enum : rtype :=
  reflect.TSlice (mkDecl "enum" pkg [(CapEnum, ByValue)]) stringT.

Definition enumV (l : list string) : Value :=
  reflect.Val enum (reflect.DList (strV <$> l)).

(** [type EnumAlign string] with [Enum()] returning ["center"]
    ([complex_types_test.go]). *)
Definition EnumAlign : rtype :=
  reflect.Scalar (mkDecl "EnumAlign" pkg [(CapEnum, ByValue)]) reflect.String.

(** [type ProtoEnum int32] with [EnumDescriptor]. *)
Definition ProtoEnum : rtype :=
  reflect.Scalar (mkDecl "ProtoEnum" pkg [(CapPBEnum, ByValue)]) reflect.Int32.

(** A type with the any-of, all-of and enumerable capabilities. *)
Definition Chimera : rtype :=
  reflect.Scalar
    (mkDecl "Chimera" pkg
       [(CapEnum, ByValue); (CapAllOf, ByValue); (CapAnyOf, ByValue)])
    reflect.String.

(** The method bodies of the fixture types. *)
Definition method (c : Capability) (x : Value) : list any :=
  match x with
  | reflect.Val t d =>
      if reflect.Type_eqb t enum then
        match d with
        | reflect.DList l => Some <$> l
        | _ => []
        end
      else if reflect.Type_eqb t EnumAlign then [Some (strV "center")]
      else [Some (strV "1"); Some (strV "2"); Some (strV "3")]
  | reflect.VInvalid => []
  end.

(** [enumImpl], [implicitOneOfImpl], [implicitAnyOfImpl] and
    [implicitAllOfImpl] of the tests: empty structs whose capability
    method returns ["1", "2", "3"]. *)
Definition implOf (n : string) (c : Capability) : rtype :=
  reflect.TStruct (mkDecl n pkg [(c, ByValue)]) [].

Definition implV (n : string) (c : Capability) : Value :=
  reflect.Val (implOf n c) (reflect.DList []).

(** [[4]int{1, 2, 3, 4}] and [map[string]int{}]. *)
Definition array4 : Value :=
  reflect.Val (reflect.TArray unnamed 4 intT)
    (reflect.DList [intV 1; intV 2; intV 3; intV 4]).

Definition mapStringInt : Value :=
  reflect.Val (reflect.TMap unnamed stringT intT) (reflect.DMap []).

(** [[]interface{}{"1", "2", "3"}]. *)
Definition interfaceSlice : Value :=
  reflect.Val (reflect.TSlice unnamed emptyInterfaceT)
    (reflect.DList
       ((fun s => reflect.Val emptyInterfaceT (reflect.DIface (Some (strV s))))
          <$> ["1"; "2"; "3"])).

(** [chan int], [func()] and [complex128] values. *)
Definition chanInt : rtype := reflect.TChan unnamed intT.
Definition funcT : rtype := reflect.TFunc unnamed.
Definition complex128T : rtype := scalarT "complex128" reflect.Complex128.

Definition opaque (t : rtype) : Value := reflect.Val t reflect.DOpaque.

(** [[]string{"a"}] and [[]byte{}]. *)
Definition stringSlice (l : list string) : Value :=
  reflect.Val (reflect.TSlice unnamed stringT) (reflect.DList (strV <$> l)).

Definition bytes (l : list Z) : Value :=
  reflect.Val typeByteSlice
    (reflect.DList ((fun b => reflect.Val uint8T (reflect.DInt b)) <$> l)).

(** [type Blob []byte] and [[4]byte{1, 2, 3, 4}]: byte sequences whose
    type is not [[]byte]. *)
Definition Blob : rtype := reflect.TSlice (mkDecl "Blob" pkg []) uint8T.

Definition blob (l : list Z) : Value :=
  reflect.Val Blob
    (reflect.DList ((fun b => reflect.Val uint8T (reflect.DInt b)) <$> l)).

Definition byteArray4 : Value :=
  reflect.Val (reflect.TArray unnamed 4 uint8T)
    (reflect.DList
       ((fun b => reflect.Val uint8T (reflect.DInt b)) <$> [1; 2; 3; 4])).

(** [type Footer struct { Disclosure *bool `json:"disclosure"` }]. *)
Definition Footer : rtype :=
  reflect.TStruct (mkDecl "Footer" pkg [])
    [jsonField "Disclosure" "disclosure" (reflect.PtrTo boolT)].

Definition footer : Value :=
  reflect.Val Footer (reflect.DList [nilPtr boolT]).

End Fixtures.

(** ** Vocabulary of the statements *)

(** The types that [reflectType] recognises by identity before any other
    dispatch ([switch t], [reflect.go] lines 50-57). *)
Definition well_known (t : option rtype) : bool :=
  is_type t typeTime || is_type t typeIP || is_type t typeURI.

(** The precedence of the capabilities as the spec lists it:
    protobuf-generated enumerable, one-of, any-of, all-of,
    enumerable-with-variants. *)
Definition capability_rank (c : Capability) : nat :=
  match c with
  | CapPBEnum => 0
  | CapOneOf => 1
  | CapAnyOf => 2
  | CapAllOf => 3
  | CapEnum => 4
  end.

(** The handler that the spec pairs with each capability. *)
Definition capability_handler (method : Capability -> Value -> list any)
    (c : Capability) (reflectType : Walk) (definitions : Definitions)
    (v : Value) : Result (Type_ * Definitions) :=
  match c with
  | CapPBEnum => Ok (reflectPBEnum definitions v, definitions)
  | CapOneOf => reflectOneOf method reflectType definitions v
  | CapAnyOf => reflectAnyOf method reflectType definitions v
  | CapAllOf => reflectAllOf method reflectType definitions v
  | CapEnum => reflectEnum method reflectType definitions v
  end.

(** A type without any of the five capabilities. *)
Definition no_capability (t : rtype) : Prop :=
  forall c, reflect.Implements t c = false.

(** The kinds of the leaf cases of [switch v.Kind()]: integers, floating
    point numbers, booleans and strings. *)
Definition is_leaf_kind (k : reflect.Kind) : bool :=
  match k with
  | reflect.Int | reflect.Int8 | reflect.Int16 | reflect.Int32 | reflect.Int64
  | reflect.Uint | reflect.Uint8 | reflect.Uint16 | reflect.Uint32
  | reflect.Uint64
  | reflect.Float32 | reflect.Float64 | reflect.Bool | reflect.String => true
  | _ => false
  end.

(** The kinds that no case of [switch v.Kind()] names. *)
Definition is_unmatched_kind (k : reflect.Kind) : bool :=
  match k with
  | reflect.Invalid | reflect.Uintptr | reflect.Complex64 | reflect.Complex128
  | reflect.Array | reflect.Chan | reflect.Func | reflect.Interface
  | reflect.Ptr | reflect.UnsafePointer => true
  | _ => false
  end.

(** The representative element that the spec describes for the sequence
    walk: the first element of a sequence that has one, otherwise a fresh
    instance of the element type; this is what [getSliceValue] returns.
    [spec_items] walks that representative under its own type. *)
Definition spec_items (reflectType : Walk) (definitions : Definitions)
    (v : Value) : Result (Type_ * Definitions) :=
  representative <- getSliceValue v ;;
  rt <- reflect.Value_Type representative ;;
  reflectType definitions (Some rt) representative false.

(** ** Vocabulary of the further properties *)

(** The kind that the leaf cases of [switch v.Kind()] give a node:
    [reflectNumber] for the floating point kinds, [reflectBool],
    [reflectString], and [reflectInteger] for the integer kinds. *)
Definition leaf_type_name (k : reflect.Kind) : string :=
  match k with
  | reflect.Float32 | reflect.Float64 => tTypeNumber
  | reflect.Bool => tTypeBoolean
  | reflect.String => tTypeString
  | _ => tTypeInteger
  end.

(** A field that the loop of [reflectStruct] turns into a property: it is
    exported, its descriptor has a name and is not marked ignored. *)
Definition is_member (fv : StructField * Value) : bool :=
  String.eqb (reflect.PkgPath fv.1) ""
  && negb (String.eqb (name (parseTags (reflect.Tag fv.1))) "")
  && negb (ignored (parseTags (reflect.Tag fv.1))).

Definition member_name (fv : StructField * Value) : string :=
  name (parseTags (reflect.Tag fv.1)).

Definition member_names (fields : list (StructField * Value)) : gset string :=
  list_to_set (member_name <$> filter (fun fv => is_member fv = true) fields).

(** An exported embedded field. *)
Definition is_embedded (fv : StructField * Value) : bool :=
  String.eqb (reflect.PkgPath fv.1) "" && reflect.Anonymous fv.1.

(** A walker that never removes a name from the registry. *)
Definition keeps_names (rt : Walk) : Prop :=
  forall definitions t v root node definitions',
    rt definitions t v root = Ok (node, definitions') ->
    dom definitions ⊆ dom definitions'.

Definition keeps_names_struct (rs : WalkStruct) : Prop :=
  forall definitions v node definitions',
    rs definitions v = Ok (node, definitions') ->
    dom definitions ⊆ dom definitions'.

(** [r'] is the outcome [r] or what [r] becomes with a larger recursion
    budget. *)
Definition extends {A} (r r' : Result A) : Prop :=
  r = OutOfFuel \/ r' = r.

(** One walker answers wherever the other does, and the same. *)
Definition below (rt rt' : Walk) : Prop :=
  forall definitions t v root,
    extends (rt definitions t v root) (rt' definitions t v root).

Definition below_struct (rs rs' : WalkStruct) : Prop :=
  forall definitions v, extends (rs definitions v) (rs' definitions v).

(** An object node with nothing but its kind and its properties. *)
Definition bare_object (node : Type_) : Prop :=
  node = set_Properties (Properties node) (newType tTypeObject).

(** A value that is not of interface kind, as [reflect.ValueOf] returns
    them: [v.Interface()] is the value itself. *)
Definition plain_value (v : Value) : bool :=
  match v with
  | reflect.VInvalid => false
  | reflect.Val t d =>
      negb (kind_is (reflect.Type_Kind t) reflect.Interface)
      && match d with reflect.DIface _ => false | _ => true end
  end.

(** The data of a value of a scalar kind has the shape of the zero value
    of that kind: a boolean, an integer, a floating point number or a
    string. *)
Definition leaf_data (k : reflect.Kind) (d : reflect.Data) : bool :=
  match reflect.zeroScalar k, d with
  | reflect.DBool _, reflect.DBool _
  | reflect.DInt _, reflect.DInt _
  | reflect.DFloat _, reflect.DFloat _
  | reflect.DString _, reflect.DString _ => true
  | _, _ => false
  end.

(** The list of alternatives of a node under the keyword of the
    capability. *)
Definition alternatives (c : Capability) (node : Type_) : list Type_ :=
  match c with
  | CapOneOf => OneOf node
  | CapAnyOf => AnyOf node
  | CapAllOf => AllOf node
  | _ => []
  end.

(** The string contains a comma. *)
Fixpoint has_comma (s : string) : bool :=
  match s with
  | EmptyString => false
  | String c r => Ascii.eqb c ","%char || has_comma r
  end.

(** ** Further fixtures *)

Module MoreFixtures.

(** [type OneOfType struct { Variant interface { variant() } }] with
    [func (o *OneOfType) OneOf() []interface{}] ([reflect_test.go]). *)
Definition OneOfType : rtype :=
  reflect.TStruct (mkDecl "OneOfType" Fixtures.pkg [(CapOneOf, ByPointer)])
    [reflect.mkField "Variant" "" false [] (reflect.TInterface unnamed)].

Definition oneOfType : Value :=
  reflect.Val OneOfType
    (reflect.DList [reflect.Val (reflect.TInterface unnamed) (reflect.DIface None)]).

(** [type Wrapper struct { GrandfatherType }] *)
Definition Wrapper : rtype :=
  reflect.TStruct (mkDecl "Wrapper" Fixtures.pkg [])
    [reflect.mkField "GrandfatherType" "" true [] Fixtures.GrandfatherType].

Definition wrapper : Value :=
  reflect.Val Wrapper (reflect.DList [Fixtures.grandfather "x"]).

(** A type whose [OneOf] method returns a nil alternative. *)
Definition Holey : rtype :=
  reflect.Scalar (mkDecl "Holey" Fixtures.pkg [(CapOneOf, ByValue)]) reflect.String.

Definition holey : Value := reflect.Val Holey (reflect.DString "").

(** A type whose [AllOf] method returns the empty list. *)
Definition Blank : rtype :=
  reflect.Scalar (mkDecl "Blank" Fixtures.pkg [(CapAllOf, ByValue)]) reflect.String.

Definition blank : Value := reflect.Val Blank (reflect.DString "").

Definition method (c : Capability) (x : Value) : list any :=
  match x with
  | reflect.Val t _ =>
      if reflect.Type_eqb t Holey then [Some (Fixtures.strV "a"); None]
      else if reflect.Type_eqb t Blank then []
      else Fixtures.method c x
  | reflect.VInvalid => []
  end.

(** [BirthDate time.Time `json:"birth_date,omitempty" format:"date"
    maxLength:"10"`] *)
Definition birthDate : StructField :=
  reflect.mkField "BirthDate" "" false
    [("json", "birth_date,omitempty"); ("format", "date"); ("maxLength", "10")]
    typeTime.

End MoreFixtures.

(** The numeric attributes of a descriptor, each with the key it is read
    from. *)
Definition numeric_attributes (t : tags) : list (string * Z) :=
  [(tagStringMinLength, minLength t); (tagStringMaxLength, maxLength t);
   (tagNumberMultipleOf, multipleOf t); (tagNumberMinimum, minimum t);
   (tagNumberMaximum, maximum t); (tagArrayMinItems, minItems t);
   (tagArrayMaxItems, maxItems t)].

(** The descriptor that [parseTags] returns for the name ["-"]. *)
Definition ignoredTags : tags :=
  mkTags "" "" false true 0 0 "" 0 0 0 false false 0 0 false "" "".

(** ** The conditional-visibility expression ([parseExpression] and
    [exprRegexp] of the tag reader's file, lines 39-59) *)

Module Expression.

(** The struct [expression]. *)
Record expression := mkExpression {
  Option : string;
  Operation : string;
  Value : string
}.

(** The character class [[a-z]]. *)
Definition lower (c : ascii) : bool :=
  let n := nat_of_ascii c in (97 <=? n)%nat && (n <=? 122)%nat.

(** The alternatives of the second group, in the order of the pattern. *)
Definition operators : list string := ["="; "<"; ">"; "<="; ">="].

(** Backtracking matchers in continuation-passing style: [k] is given
    what the construct matched and what is left of the text, and the first
    success in the order of a backtracking search is the result.

    [match_plus cls s k] is the greedy repetition [cls+]: the longest run
    is tried first, then the shorter ones. *)
Fixpoint match_plus {R} (cls : ascii -> bool) (s : string)
    (k : string -> string -> option R) : option R :=
  match s with
  | EmptyString => None
  | String c r =>
      if cls c then
        match match_plus cls r (fun m rest => k (String c m) rest) with
        | Some x => Some x
        | None => k (String c EmptyString) r
        end
      else None
  end.

(** [strings.HasPrefix], returning the rest of the text. *)
Fixpoint strip_prefix (p s : string) : option string :=
  match p, s with
  | EmptyString, _ => Some s
  | String a p', String b s' => if Ascii.eqb a b then strip_prefix p' s' else None
  | String _ _, EmptyString => None
  end.

(** [match_alt alts s k] is the alternation of the literals [alts]: they
    are tried from left to right. *)
Fixpoint match_alt {R} (alts : list string) (s : string)
    (k : string -> string -> option R) : option R :=
  match alts with
  | [] => None
  | alt :: alts' =>
      match
        match strip_prefix alt s with
        | Some rest => k alt rest
        | None => None
        end
      with
      | Some x => Some x
      | None => match_alt alts' s k
      end
  end.

(** A match of [([a-z]+)(=|<|>|<=|>=)([a-z]+)] that starts at the
    beginning of [s]: the three groups. *)
Definition match_here (s : string) : option (string * string * string) :=
  match_plus lower s (fun g1 r1 =>
    match_alt operators r1 (fun g2 r2 =>
      match_plus lower r2 (fun g3 _ => Some (g1, g2, g3)))).

(** [exprRegexp.FindStringSubmatch]: the groups of the leftmost match,
    [None] for the nil slice of a text without match. *)
Fixpoint FindStringSubmatch (s : string) : option (string * string * string) :=
  match match_here s with
  | Some groups => Some groups
  | None =>
      match s with
      | EmptyString => None
      | String _ r => FindStringSubmatch r
      end
  end.

(** [parseExpression]: [None] is the nil expression; indexing the nil
    slice of a text without match panics. *)
Definition parseExpression (t : tags) : Result (option expression) :=
  if negb (String.eqb (showIf t) "") then
    match FindStringSubmatch (showIf t) with
    | Some (g1, g2, g3) => Ok (Some (mkExpression g1 g2 g3))
    | None => Panic IndexOutOfRange
    end
  else Ok None.

(** Every character of the string is in the class. *)
Fixpoint all_in (cls : ascii -> bool) (s : string) : bool :=
  match s with
  | EmptyString => true
  | String c r => cls c && all_in cls r
  end.

(** The string does not begin with a character of the class. *)
Definition stops (cls : ascii -> bool) (s : string) : bool :=
  match s with
  | EmptyString => true
  | String c _ => negb (cls c)
  end.

(** The characters with which an operator begins. *)
Definition operator_char (c : ascii) : bool :=
  Ascii.eqb c "="%char || Ascii.eqb c "<"%char || Ascii.eqb c ">"%char.

End Expression.

(** ** The later revision of the handlers ([reflect_types.go], lines
    256-475)

    The handlers of this revision attach the default through
    [handleDefaultValue], the one-of, any-of and all-of handlers give the
    node the kind of its first alternative, and [reflectSlice] collects
    the elements of the value in a list that it does not use.  The
    handlers that are the same in both revisions ([reflectTime],
    [reflectIP], [reflectURI], [reflectPBEnum], [reflectMap]) are not
    repeated. *)

Module Later.

Definition handleDefaultValue (dst : Type_) (v : Value) : Result Type_ :=
  if reflect.IsValid v then
    default <- reflect.Value_Interface v ;;
    Ok (set_Default default dst)
  else Ok dst.

Definition reflectEnum (method : Capability -> Value -> list any)
    (reflectType : Walk) (definition : Definitions) (v : Value)
    : Result (Type_ * Definitions) :=
  variants <- assertMethod method CapEnum v ;;
  match variants with
  | [] => Panic IndexOutOfRange
  | variant0 :: _ =>
      let variantValueOf := reflect.ValueOf variant0 in
      let variantTypeOf := reflect.TypeOf variant0 in
      r <- reflectType definition variantTypeOf variantValueOf false ;;
      let (vType, definition) := r in
      typ <- handleDefaultValue
               (set_Enum variants (set_Typ (Typ vType) emptyType)) v ;;
      Ok (typ, definition)
  end.

(** The part that [reflectOneOf], [reflectAnyOf] and [reflectAllOf]
    share: [set] is the assignment of the list to its keyword. *)
Definition reflectAlternatives (set : list Type_ -> Type_ -> Type_)
    (reflectType : Walk) (definition : Definitions) (variants : list any)
    (v : Value) : Result (Type_ * Definitions) :=
  r <- reflectVariants reflectType definition variants ;;
  let (alts, definition) := r in
  match alts with
  | [] => Panic IndexOutOfRange
  | first :: _ =>
      typ <- handleDefaultValue (set alts (set_Typ (Typ first) emptyType)) v ;;
      Ok (typ, definition)
  end.

Definition reflectOneOf (method : Capability -> Value -> list any)
    (reflectType : Walk) (definition : Definitions) (v : Value)
    : Result (Type_ * Definitions) :=
  variants <- assertMethod method CapOneOf v ;;
  reflectAlternatives set_OneOf reflectType definition variants v.

Definition reflectAnyOf (method : Capability -> Value -> list any)
    (reflectType : Walk) (definition : Definitions) (v : Value)
    : Result (Type_ * Definitions) :=
  variants <- assertMethod method CapAnyOf v ;;
  reflectAlternatives set_AnyOf reflectType definition variants v.

Definition reflectAllOf (method : Capability -> Value -> list any)
    (reflectType : Walk) (definition : Definitions) (v : Value)
    : Result (Type_ * Definitions) :=
  variants <- assertMethod method CapAllOf v ;;
  reflectAlternatives set_AllOf reflectType definition variants v.

(** The loop at the end of [reflectSlice]:
    [defaults = append(defaults, v.Index(i).Interface())] for every index
    below [v.Len()]. *)
Definition collectDefaults (v : Value) : Result (list any) :=
  n <- reflect.Value_Len v ;;
  foldM (fun (defaults : list any) (i : nat) =>
           e <- reflect.Value_Index v i ;;
           d <- reflect.Value_Interface e ;;
           Ok (defaults ++ [d]))
        [] (seq 0 n).

Definition reflectSlice (reflectType : Walk) (definition : Definitions)
    (v : Value) : Result (Type_ * Definitions) :=
  let returnType := newType "" in
  t <- reflect.Value_Type v ;;
  returnType <-
    (if kind_is (reflect.Type_Kind t) reflect.Array then
       n <- reflect.Type_Len t ;;
       Ok (set_MaxItems n (set_MinItems n returnType))
     else Ok returnType) ;;
  te <- reflect.Type_Elem t ;;
  let elemValue := reflect.New te in
  r <-
    (if reflect.Type_eqb t typeByteSlice then
       Ok (set_Media (Some (set_BinaryEncoding "base64" emptyType))
             (set_Typ tTypeString returnType), definition)
     else
       r <- reflectType definition (Some (reflect.PtrTo te)) elemValue false ;;
       let (items, definition) := r in
       Ok (set_Items (Some items) (set_Typ "array" returnType), definition)) ;;
  defaults <- collectDefaults v ;;
  Ok r.

Definition reflectInteger (definitions : Definitions) (v : Value)
    : Result Type_ :=
  handleDefaultValue (set_Typ tTypeInteger emptyType) v.

Definition reflectNumber (definitions : Definitions) (v : Value)
    : Result Type_ :=
  handleDefaultValue (set_Typ tTypeNumber emptyType) v.

Definition reflectBool (definitions : Definitions) (v : Value)
    : Result Type_ :=
  handleDefaultValue (set_Typ tTypeBoolean emptyType) v.

Definition reflectString (definitions : Definitions) (v : Value)
    : Result Type_ :=
  handleDefaultValue (set_Typ tTypeString emptyType) v.

Definition reflectInterface (definitions : Definitions) (t : option rtype)
    (v : Value) : Result Type_ :=
  handleDefaultValue
    (set_AdditionalProperties "true" (set_Typ tTypeObject emptyType)) v.

End Later.

(** The handler of the later revision for each capability. *)
Definition later_handler (method : Capability -> Value -> list any)
    (c : Capability) (reflectType : Walk) (definitions : Definitions)
    (v : Value) : Result (Type_ * Definitions) :=
  match c with
  | CapPBEnum => Ok (reflectPBEnum definitions v, definitions)
  | CapOneOf => Later.reflectOneOf method reflectType definitions v
  | CapAnyOf => Later.reflectAnyOf method reflectType definitions v
  | CapAllOf => Later.reflectAllOf method reflectType definitions v
  | CapEnum => Later.reflectEnum method reflectType definitions v
  end.

(** A slice or array type. *)
Definition is_sequence_type (t : rtype) : bool :=
  match t with
  | reflect.TSlice _ _ | reflect.TArray _ _ _ => true
  | _ => false
  end.

(** The assignment [dst.Required = x]. *)
Definition set_Required (x : list string) (dst : Type_) : Type_ :=
  {| Version := Version dst; Ref := Ref dst; Typ := Typ dst;
     Title := Title dst; Format := Format dst; Default := Default dst;
     Enum := Enum dst; OneOf := OneOf dst; AnyOf := AnyOf dst;
     AllOf := AllOf dst; Items := Items dst; Properties := Properties dst;
     PatternProperties := PatternProperties dst;
     AdditionalProperties := AdditionalProperties dst; Required := x;
     Definitions_ := Definitions_ dst; Media := Media dst;
     BinaryEncoding := BinaryEncoding dst; MinItems := MinItems dst;
     MaxItems := MaxItems dst; UniqueItems := UniqueItems dst;
     MinLength := MinLength dst; MaxLength := MaxLength dst;
     MultipleOf := MultipleOf dst; Minimum := Minimum dst;
     Maximum := Maximum dst; ExclusiveMinimum := ExclusiveMinimum dst;
     ExclusiveMaximum := ExclusiveMaximum dst |}.

(** ** The type-directed revision of the walker ([reflect.go], lines
    153-505)

    This revision walks the type and passes the value along; its walker is
    [reflectTypeToSchema].  Three things that the revision modelled above
    does not need are modelled here.

    - The walker ends in [panic("unsupported type " + t.String())]; the
      outcome [Unsupported] carries the type.
    - [v.Field(i)] is called on unexported fields too, and [v.Interface()]
      panics on a value obtained from an unexported field: a value is
      passed with the read-only state that [reflect] keeps in its flag.
    - [reflectStruct] stores the node [st] in the registry and fills it
      afterwards through the pointer.  While the node is filled, the
      registry is only asked whether a name is present, and the name of
      [st] is present from then on, so no other node is stored under it:
      the model stores the empty node first and the filled node at the
      end. *)

Module Reflector.

Inductive Failure :=
| Runtime (p : GoPanic)          (* a panic of the Go runtime or of reflect *)
| ReadOnlyValue                  (* Interface() on a value of an unexported field *)
| Unsupported (t : rtype).       (* panic("unsupported type " + t.String()) *)

Inductive Outcome (A : Type) :=
| Done (a : A)
| Fail (f : Failure)
| Exhausted.
Arguments Done {A} a.
Arguments Fail {A} f.
Arguments Exhausted {A}.

Definition andThen {A B} (r : Outcome A) (k : A -> Outcome B) : Outcome B :=
  match r with
  | Done a => k a
  | Fail f => Fail f
  | Exhausted => Exhausted
  end.

Notation "x <~ r ;; k" := (andThen r (fun x => k))
  (at level 100, r at next level, right associativity).

Definition lift {A} (r : Result A) : Outcome A :=
  match r with
  | Ok a => Done a
  | Panic p => Fail (Runtime p)
  | OutOfFuel => Exhausted
  end.

Fixpoint loop {A S} (f : S -> A -> Outcome S) (s : S) (l : list A) : Outcome S :=
  match l with
  | [] => Done s
  | a :: l' => s' <~ f s a ;; loop f s' l'
  end.

(** The read-only state of a [reflect.Value]: [Sticky] for a value
    obtained from an unexported field that is not embedded, which every
    field of it inherits; [Embed] for an unexported embedded field, whose
    exported fields are free again. *)
Inductive ReadOnly := Free | Embed | Sticky.

Definition RValue : Type := Value * ReadOnly.

(** [reflect.ValueOf] *)
Definition ValueOf (a : any) : RValue := (reflect.ValueOf a, Free).

(** [v.Interface()] *)
Definition Interface (v : RValue) : Outcome any :=
  match v.1, v.2 with
  | reflect.VInvalid, _ => Fail (Runtime InvalidValue)
  | _, Free => lift (reflect.Value_Interface v.1)
  | _, _ => Fail ReadOnlyValue
  end.

(** [v.Field(i)] *)
Definition Field (v : RValue) (i : nat) : Outcome RValue :=
  match v.1 with
  | reflect.VInvalid => Fail (Runtime InvalidValue)
  | reflect.Val (reflect.TStruct _ fs) (reflect.DList vs) =>
      match fs !! i, vs !! i with
      | Some f, Some x =>
          Done (x,
                match v.2 with
                | Sticky => Sticky
                | _ =>
                    if String.eqb (reflect.PkgPath f) "" then Free
                    else if reflect.Anonymous f then Embed else Sticky
                end)
      | _, _ => Fail (Runtime IndexOutOfRange)
      end
  | reflect.Val _ _ => Fail (Runtime KindMismatch)
  end.

(** The record [Reflector]. *)
Record Reflector := mkReflector {
  AllowAdditionalProperties : bool;
  RequiredFromJSONSchemaTags : bool;
  ExpandedStruct : bool
}.

(** The signature of [reflectTypeToSchema]. *)
Definition Walk : Type :=
  forall (definitions : Definitions) (t : option rtype) (v : RValue),
    Outcome (Type_ * Definitions).

(** The signature of [reflectStructFields]. *)
Definition WalkFields : Type :=
  forall (st : Type_) (definitions : Definitions) (t : option rtype)
    (v : RValue), Outcome (Type_ * Definitions).

Section Walker.

Variable Version_ : string.
Variable method : Capability -> Value -> list any.

(** The interface [implicit] is not one of the five capabilities above:
    [implicitType t] is [None] when [t] does not implement it, and
    otherwise the value that [ImplicitType] returns on the zero value of
    [t]. *)
Variable implicitType : rtype -> option any.

(** [reflect.Zero(t).Interface().(I).M()] *)
Definition zeroMethod (c : Capability) (t : rtype) : Outcome (list any) :=
  lift (assertMethod method c (reflect.Zero t)).

Definition reflectPBEnum (def : Definitions) (t : rtype) (v : RValue) : Type_ :=
  set_OneOf [set_Typ tTypeString emptyType; set_Typ tTypeInteger emptyType]
    emptyType.

Definition reflectEnum (reflectTypeToSchema : Walk) (def : Definitions)
    (t : rtype) (v : RValue) : Outcome (Type_ * Definitions) :=
  i <~ Interface v ;;
  variants <~
    match i with
    | Some (reflect.Val tv dv) =>
        if reflect.Implements tv CapEnum
        then Done (method CapEnum (reflect.Val tv dv))
        else Fail (Runtime TypeAssertion)
    | _ => Fail (Runtime TypeAssertion)
    end ;;
  match variants with
  | [] => Fail (Runtime IndexOutOfRange)
  | variant0 :: _ =>
      r <~ reflectTypeToSchema def (reflect.TypeOf variant0) (ValueOf variant0) ;;
      let (vType, def) := r in
      Done (set_Enum variants (set_Typ (Typ vType) emptyType), def)
  end.

(** The loop of [reflectOneOf], [reflectAnyOf] and [reflectAllOf]: every
    variant is walked under its own type, with the value [v]. *)
Definition reflectVariants (reflectTypeToSchema : Walk) (def : Definitions)
    (variants : list any) (v : RValue) : Outcome (list Type_ * Definitions) :=
  loop (fun (st : list Type_ * Definitions) (variant : any) =>
          let (nodes, def) := st in
          r <~ reflectTypeToSchema def (reflect.TypeOf variant) v ;;
          let (node, def) := r in
          Done (nodes ++ [node], def))
       ([], def) variants.

Definition reflectOneOf (reflectTypeToSchema : Walk) (def : Definitions)
    (t : rtype) (v : RValue) : Outcome (Type_ * Definitions) :=
  variants <~ zeroMethod CapOneOf t ;;
  r <~ reflectVariants reflectTypeToSchema def variants v ;;
  let (oneOf, def) := r in
  Done (set_OneOf oneOf emptyType, def).

Definition reflectAnyOf (reflectTypeToSchema : Walk) (def : Definitions)
    (t : rtype) (v : RValue) : Outcome (Type_ * Definitions) :=
  variants <~ zeroMethod CapAnyOf t ;;
  r <~ reflectVariants reflectTypeToSchema def variants v ;;
  let (anyOf, def) := r in
  Done (set_AnyOf anyOf emptyType, def).

Definition reflectAllOf (reflectTypeToSchema : Walk) (def : Definitions)
    (t : rtype) (v : RValue) : Outcome (Type_ * Definitions) :=
  variants <~ zeroMethod CapAllOf t ;;
  r <~ reflectVariants reflectTypeToSchema def variants v ;;
  let (allOf, def) := r in
  Done (set_AllOf allOf emptyType, def).

(** [reflectImplicit]; the zero value of an interface type is nil and
    fails the type assertion. *)
Definition reflectImplicit (reflectTypeToSchema : Walk) (def : Definitions)
    (t : rtype) (typ : any) (v : RValue) : Outcome (Type_ * Definitions) :=
  if kind_is (reflect.Type_Kind t) reflect.Interface
  then Fail (Runtime TypeAssertion)
  else reflectTypeToSchema def (reflect.TypeOf typ) v.

Definition reflectTime (def : Definitions) (t : rtype) (v : RValue) : Type_ :=
  set_Format "date-time" (set_Typ tTypeString emptyType).

Definition reflectIP (def : Definitions) (t : rtype) (v : RValue) : Type_ :=
  set_Format "ipv4" (set_Typ tTypeString emptyType).

Definition reflectURI (def : Definitions) (t : rtype) (v : RValue) : Type_ :=
  set_Format "uri" (set_Typ tTypeString emptyType).

Definition reflectSlice (reflectTypeToSchema : Walk) (def : Definitions)
    (t : rtype) (v : RValue) : Outcome (Type_ * Definitions) :=
  let returnType := emptyType in
  returnType <~
    (if kind_is (reflect.Type_Kind t) reflect.Array then
       n <~ lift (reflect.Type_Len t) ;;
       Done (set_MaxItems n (set_MinItems n returnType))
     else Done returnType) ;;
  if reflect.Type_eqb t typeByteSlice then
    Done (set_Media (Some (set_BinaryEncoding "base64" emptyType))
            (set_Typ tTypeString returnType), def)
  else
    te <~ lift (reflect.Type_Elem t) ;;
    r <~ reflectTypeToSchema def (Some te) v ;;
    let (items, def) := r in
    Done (set_Items (Some items) (set_Typ "array" returnType), def).

Definition reflectMap (reflectTypeToSchema : Walk) (def : Definitions)
    (t : rtype) (v : RValue) : Outcome (Type_ * Definitions) :=
  te <~ lift (reflect.Type_Elem t) ;;
  r <~ reflectTypeToSchema def (Some te) v ;;
  let (node, def) := r in
  let rt := set_PatternProperties {[ ".*" := node ]}
              (set_Typ "object" emptyType) in
  Done (set_PatternProperties
          (delete "additionalProperties" (PatternProperties rt)) rt, def).

Definition reflectInterface (def : Definitions) (t : rtype) (v : RValue)
    : Type_ :=
  set_AdditionalProperties "true" (set_Typ "object" emptyType).

(** [reflectStruct] *)
Definition reflectStruct (reflectStructFields : WalkFields)
    (def : Definitions) (t : rtype) (v : RValue)
    : Outcome (Type_ * Definitions) :=
  if reflect.Type_eqb t typeTime then Done (reflectTime def t v, def)
  else if reflect.Type_eqb t typeURI then Done (reflectURI def t v, def)
  else if reflect.Type_eqb t typeIP then Done (reflectIP def t v, def)
  else
    let st := set_AdditionalProperties "false"
                (set_Properties ∅ (set_Typ tTypeObject emptyType)) in
    let st := set_AdditionalProperties "true" st in
    let def := <[ reflect.Type_Name t := st ]> def in
    r <~ reflectStructFields st def (Some t) v ;;
    let (st, def) := r in
    Done (set_Ref ("#/definitions/" +:+ reflect.Type_Name t)
            (set_Version Version_ emptyType),
          <[ reflect.Type_Name t := st ]> def).

(** The body of [reflectTypeToSchema], with the recursive calls as
    parameters. *)
Definition reflectTypeToSchema_body (reflectTypeToSchema : Walk)
    (reflectStructFields : WalkFields) (definitions : Definitions)
    (t : option rtype) (v : RValue) : Outcome (Type_ * Definitions) :=
  t <~ lift (deref_type t) ;;
  (* Already added to definitions? *)
  match definitions !! reflect.Type_Name t with
  | Some _ =>
      Done (set_Ref ("#/definitions/" +:+ reflect.Type_Name t) emptyType,
            definitions)
  | None =>
      (* specific interfaces *)
      if reflect.Implements t CapPBEnum then
        Done (reflectPBEnum definitions t v, definitions)
      else if reflect.Implements t CapOneOf then
        reflectOneOf reflectTypeToSchema definitions t v
      else if reflect.Implements t CapAnyOf then
        reflectAnyOf reflectTypeToSchema definitions t v
      else if reflect.Implements t CapAllOf then
        reflectAllOf reflectTypeToSchema definitions t v
      else
        match implicitType t with
        | Some typ => reflectImplicit reflectTypeToSchema definitions t typ v
        | None =>
            if reflect.Implements t CapEnum then
              reflectEnum reflectTypeToSchema definitions t v
            else
              match reflect.Type_Kind t with
              | reflect.Struct =>
                  reflectStruct reflectStructFields definitions t v
              | reflect.Map => reflectMap reflectTypeToSchema definitions t v
              | reflect.Slice | reflect.Array =>
                  reflectSlice reflectTypeToSchema definitions t v
              | reflect.Interface =>
                  Done (reflectInterface definitions t v, definitions)
              | reflect.Int | reflect.Int8 | reflect.Int16 | reflect.Int32
              | reflect.Int64 | reflect.Uint | reflect.Uint8 | reflect.Uint16
              | reflect.Uint32 | reflect.Uint64 =>
                  Done (set_Typ tTypeInteger emptyType, definitions)
              | reflect.Float32 | reflect.Float64 =>
                  Done (set_Typ tTypeNumber emptyType, definitions)
              | reflect.Bool =>
                  Done (set_Typ tTypeBoolean emptyType, definitions)
              | reflect.String =>
                  Done (set_Typ tTypeString emptyType, definitions)
              | reflect.Ptr =>
                  te <~ lift (reflect.Type_Elem t) ;;
                  reflectTypeToSchema definitions (Some te) v
              | _ => Fail (Unsupported t)
              end
        end
  end.

(** One iteration of the loop of [reflectStructFields]: [i] is the index
    of the field [f]. *)
Definition reflectStructFields_field (reflectTypeToSchema : Walk)
    (reflectStructFields : WalkFields) (v : RValue)
    (state : Type_ * Definitions) (indexed : nat * StructField)
    : Outcome (Type_ * Definitions) :=
  let (st, definitions) := state in
  let (i, f) := indexed in
  (* anonymous and exported type should be processed recursively
     current type should inherit properties of anonymous one *)
  if reflect.Anonymous f && String.eqb (reflect.PkgPath f) "" then
    reflectStructFields st definitions (Some (reflect.Typ f)) v
  else
    let tags := parseTags (reflect.Tag f) in
    if String.eqb (name tags) "" then Done state
    else
      fv <~ Field v i ;;
      r <~ reflectTypeToSchema definitions (Some (reflect.Typ f)) fv ;;
      let (property, definitions) := r in
      let property := set_Title (title tags) property in
      let property := applyValidation property tags in
      let st := set_Properties (<[ name tags := property ]> (Properties st)) st in
      let st := if required tags
                then set_Required (Required st ++ [name tags]) st
                else st in
      Done (st, definitions).

(** The body of [reflectStructFields]. *)
Definition reflectStructFields_body (reflectTypeToSchema : Walk)
    (reflectStructFields : WalkFields) (st : Type_)
    (definitions : Definitions) (t : option rtype) (v : RValue)
    : Outcome (Type_ * Definitions) :=
  t <~ lift (deref_type t) ;;
  t <~ (if kind_is (reflect.Type_Kind t) reflect.Ptr
        then lift (reflect.Type_Elem t) else Done t) ;;
  fields <~
    match t with
    | reflect.TStruct _ fs => Done fs
    | _ => Fail (Runtime KindMismatch)
    end ;;
  loop (reflectStructFields_field reflectTypeToSchema reflectStructFields v)
       (st, definitions) (imap (fun i f => (i, f)) fields).

Fixpoint reflectTypeToSchema (fuel : nat) : Walk :=
  match fuel with
  | O => fun _ _ _ => Exhausted
  | S fuel' =>
      reflectTypeToSchema_body (reflectTypeToSchema fuel')
        (reflectStructFields fuel')
  end
with reflectStructFields (fuel : nat) : WalkFields :=
  match fuel with
  | O => fun _ _ _ _ => Exhausted
  | S fuel' =>
      reflectStructFields_body (reflectTypeToSchema fuel')
        (reflectStructFields fuel')
  end.

(** [ReflectFromType] *)
Definition ReflectFromType (fuel : nat) (r : Reflector) (t : option rtype)
    (v : RValue) : Outcome Schema :=
  let definitions : Definitions := ∅ in
  if ExpandedStruct r then
    let st := set_AdditionalProperties "false"
                (set_Properties ∅
                   (set_Typ tTypeObject (set_Version Version_ emptyType))) in
    let st := if AllowAdditionalProperties r
              then set_AdditionalProperties "true" st else st in
    r1 <~ reflectStructFields fuel st definitions t v ;;
    let (st, definitions) := r1 in
    t' <~ lift (deref_type t) ;;
    r2 <~ reflectStruct (reflectStructFields fuel) definitions t' v ;;
    let definitions := delete (reflect.Type_Name t') r2.2 in
    Done (mkSchema st definitions)
  else
    r1 <~ reflectTypeToSchema fuel definitions t v ;;
    Done (mkSchema r1.1 r1.2).

(** [Reflect] *)
Definition Reflect (fuel : nat) (r : Reflector) (v : any) : Outcome Schema :=
  let typeOf := reflect.TypeOf v in
  let valueOf := ValueOf v in
  ReflectFromType fuel r typeOf valueOf.

End Walker.

(** *** Vocabulary of the properties of this revision *)

(** A walker that leaves every entry of the registry as it is. *)
Definition preserves (rt : Walk) : Prop :=
  forall definitions t v node definitions',
    rt definitions t v = Done (node, definitions') ->
    definitions ⊆ definitions'.

Definition preserves_fields (rs : WalkFields) : Prop :=
  forall st definitions t v st' definitions',
    rs st definitions t v = Done (st', definitions') ->
    definitions ⊆ definitions'.

(** The kinds without a case in the [switch t.Kind()] of
    [reflectTypeToSchema]. *)
Definition unsupported_kind (k : reflect.Kind) : bool :=
  match k with
  | reflect.Invalid | reflect.Uintptr | reflect.Complex64
  | reflect.Complex128 | reflect.Chan | reflect.Func
  | reflect.UnsafePointer => true
  | _ => false
  end.

(** A type that [reflectTypeToSchema] handles by its kind: its name is
    not registered and it passes none of the six tests of
    [switch true]. *)
Definition by_kind (implicitType : rtype -> option any)
    (definitions : Definitions) (t : rtype) : bool :=
  bool_decide (definitions !! reflect.Type_Name t = None)
  && negb (reflect.Implements t CapPBEnum)
  && negb (reflect.Implements t CapOneOf)
  && negb (reflect.Implements t CapAnyOf)
  && negb (reflect.Implements t CapAllOf)
  && match implicitType t with None => true | Some _ => false end
  && negb (reflect.Implements t CapEnum).

(** The pointer, slice, array and map types on the way from [t] down its
    element types, and the type at the end of that way. *)
Fixpoint wrappers (t : rtype) : list rtype :=
  match t with
  | reflect.TPtr _ e | reflect.TSlice _ e | reflect.TArray _ _ e
  | reflect.TMap _ _ e => t :: wrappers e
  | _ => []
  end.

Fixpoint innermost (t : rtype) : rtype :=
  match t with
  | reflect.TPtr _ e | reflect.TSlice _ e | reflect.TArray _ _ e
  | reflect.TMap _ _ e => innermost e
  | _ => t
  end.

(** A pass over the fields that leaves the kind, the reference, the
    version and the [additionalProperties] of the node as they are. *)
Definition same_head (st st' : Type_) : Prop :=
  Typ st' = Typ st /\ Ref st' = Ref st /\ Version st' = Version st /\
  AdditionalProperties st' = AdditionalProperties st.

Definition keeps_head (rs : WalkFields) : Prop :=
  forall st definitions t v st' definitions',
    rs st definitions t v = Done (st', definitions') -> same_head st st'.

(** A field whose fields the loop of [reflectStructFields] gives to the
    node of the enclosing struct. *)
Definition flattened (f : StructField) : bool :=
  reflect.Anonymous f && String.eqb (reflect.PkgPath f) "".


(** A field that the loop of [reflectStructFields] turns into a
    property. *)
Definition named (f : StructField) : bool :=
  negb (flattened f)
  && negb (String.eqb (name (parseTags (reflect.Tag f))) "").

Definition property_name (f : StructField) : string :=
  name (parseTags (reflect.Tag f)).

Definition property_names (fs : list StructField) : list string :=
  property_name <$> filter (fun f => named f = true) fs.

Definition required_names (fs : list StructField) : list string :=
  property_name
    <$> filter (fun f => named f && required (parseTags (reflect.Tag f)) = true)
          fs.

End Reflector.

(** Fixtures of this revision ([reflect_test.go], [TestKek]). *)
Module ReflectorFixtures.

(** [type DesignTypeOptions struct { SkuFinalPrice *bool; SkuPrice *bool }]
    (the first two of its nine fields). *)
Definition DesignTypeOptions : rtype :=
  reflect.TStruct (mkDecl "DesignTypeOptions" Fixtures.pkg [])
    [reflect.mkField "SkuFinalPrice" "" false
       [("json", "sku_final_price"); ("title", "finalPrice")]
       (reflect.PtrTo boolT);
     reflect.mkField "SkuPrice" "" false
       [("json", "sku_price"); ("title", "price")] (reflect.PtrTo boolT)].

Definition designTypeOptions : Value :=
  reflect.Val DesignTypeOptions
    (reflect.DList [Fixtures.nilPtr boolT; Fixtures.nilPtr boolT]).

(** [type DesignType1 struct { Type enum; Options DesignTypeOptions }];
    the field [Type] is marked required in the tag syntax of
    [parseTags]. *)
Definition designType1Fields : list StructField :=
  [reflect.mkField "Type" "" false
     [("json", "type,omitempty"); ("required", "true")] Fixtures.enum;
   reflect.mkField "Options" "" false
     [("json", "DesignTypeOptions,omitempty")] DesignTypeOptions].

Definition DesignType1 : rtype :=
  reflect.TStruct (mkDecl "DesignType1" Fixtures.pkg []) designType1Fields.

(** [DesignType1{Type: enum{"grid1", "grid2", "grid3"},
                 Options: DesignTypeOptions{}}] *)
Definition designType1 : Value :=
  reflect.Val DesignType1
    (reflect.DList [Fixtures.enumV ["grid1"; "grid2"; "grid3"];
                    designTypeOptions]).

(** The definition of [DesignTypeOptions] and the property of a field of
    type [DesignTypeOptions]. *)
Definition designTypeOptionsNode : Type_ :=
  set_Properties
    {[ "sku_final_price" :=
         set_Title "finalPrice" (set_Typ tTypeBoolean emptyType);
       "sku_price" := set_Title "price" (set_Typ tTypeBoolean emptyType) ]}
    (set_AdditionalProperties "true" (set_Typ tTypeObject emptyType)).

Definition designTypeOptionsRef (version : string) : Type_ :=
  set_Ref "#/definitions/DesignTypeOptions" (set_Version version emptyType).

(** The node of [DesignType1] after the pass over its fields. *)
Definition designType1Node (version : string) : Type_ :=
  set_Required ["type"]
    (set_Properties
       {[ "type" :=
            set_Enum (Some <$> (Fixtures.strV <$> ["grid1"; "grid2"; "grid3"]))
              (set_Typ tTypeString emptyType);
          "DesignTypeOptions" := designTypeOptionsRef version ]}
       (set_Typ tTypeObject emptyType)).

(** The root node of [TestKek]. *)
Definition kekNode (version : string) : Type_ :=
  set_Required ["type"]
    (set_Properties
       {[ "type" :=
            set_Enum (Some <$> (Fixtures.strV <$> ["grid1"; "grid2"; "grid3"]))
              (set_Typ tTypeString emptyType);
          "DesignTypeOptions" := designTypeOptionsRef version ]}
       (set_AdditionalProperties "true"
          (set_Typ tTypeObject (set_Version version emptyType)))).

(** A type of another package that shares the name of
    [DesignTypeOptions]: [type DesignTypeOptions chan int]. *)
Definition otherDesignTypeOptions : rtype :=
  reflect.TChan (mkDecl "DesignTypeOptions" "other" []) intT.

(** [map[string][]*chan int] *)
Definition channels : rtype :=
  reflect.TMap unnamed stringT
    (reflect.TSlice unnamed (reflect.PtrTo Fixtures.chanInt)).

(** No type of the fixtures implements [implicit]. *)
Definition implicitType (t : rtype) : option any := None.

(** [r := Reflector{RequiredFromJSONSchemaTags: true, ExpandedStruct: true,
                    AllowAdditionalProperties: true}] *)
Definition kek : Reflector.Reflector := Reflector.mkReflector true true true.

End ReflectorFixtures.


(** ** Properties of metadata application *)

Lemma applyValidation_string (dst : Type_) (t : tags) :
  Typ dst = tTypeString ->
  let dst' := applyValidation dst t in
  MinLength dst' = minLength t /\ MaxLength dst' = maxLength t /\
  Format dst' = (if String.eqb (format t) "" then Format dst else format t).
Proof.
  intros H. unfold applyValidation. rewrite H. cbn.
  destruct (String.eqb (format t) ""); cbn; auto.
Qed.

Lemma applyValidation_number (dst : Type_) (t : tags) :
  Typ dst = tTypeNumber ->
  let dst' := applyValidation dst t in
  MultipleOf dst' = multipleOf t /\ Minimum dst' = minimum t /\
  Maximum dst' = maximum t /\
  ExclusiveMinimum dst' = exclusiveMinimum t /\
  ExclusiveMaximum dst' = exclusiveMaximum t.
Proof. intros H. unfold applyValidation. rewrite H. cbn. auto. Qed.

Lemma applyValidation_array (dst : Type_) (t : tags) :
  Typ dst = tTypeArray ->
  let dst' := applyValidation dst t in
  MinItems dst' = minItems t /\ MaxItems dst' = maxItems t /\
  UniqueItems dst' = uniqueItems t.
Proof. intros H. unfold applyValidation. rewrite H. cbn. auto. Qed.

(** A node of any other kind is returned as it is. *)
Lemma applyValidation_other (dst : Type_) (t : tags) :
  Typ dst <> tTypeString -> Typ dst <> tTypeNumber -> Typ dst <> tTypeArray ->
  applyValidation dst t = dst.
Proof.
  intros Hs Hn Ha. unfold applyValidation.
  apply String.eqb_neq in Hs, Hn, Ha. now rewrite Hs, Hn, Ha.
Qed.

Lemma applyValidation_integer (dst : Type_) (t : tags) :
  Typ dst = tTypeInteger -> applyValidation dst t = dst.
Proof.
  intros H. apply applyValidation_other; rewrite H; discriminate.
Qed.

(** The kind of a node is never changed. *)
Lemma applyValidation_Typ (dst : Type_) (t : tags) :
  Typ (applyValidation dst t) = Typ dst.
Proof.
  unfold applyValidation.
  repeat match goal with |- context [if ?b then _ else _] => destruct b end;
    reflexivity.
Qed.

(** C6 (the integer case is missing from [applyValidation]): the tag of
    the member [Age int] asks for the bounds 18 and 120, both exclusive; the
    descriptor read from it carries them, and applying it to the integer
    node of that member changes nothing: the node has none of the numeric
    attributes, while a number node gets all of them. *)
Theorem applyValidation_integer_node_unchanged :
  let t := parseTags Fixtures.ageTag in
  let integerNode := set_Default (Some (Fixtures.intV 666))
                       (set_Typ tTypeInteger emptyType) in
  let numberNode := set_Typ tTypeNumber emptyType in
  (minimum t = 18 /\ maximum t = 120 /\
   exclusiveMinimum t = true /\ exclusiveMaximum t = true) /\
  applyValidation integerNode t = integerNode /\
  (Minimum (applyValidation integerNode t) = 0 /\
   Maximum (applyValidation integerNode t) = 0 /\
   ExclusiveMinimum (applyValidation integerNode t) = false /\
   ExclusiveMaximum (applyValidation integerNode t) = false) /\
  (Minimum (applyValidation numberNode t) = 18 /\
   Maximum (applyValidation numberNode t) = 120 /\
   ExclusiveMinimum (applyValidation numberNode t) = true /\
   ExclusiveMaximum (applyValidation numberNode t) = true).
Proof. vm_compute. repeat split; reflexivity. Qed.

(** ** Properties of the walker *)

Lemma bind_Ok {A B} (r : Result A) (k : A -> Result B) (b : B) :
  bind r k = Ok b -> exists a, r = Ok a /\ k a = Ok b.
Proof. destruct r; cbn; intros H; try discriminate. eauto. Qed.

(** An invariant of the loop state holds after the loop. *)
Lemma foldM_invariant {A S} (P : S -> Prop) (f : S -> A -> Result S) :
  (forall s a s', P s -> f s a = Ok s' -> P s') ->
  forall l s s', P s -> foldM f s l = Ok s' -> P s'.
Proof.
  intros Hstep l. induction l as [|a l IH]; cbn; intros s s' Hs H.
  - congruence.
  - apply bind_Ok in H as (s1 & H1 & H2). eauto.
Qed.

(** A loop over a list with an element on which the body never returns
    does not return. *)
Lemma foldM_stuck {A S} (f : S -> A -> Result S) (a : A) :
  (forall s s', f s a <> Ok s') ->
  forall l s s', a ∈ l -> foldM f s l <> Ok s'.
Proof.
  intros Hbad l. induction l as [|b l IH]; cbn; intros s s' Hin H.
  - inversion Hin.
  - apply bind_Ok in H as (s1 & H1 & H2).
    apply elem_of_cons in Hin as [->|Hin].
    + now apply Hbad in H1.
    + now apply IH in H2.
Qed.

Section WalkerProperties.

Variable method : Capability -> Value -> list any.

(** *** The composite walk and the required set *)

Lemma reflectStruct_field_Required (rt : Walk) (rs : WalkStruct) st fv st' :
  Required st.1 = [] ->
  reflectStruct_field rt rs st fv = Ok st' ->
  Required st'.1 = [].
Proof.
  destruct st as [cur defs], fv as [sf sv]. unfold reflectStruct_field.
  cbn [fst]. intros Hreq H.
  destruct (negb _); [injection H as <-; exact Hreq|].
  apply bind_Ok in H as ([cur1 defs1] & H1 & H).
  assert (Required cur1 = []) as Hreq1.
  { destruct (reflect.Anonymous sf).
    - apply bind_Ok in H1 as ([typ d] & _ & H1).
      injection H1 as <- _. exact Hreq.
    - injection H1 as <- _. exact Hreq. }
  destruct (_ || _); [injection H as <-; exact Hreq1|].
  apply bind_Ok in H as ([ft d] & _ & H).
  injection H as <-. exact Hreq1.
Qed.

(** No statement of [reflectStruct] assigns to [Required]: whatever the
    descriptors of the members say, the node comes back with the empty
    required set of [newType]. *)
Lemma reflectStruct_Required (fuel : nat) definitions v node definitions' :
  reflectStruct method fuel definitions v = Ok (node, definitions') ->
  Required node = [].
Proof.
  destruct fuel as [|fuel]; [discriminate|]. cbn [reflectStruct].
  unfold reflectStruct_body. intros H.
  apply bind_Ok in H as (fields & _ & H).
  change node with (node, definitions').1.
  eapply (foldM_invariant (fun st => Required st.1 = [])); [| |exact H].
  - intros s a s'. apply reflectStruct_field_Required.
  - reflexivity.
Qed.

(** C3 (the walk of a composite never fills the required set): the
    member [FamilyName] of [GrandfatherType] is visible, named
    [family_name], not ignored, and its descriptor marks it required;
    the walk returns the object node with the property [family_name] of
    string kind and with an empty required set. *)
Theorem reflectStruct_drops_required :
  let tags := parseTags [("json", "family_name"); ("required", "true")] in
  (name tags = "family_name" /\ required tags = true /\ ignored tags = false) /\
  exists node,
    reflectStruct Fixtures.method 2 ∅ (Fixtures.grandfather "x") = Ok (node, ∅) /\
    Typ node = tTypeObject /\
    Typ <$> (Properties node !! "family_name") = Some tTypeString /\
    Required node = [].
Proof.
  split; [vm_compute; auto|].
  eexists. split; [vm_compute; reflexivity|].
  vm_compute. auto.
Qed.

(** *** Byte sequences *)

Lemma Type_eqb_typeByteSlice t :
  reflect.Type_eqb t typeByteSlice = true -> t = typeByteSlice.
Proof.
  destruct t as [| |d e| | | | | |]; try discriminate.
  cbn [reflect.Type_eqb typeByteSlice]. intros H.
  apply andb_prop in H as [Hd He]. apply bool_decide_eq_true in Hd. subst d.
  destruct e; try discriminate He. cbn in He.
  apply andb_prop in He as [H1 H2].
  apply bool_decide_eq_true in H1, H2. now subst.
Qed.

(** C4, as the code has it: the sequence walk compares the type of the
    value with [[]byte].  For a value of type [[]byte] it returns a node
    of string kind whose media attribute carries the binary encoding
    base64; the node is not of array kind, the element type is not walked
    and the registry is left as it is, and [reflectType] returns that node
    for such a value.  For a value of every other type (a named byte
    slice type and a byte array included) a sequence walk that returns
    gives a node of array kind without a media attribute. *)
Theorem reflectSlice_bytes (rt : Walk) definitions v t :
  reflect.Value_Type v = Ok t ->
  if reflect.Type_eqb t typeByteSlice
  then
    exists node,
      reflectSlice rt definitions v = Ok (node, definitions) /\
      Typ node = tTypeString /\
      BinaryEncoding <$> Media node = Some "base64" /\
      Items node = None /\
      Typ node <> tTypeArray /\
      forall fuel root,
        reflectType method (S fuel) definitions (Some typeByteSlice) v root
          = Ok (node, definitions)
  else
    forall node definitions',
      reflectSlice rt definitions v = Ok (node, definitions') ->
      Typ node = tTypeArray /\ Media node = None /\ Typ node <> tTypeString.
Proof.
  intros Ht. destruct (reflect.Type_eqb t typeByteSlice) eqn:Hb.
  - apply Type_eqb_typeByteSlice in Hb. subst t.
    unfold reflectSlice. rewrite Ht. cbn.
    eexists. split; [reflexivity|]. cbn.
    repeat split; [discriminate|].
    intros fuel root. destruct v as [|t d]; [discriminate|].
    cbn in Ht. injection Ht as ->. reflexivity.
  - intros node definitions' H. unfold reflectSlice in H.
    rewrite Ht in H. cbn [bind] in H.
    apply bind_Ok in H as (returnType & Hr & H).
    apply bind_Ok in H as (te & _ & H). rewrite Hb in H.
    apply bind_Ok in H as ([items d] & _ & H). injection H as <- _.
    assert (Media returnType = None) as Hm.
    { destruct (kind_is _ _).
      - apply bind_Ok in Hr as (n & _ & Hr). now injection Hr as <-.
      - now injection Hr as <-. }
    cbn. repeat split; [exact Hm|discriminate].
Qed.

(** *** The dispatch of [reflectType] *)

Lemma well_known_false (t : option rtype) :
  well_known t = false ->
  is_type t typeTime = false /\ is_type t typeIP = false /\
  is_type t typeURI = false.
Proof.
  unfold well_known. intros H.
  apply orb_false_elim in H as [H H3]. apply orb_false_elim in H as [H1 H2].
  auto.
Qed.

(** A type with a capability and none of the earlier ones goes to the
    handler of that capability. *)
Lemma reflectType_capability fuel definitions t v v' root c :
  unwrap (Some t) v = Ok v' ->
  well_known (Some t) = false ->
  reflect.Implements t c = true ->
  (forall c', (capability_rank c' < capability_rank c)%nat ->
              reflect.Implements t c' = false) ->
  reflectType method (S fuel) definitions (Some t) v root
    = capability_handler method c (reflectType method fuel) definitions v'.
Proof.
  intros Hu Hwk Hc Hearlier.
  apply well_known_false in Hwk as (H1 & H2 & H3).
  cbn [reflectType]. unfold reflectType_body.
  rewrite Hu. cbn [bind]. rewrite H1, H2, H3. cbn [deref_type bind].
  destruct c; cbn [capability_handler];
    repeat match goal with
      | |- context [reflect.Implements t ?c'] =>
          first [ rewrite Hc
                | rewrite (Hearlier c') by (cbn; lia) ]
      end; reflexivity.
Qed.

(** A type without capabilities goes to the dispatch on the kind. *)
Lemma reflectType_no_capability fuel definitions t v v' root :
  unwrap (Some t) v = Ok v' ->
  well_known (Some t) = false ->
  no_capability t ->
  reflectType method (S fuel) definitions (Some t) v root
    = reflectKind (reflectType method fuel) (reflectStruct method fuel)
        definitions (Some t) v' root.
Proof.
  intros Hu Hwk Hno.
  apply well_known_false in Hwk as (H1 & H2 & H3).
  cbn [reflectType]. unfold reflectType_body.
  rewrite Hu. cbn [bind]. rewrite H1, H2, H3. cbn [deref_type bind].
  now rewrite !Hno.
Qed.

(** C7: the capabilities are tested in the order protobuf-generated
    enumerable, one-of, any-of, all-of, enumerable-with-variants, and the
    handler of the first one that the type has is the only one applied,
    whatever later capabilities the type has as well; the handler of the
    protobuf-generated enumerable returns the node whose [oneOf] is
    exactly a string node followed by an integer node. *)
Theorem capability_dispatch_order fuel definitions t v v' root c :
  unwrap (Some t) v = Ok v' ->
  well_known (Some t) = false ->
  reflect.Implements t c = true ->
  (forall c', (capability_rank c' < capability_rank c)%nat ->
              reflect.Implements t c' = false) ->
  reflectType method (S fuel) definitions (Some t) v root
    = capability_handler method c (reflectType method fuel) definitions v' /\
  capability_handler method CapPBEnum (reflectType method fuel) definitions v'
    = Ok (set_OneOf [set_Typ tTypeString emptyType;
                     set_Typ tTypeInteger emptyType] emptyType,
          definitions).
Proof.
  intros Hu Hwk Hc Hearlier. split.
  - now apply reflectType_capability.
  - reflexivity.
Qed.

(** *** The enumerable capability *)

(** C9: when the [Enum] method of the value returns the empty list,
    [reflectEnum] panics with an index out of range at [variants[0]],
    whatever the registry and the recursion budget, and so does every
    call of [reflectType] that reaches the enumerable handler with that
    value. *)
Theorem reflectEnum_empty_variants (rt : Walk) definitions v :
  assertMethod method CapEnum v = Ok [] ->
  reflectEnum method rt definitions v = Panic IndexOutOfRange /\
  forall fuel t v0 root,
    unwrap (Some t) v0 = Ok v ->
    well_known (Some t) = false ->
    reflect.Implements t CapEnum = true ->
    (forall c', (capability_rank c' < capability_rank CapEnum)%nat ->
                reflect.Implements t c' = false) ->
    reflectType method (S fuel) definitions (Some t) v0 root
      = Panic IndexOutOfRange.
Proof.
  intros Hm.
  assert (forall rt', reflectEnum method rt' definitions v
                      = Panic IndexOutOfRange) as He.
  { intros rt'. unfold reflectEnum. now rewrite Hm. }
  split; [apply He|].
  intros fuel t v0 root Hu Hwk Hen Hearlier.
  rewrite (reflectType_capability fuel definitions t v0 v root CapEnum)
    by assumption.
  apply He.
Qed.

(** *** Kinds that no case of the dispatch names *)

(** Such a value is given the node of [reflectInterface]. *)
Lemma reflectType_unmatched_kind fuel definitions t v v' root :
  unwrap (Some t) v = Ok v' ->
  well_known (Some t) = false ->
  no_capability t ->
  is_unmatched_kind (reflect.Value_Kind v') = true ->
  reflectType method (S fuel) definitions (Some t) v root
    = Ok (set_AdditionalProperties "true" (set_Typ tTypeObject emptyType),
          definitions).
Proof.
  intros Hu Hwk Hno Hk.
  rewrite (reflectType_no_capability fuel definitions t v v' root)
    by assumption.
  unfold reflectKind. destruct (reflect.Value_Kind v'); try discriminate;
    reflexivity.
Qed.

(** *** Composite values below the root *)

(** Every encounter of a struct value below the root walks the struct
    and stores the node under the name of the type, whether or not the
    registry has an entry of that name. *)
Lemma reflectType_struct fuel definitions t v v' vt :
  unwrap (Some t) v = Ok v' ->
  well_known (Some t) = false ->
  no_capability t ->
  reflect.Value_Type v' = Ok vt ->
  reflect.Type_Kind vt = reflect.Struct ->
  reflectType method (S fuel) definitions (Some t) v false
    = (r <- reflectStruct method fuel definitions v' ;;
       Ok (newReference (reflect.Type_Name vt),
           <[ reflect.Type_Name vt := r.1 ]> r.2)).
Proof.
  intros Hu Hwk Hno Hvt Hk.
  rewrite (reflectType_no_capability fuel definitions t v v' false)
    by assumption.
  unfold reflectKind.
  destruct v' as [|t' d]; [discriminate|].
  cbn in Hvt. injection Hvt as ->. cbn [reflect.Value_Kind]. rewrite Hk.
  destruct (reflectStruct method fuel definitions (reflect.Val vt d))
    as [[node defs]| |]; reflexivity.
Qed.

End WalkerProperties.

Lemma reflectSlice_bytes_witness :
  exists node,
    reflectSlice (reflectType Fixtures.method 0) ∅ (Fixtures.bytes [1; 2; 3])
      = Ok (node, ∅) /\
    Typ node = tTypeString /\
    BinaryEncoding <$> Media node = Some "base64" /\
    Items node = None /\
    Typ node <> tTypeArray /\
    forall fuel root,
      reflectType Fixtures.method (S fuel) ∅ (Some typeByteSlice)
        (Fixtures.bytes [1; 2; 3]) root = Ok (node, ∅).
Proof.
  apply (reflectSlice_bytes Fixtures.method
           (reflectType Fixtures.method 0) ∅ (Fixtures.bytes [1; 2; 3])
           typeByteSlice).
  reflexivity.
Defined.

(** C4, the claim refuted: a value of the named type [Blob], declared as
    [[]byte], and the byte array [[4]byte{1, 2, 3, 4}] are byte sequences;
    the sequence walk returns for each a node of array kind with integer
    items and without a media attribute, and so does [reflectType] for
    the [Blob]. *)
Lemma reflectSlice_bytes_counterexample :
  reflect.Type_Elem Fixtures.Blob = Ok uint8T /\
  (exists node,
     reflectSlice (reflectType Fixtures.method 1) ∅ (Fixtures.blob [1; 2; 3])
       = Ok (node, ∅) /\
     Typ node = tTypeArray /\ Typ <$> Items node = Some tTypeInteger /\
     Media node = None) /\
  (exists node,
     reflectType Fixtures.method 2 ∅ (Some Fixtures.Blob)
       (Fixtures.blob [1; 2; 3]) false = Ok (node, ∅) /\
     Typ node = tTypeArray /\ Typ <$> Items node = Some tTypeInteger /\
     Media node = None) /\
  (exists node,
     reflectSlice (reflectType Fixtures.method 1) ∅ Fixtures.byteArray4
       = Ok (node, ∅) /\
     Typ node = tTypeArray /\ Typ <$> Items node = Some tTypeInteger /\
     Media node = None).
Proof.
  split; [reflexivity|].
  repeat split; (eexists; split; [vm_compute; reflexivity|]);
    vm_compute; auto.
Qed.

Lemma capability_dispatch_order_witness :
  let v := reflect.Val Fixtures.Chimera (reflect.DString "c") in
  reflectType Fixtures.method 2 ∅ (Some Fixtures.Chimera) v false
    = capability_handler Fixtures.method CapAnyOf
        (reflectType Fixtures.method 1) ∅ v /\
  capability_handler Fixtures.method CapPBEnum
      (reflectType Fixtures.method 1) ∅ v
    = Ok (set_OneOf [set_Typ tTypeString emptyType;
                     set_Typ tTypeInteger emptyType] emptyType, ∅).
Proof.
  apply (capability_dispatch_order Fixtures.method 1%nat ∅ Fixtures.Chimera
           (reflect.Val Fixtures.Chimera (reflect.DString "c"))
           (reflect.Val Fixtures.Chimera (reflect.DString "c")) false CapAnyOf).
  - reflexivity.
  - reflexivity.
  - reflexivity.
  - intros c' H. destruct c'; cbn in H; try lia; reflexivity.
Defined.

Lemma reflectEnum_empty_variants_witness :
  reflectEnum Fixtures.method (reflectType Fixtures.method 1) ∅ (Fixtures.enumV [])
    = Panic IndexOutOfRange /\
  reflectType Fixtures.method 1 ∅ (Some Fixtures.enum) (Fixtures.enumV []) false
    = Panic IndexOutOfRange.
Proof.
  destruct (reflectEnum_empty_variants Fixtures.method
              (reflectType Fixtures.method 1) ∅ (Fixtures.enumV []))
    as [H1 H2]; [reflexivity|].
  split; [exact H1|].
  apply (H2 0%nat Fixtures.enum (Fixtures.enumV []) false);
    try reflexivity.
  intros c' H. destruct c'; cbn in H; try lia; reflexivity.
Defined.

(** The walk of [Chimera] is the any-of node of its three variants. *)
Example reflectType_Chimera :
  exists node,
    reflectType Fixtures.method 2 ∅ (Some Fixtures.Chimera)
      (reflect.Val Fixtures.Chimera (reflect.DString "c")) false = Ok (node, ∅) /\
    Typ <$> AnyOf node = [tTypeString; tTypeString; tTypeString] /\
    AllOf node = [] /\ Enum node = [].
Proof. eexists. split; [vm_compute; reflexivity|]. vm_compute. auto. Qed.

(** C2 (values of a kind that the dispatch does not name are coerced to
    an open object): the walk of a channel, of a function and of a complex
    number returns the node of [reflectInterface], an object that allows
    additional properties; [Reflect] returns a schema for them; no call
    fails. *)
Theorem reflectType_unsupported_kind_coerced :
  let object := set_AdditionalProperties "true" (set_Typ tTypeObject emptyType) in
  reflectType Fixtures.method 1 ∅ (Some Fixtures.chanInt)
    (Fixtures.opaque Fixtures.chanInt) false = Ok (object, ∅) /\
  reflectType Fixtures.method 1 ∅ (Some Fixtures.funcT)
    (Fixtures.opaque Fixtures.funcT) false = Ok (object, ∅) /\
  reflectType Fixtures.method 1 ∅ (Some Fixtures.complex128T)
    (Fixtures.opaque Fixtures.complex128T) false = Ok (object, ∅) /\
  Reflect "draft" Fixtures.method 1 (Some (Fixtures.opaque Fixtures.chanInt))
    = Ok (mkSchema (set_Version "draft" object) ∅).
Proof. vm_compute. repeat split; reflexivity. Qed.

(** C1 (a registered type is walked and stored again at every
    encounter): the two members of [Family] are of type [GrandfatherType],
    with the family names x and y.  After the first member the registry
    holds the entry built from x; the walk of the second member does not
    return with the registry as it is but walks the type again and
    replaces the entry by the one built from y. *)
Theorem reflectType_rewalks_registered_type :
  exists ref entry_x entry_y,
    reflectType Fixtures.method 3 ∅ (Some Fixtures.GrandfatherType)
      (Fixtures.grandfather "x") false
      = Ok (ref, {[ "GrandfatherType" := entry_x ]}) /\
    reflectType Fixtures.method 3 {[ "GrandfatherType" := entry_x ]}
      (Some Fixtures.GrandfatherType) (Fixtures.grandfather "y") false
      = Ok (ref, {[ "GrandfatherType" := entry_y ]}) /\
    Ref ref = "#/definitions/GrandfatherType" /\
    Default <$> (Properties entry_x !! "family_name")
      = Some (Some (Fixtures.strV "x")) /\
    Default <$> (Properties entry_y !! "family_name")
      = Some (Some (Fixtures.strV "y")) /\
    entry_x <> entry_y /\
    match Reflect "draft" Fixtures.method 5 (Some Fixtures.family) with
    | Ok schema =>
        Schema_Definitions schema = {[ "GrandfatherType" := entry_y ]} /\
        Properties (Schema_Type schema) !! "paternal" = Some ref /\
        Properties (Schema_Type schema) !! "maternal" = Some ref
    | _ => False
    end.
Proof.
  do 3 eexists.
  split; [vm_compute; reflexivity|].
  split; [vm_compute; reflexivity|].
  split; [reflexivity|].
  split; [vm_compute; reflexivity|].
  split; [vm_compute; reflexivity|].
  split.
  { intros H.
    apply (f_equal (fun e => Default <$> (Properties e !! "family_name"))) in H.
    vm_compute in H. discriminate H. }
  vm_compute. repeat split; reflexivity.
Qed.

Section MoreWalkerProperties.

Variable method : Capability -> Value -> list any.

(** *** Nil pointers *)

Lemma Value_Kind_Zero te :
  reflect.Value_Kind (reflect.Zero te) = reflect.Type_Kind te.
Proof. destruct te; reflexivity. Qed.

(** The first two statements of [reflectType] on a nil pointer: the value
    is replaced by the zero value of the pointee type, of which the second
    statement takes the content when the pointee type is of interface
    kind. *)
Lemma unwrap_nil_pointer d te :
  unwrap (Some (reflect.TPtr d te))
    (reflect.Val (reflect.TPtr d te) (reflect.DPtr None))
  = (if kind_is (reflect.Type_Kind te) reflect.Interface
     then e <- reflect.Value_Elem (reflect.Zero te) ;; Ok (reflect.Indirect e)
     else Ok (reflect.Zero te)).
Proof.
  unfold unwrap.
  change (kind_is (reflect.Value_Kind
                     (reflect.Val (reflect.TPtr d te) (reflect.DPtr None)))
            reflect.Ptr) with true.
  cbn [reflect.Value_Elem bind reflect.IsValid negb deref_type
       reflect.Type_Elem].
  now rewrite Value_Kind_Zero.
Qed.

(** A value of a type that is not of pointer kind passes the first
    statement of [reflectType] as it is; so does the nil pointer of a
    pointer type under a pointer to that type. *)
Lemma unwrap_Zero d te :
  (reflect.Type_Kind te = reflect.Ptr ->
   exists d' e', te = reflect.TPtr d' e') ->
  unwrap (Some (reflect.TPtr d te)) (reflect.Zero te)
  = unwrap (Some (reflect.TPtr d te))
      (reflect.Val (reflect.TPtr d te) (reflect.DPtr None)).
Proof.
  intros Hp. rewrite unwrap_nil_pointer.
  destruct (decide (reflect.Type_Kind te = reflect.Ptr)) as [Hk|Hk].
  - destruct (Hp Hk) as (d' & e' & ->). reflexivity.
  - unfold unwrap. rewrite Value_Kind_Zero.
    unfold kind_is at 1. rewrite bool_decide_eq_false_2 by exact Hk.
    cbn [bind]. rewrite Value_Kind_Zero. reflexivity.
Qed.

(** C8, as the code has it: for every nil pointer, whatever the pointee
    type (a struct, a slice, a map, a leaf, ...), the walker replaces the
    value by the zero value of the pointee type and continues with it:
    the walk returns what the walk of that zero value under the same
    pointer type returns.  When the pointee type is of leaf kind (integer,
    number, boolean or string) and the pointer type has no capability,
    the node returned carries that zero value as its default. *)
Theorem nil_pointer_zero_value fuel definitions d te root :
  let t := reflect.TPtr d te in
  let nil := reflect.Val t (reflect.DPtr None) in
  unwrap (Some t) nil
  = (if kind_is (reflect.Type_Kind te) reflect.Interface
     then e <- reflect.Value_Elem (reflect.Zero te) ;; Ok (reflect.Indirect e)
     else Ok (reflect.Zero te)) /\
  ((reflect.Type_Kind te = reflect.Ptr ->
    exists d' e', te = reflect.TPtr d' e') ->
   reflectType method fuel definitions (Some t) nil root
   = reflectType method fuel definitions (Some t) (reflect.Zero te) root) /\
  (forall dl k,
     te = reflect.Scalar dl k ->
     is_leaf_kind k = true ->
     no_capability t ->
     exists node,
       reflectType method (S fuel) definitions (Some t) nil root
         = Ok (node, definitions) /\
       Default node = Some (reflect.Zero te)).
Proof.
  intros t nil. split; [apply unwrap_nil_pointer|]. split.
  - intros Hp. destruct fuel as [|fuel']; [reflexivity|].
    cbn [reflectType]. unfold reflectType_body, nil, t.
    now rewrite (unwrap_Zero d te Hp).
  - intros dl k -> Hk Hno.
    rewrite (reflectType_no_capability method fuel definitions t nil
               (reflect.Zero (reflect.Scalar dl k)) root);
      [ | | reflexivity | assumption ].
    + destruct k; try discriminate Hk;
        (eexists; split; [reflexivity|reflexivity]).
    + unfold t, nil. rewrite unwrap_nil_pointer.
      destruct k; try discriminate Hk; reflexivity.
Qed.

(** *** Sequences other than byte sequences *)

(** C5, as the code has it: the items of a sequence that is not a byte
    sequence are the walk of a pointer to a fresh zero value of the
    element type, under the pointer type; the elements of the sequence
    play no part. *)
Theorem reflectSlice_items_of_zero_value (rt : Walk) definitions v t te :
  reflect.Value_Type v = Ok t ->
  reflect.Type_Elem t = Ok te ->
  reflect.Type_eqb t typeByteSlice = false ->
  exists base,
    reflectSlice rt definitions v
      = (r <- rt definitions (Some (reflect.PtrTo te))
                (reflect.Val (reflect.PtrTo te)
                   (reflect.DPtr (Some (reflect.Zero te)))) false ;;
         Ok (set_Items (Some r.1) (set_Typ tTypeArray base), r.2)).
Proof.
  intros Ht He Hb. unfold reflectSlice. rewrite Ht. cbn [bind].
  destruct (kind_is (reflect.Type_Kind t) reflect.Array) eqn:Hk.
  - destruct t; try discriminate He; try discriminate Hk.
    cbn [reflect.Type_Len bind].
    rewrite He. cbn [bind]. rewrite Hb.
    eexists. unfold reflect.New.
    destruct (rt _ _ _ _) as [[items defs]| |]; reflexivity.
  - cbn [bind]. rewrite He. cbn [bind]. rewrite Hb.
    eexists. unfold reflect.New.
    destruct (rt _ _ _ _) as [[items defs]| |]; reflexivity.
Qed.

(** *** Embedded members *)

(** The struct walk of a value that is not of struct kind never
    returns. *)
Lemma reflectStruct_non_struct fuel definitions x r :
  reflect.Value_Kind x <> reflect.Struct ->
  reflectStruct method fuel definitions x <> Ok r.
Proof.
  intros Hk. destruct fuel as [|fuel]; [discriminate|].
  cbn [reflectStruct]. unfold reflectStruct_body.
  destruct x as [|t d]; [discriminate|].
  destruct t; try discriminate. now contradict Hk.
Qed.

(** An unexported field leaves the loop state as it is, whether it is
    embedded or not and whatever its type, tag and value. *)
Lemma reflectStruct_field_unexported (rt : Walk) (rs : WalkStruct) st f x :
  reflect.PkgPath f <> "" ->
  reflectStruct_field rt rs st (f, x) = Ok st.
Proof.
  intros Hpkg. destruct st as [cur defs]. unfold reflectStruct_field.
  apply String.eqb_neq in Hpkg. now rewrite Hpkg.
Qed.

(** A loop whose body leaves the state as it is on the elements outside
    [P] is the loop over the elements in [P]. *)
Lemma foldM_filter {A S} (P : A -> Prop) `{forall a, Decision (P a)}
    (f : S -> A -> Result S) l :
  (forall s a, ~ P a -> f s a = Ok s) ->
  forall s, foldM f s l = foldM f s (filter P l).
Proof.
  intros Hskip. induction l as [|a l IH]; intros s; [reflexivity|].
  rewrite filter_cons. destruct (decide (P a)) as [Ha|Ha]; cbn [foldM].
  - destruct (f s a); cbn [bind]; [apply IH|reflexivity|reflexivity].
  - rewrite (Hskip s a Ha). cbn [bind]. apply IH.
Qed.

(** C10, as the code has it: a struct value with an exported embedded
    member whose value is not of struct kind has no schema: the walk does
    not return a node, whatever the registry and the recursion budget.
    An unexported member, embedded or not and whatever its kind, is
    skipped: its iteration leaves the node and the registry as they are,
    and the walk of the struct is the walk of its exported members. *)
Theorem reflectStruct_embedded_non_struct fuel definitions v fields :
  reflect.Value_Fields v = Ok fields ->
  (forall f x,
     (f, x) ∈ fields ->
     reflect.PkgPath f = "" ->
     reflect.Anonymous f = true ->
     reflect.Value_Kind x <> reflect.Struct ->
     is_Ok (reflectStruct method fuel definitions v) = false) /\
  (forall (rt : Walk) (rs : WalkStruct) st f x,
     reflect.PkgPath f <> "" ->
     reflectStruct_field rt rs st (f, x) = Ok st) /\
  reflectStruct method (S fuel) definitions v
  = foldM (reflectStruct_field (reflectType method fuel)
             (reflectStruct method fuel))
      (newType tTypeObject, definitions)
      (filter (fun fx => reflect.PkgPath fx.1 = "") fields).
Proof.
  intros Hf. split; [|split].
  - intros f x Hin Hpkg Hanon Hk.
    destruct (reflectStruct method fuel definitions v) as [r| |] eqn:Hr;
      [exfalso; revert Hr|reflexivity|reflexivity].
    destruct fuel as [|fuel']; [discriminate|].
    cbn [reflectStruct]. unfold reflectStruct_body. rewrite Hf. cbn [bind].
    apply (foldM_stuck _ (f, x)); [|exact Hin].
    intros [cur defs] s' H. unfold reflectStruct_field in H.
    rewrite Hpkg, Hanon in H. cbn [String.eqb negb] in H.
    apply bind_Ok in H as (st1 & H1 & _).
    apply bind_Ok in H1 as (r1 & H1 & _).
    now apply reflectStruct_non_struct in H1.
  - intros rt rs st f x. apply reflectStruct_field_unexported.
  - cbn [reflectStruct]. unfold reflectStruct_body. rewrite Hf. cbn [bind].
    apply foldM_filter. intros s [f x] Hpkg.
    now apply reflectStruct_field_unexported.
Qed.

End MoreWalkerProperties.

Lemma nil_pointer_zero_value_witness :
  (unwrap (Some (reflect.PtrTo Fixtures.GrandfatherType))
     (Fixtures.nilPtr Fixtures.GrandfatherType)
   = Ok (reflect.Zero Fixtures.GrandfatherType) /\
   reflectType Fixtures.method 3 ∅
     (Some (reflect.PtrTo Fixtures.GrandfatherType))
     (Fixtures.nilPtr Fixtures.GrandfatherType) false
   = reflectType Fixtures.method 3 ∅
       (Some (reflect.PtrTo Fixtures.GrandfatherType))
       (reflect.Zero Fixtures.GrandfatherType) false) /\
  exists node,
    reflectType Fixtures.method 1 ∅ (Some (reflect.PtrTo boolT))
      (Fixtures.nilPtr boolT) false = Ok (node, ∅) /\
    Default node = Some (reflect.Zero boolT).
Proof.
  split.
  - destruct (nil_pointer_zero_value Fixtures.method 3 ∅ unnamed
                Fixtures.GrandfatherType false) as (H1 & H2 & _).
    split; [exact H1|]. apply H2. discriminate.
  - destruct (nil_pointer_zero_value Fixtures.method 0 ∅ unnamed boolT false)
      as (_ & _ & H3).
    apply (H3 (builtin "bool") reflect.Bool).
    + reflexivity.
    + reflexivity.
    + intros c. destruct c; reflexivity.
Defined.

(** C8, the claim refuted: the member [Disclosure *bool] of [Footer] is
    nil; its node has the default [false], the zero value that the walker
    made up for the missing pointee. *)
Lemma nil_pointer_default_counterexample :
  exists node,
    reflectStruct Fixtures.method 2 ∅ Fixtures.footer = Ok (node, ∅) /\
    Properties node !! "disclosure"
      = Some (set_Default (Some (reflect.Val boolT (reflect.DBool false)))
                (set_Typ tTypeBoolean emptyType)) /\
    reflect.Zero boolT = reflect.Val boolT (reflect.DBool false).
Proof. eexists. split; [vm_compute; reflexivity|]. vm_compute. auto. Qed.

Lemma reflectSlice_items_of_zero_value_witness :
  exists base,
    reflectSlice (reflectType Fixtures.method 1) ∅ (Fixtures.stringSlice ["a"])
      = (r <- reflectType Fixtures.method 1 ∅ (Some (reflect.PtrTo stringT))
                (reflect.Val (reflect.PtrTo stringT)
                   (reflect.DPtr (Some (reflect.Zero stringT)))) false ;;
         Ok (set_Items (Some r.1) (set_Typ tTypeArray base), r.2)).
Proof.
  apply (reflectSlice_items_of_zero_value (reflectType Fixtures.method 1) ∅
           (Fixtures.stringSlice ["a"]) (reflect.TSlice unnamed stringT) stringT);
    reflexivity.
Defined.

(** C5, the claim refuted: the items of [[]string{"a"}] are the string
    node with the default [""] of the zero value, not the walk of the
    first element, which is the string node with the default ["a"]. *)
Lemma reflectSlice_items_counterexample :
  exists node items,
    reflectSlice (reflectType Fixtures.method 1) ∅ (Fixtures.stringSlice ["a"])
      = Ok (node, ∅) /\
    spec_items (reflectType Fixtures.method 1) ∅ (Fixtures.stringSlice ["a"])
      = Ok (items, ∅) /\
    Items node = Some (set_Default (Some (Fixtures.strV "")) (set_Typ tTypeString emptyType)) /\
    items = set_Default (Some (Fixtures.strV "a")) (set_Typ tTypeString emptyType) /\
    Items node <> Some items.
Proof.
  do 2 eexists.
  split; [vm_compute; reflexivity|].
  split; [vm_compute; reflexivity|].
  split; [vm_compute; reflexivity|].
  split; [vm_compute; reflexivity|].
  intros H. vm_compute in H. discriminate H.
Qed.

Lemma reflectStruct_embedded_non_struct_witness :
  is_Ok (reflectStruct Fixtures.method 2 ∅ Fixtures.colorPicker) = false /\
  reflectStruct_field (reflectType Fixtures.method 0)
    (reflectStruct Fixtures.method 0) (newType tTypeObject, ∅)
    (reflect.mkField "str" Fixtures.pkg true [] Fixtures.str_,
     reflect.Val Fixtures.str_ (reflect.DString ""))
  = Ok (newType tTypeObject, ∅) /\
  reflectStruct Fixtures.method 1 ∅ Fixtures.swatch
  = foldM (reflectStruct_field (reflectType Fixtures.method 0)
             (reflectStruct Fixtures.method 0))
      (newType tTypeObject, ∅) [].
Proof.
  split.
  - destruct (reflectStruct_embedded_non_struct Fixtures.method 2 ∅
                Fixtures.colorPicker
                [(reflect.mkField "String" "" true [] Fixtures.String_,
                  reflect.Val Fixtures.String_ (reflect.DString ""))]
                eq_refl) as (Hstuck & _ & _).
    apply (Hstuck (reflect.mkField "String" "" true [] Fixtures.String_)
             (reflect.Val Fixtures.String_ (reflect.DString ""))).
    + apply list_elem_of_here.
    + reflexivity.
    + reflexivity.
    + discriminate.
  - destruct (reflectStruct_embedded_non_struct Fixtures.method 0 ∅
                Fixtures.swatch
                [(reflect.mkField "str" Fixtures.pkg true [] Fixtures.str_,
                  reflect.Val Fixtures.str_ (reflect.DString ""))]
                eq_refl) as (_ & Hskip & Hwalk).
    split; [apply Hskip; discriminate|exact Hwalk].
Defined.

(** The walk of [ColorPicker] panics in [NumField]. *)
Example reflectStruct_ColorPicker :
  reflectStruct Fixtures.method 2 ∅ Fixtures.colorPicker = Panic KindMismatch /\
  Reflect "draft" Fixtures.method 3 (Some Fixtures.colorPicker)
    = Panic KindMismatch.
Proof. split; reflexivity. Qed.

(** C10, the claim refuted: [Swatch] embeds the unexported string type
    [str]; the member is skipped as an unexported field before the walk
    looks at its being embedded, and the walk returns the object node. *)
Lemma reflectStruct_embedded_counterexample :
  reflect.Value_Fields Fixtures.swatch
    = Ok [(reflect.mkField "str" Fixtures.pkg true [] Fixtures.str_,
           reflect.Val Fixtures.str_ (reflect.DString ""))] /\
  reflectStruct Fixtures.method 1 ∅ Fixtures.swatch
    = Ok (newType tTypeObject, ∅) /\
  Reflect "draft" Fixtures.method 2 (Some Fixtures.swatch)
    = Ok (mkSchema (set_Version "draft" (newType tTypeObject)) ∅).
Proof. vm_compute. repeat split; reflexivity. Qed.

(** ** The cases of the package's tests, run on the model *)

(** [ReflectSlice_returns_ValidTypeOnArraySLice] *)
Example reflectSlice_array4 :
  exists node,
    reflectSlice (reflectType Fixtures.method 1) ∅ Fixtures.array4 = Ok (node, ∅) /\
    Typ node = tTypeArray /\ Typ <$> Items node = Some tTypeInteger /\
    MaxItems node = 4 /\ MinItems node = 4.
Proof. eexists. split; [vm_compute; reflexivity|]. vm_compute. auto. Qed.

(** [ReflectSlice_returns_ValidTypeOnInterfaceSLice]: the items of a slice
    of interfaces are of object kind although the elements are strings. *)
Example reflectSlice_interfaceSlice :
  exists node,
    reflectSlice (reflectType Fixtures.method 1) ∅ Fixtures.interfaceSlice
      = Ok (node, ∅) /\
    Typ node = tTypeArray /\ Typ <$> Items node = Some tTypeObject.
Proof. eexists. split; [vm_compute; reflexivity|]. vm_compute. auto. Qed.

(** [ReflectMap_returns_ValidType] *)
Example reflectMap_mapStringInt :
  exists node,
    reflectMap (reflectType Fixtures.method 1) ∅ Fixtures.mapStringInt
      = Ok (node, ∅) /\
    Typ node = tTypeObject /\
    Typ <$> (PatternProperties node !! ".*") = Some tTypeInteger.
Proof. eexists. split; [vm_compute; reflexivity|]. vm_compute. auto. Qed.

(** [ReflectEnum_returns_ValidType] *)
Example reflectEnum_enumImpl :
  exists node,
    reflectEnum Fixtures.method (reflectType Fixtures.method 1) ∅
      (Fixtures.implV "enumImpl" CapEnum) = Ok (node, ∅) /\
    Typ node = tTypeString /\
    Enum node = [Some (Fixtures.strV "1"); Some (Fixtures.strV "2");
                 Some (Fixtures.strV "3")].
Proof. eexists. split; [vm_compute; reflexivity|]. vm_compute. auto. Qed.

(** [ReflectOneOf_returns_ValidType] *)
Example reflectOneOf_implicitOneOfImpl :
  exists node,
    reflectOneOf Fixtures.method (reflectType Fixtures.method 1) ∅
      (Fixtures.implV "implicitOneOfImpl" CapOneOf) = Ok (node, ∅) /\
    Typ node = "" /\
    Typ <$> OneOf node = [tTypeString; tTypeString; tTypeString] /\
    Default <$> OneOf node
      = [Some (Fixtures.strV "1"); Some (Fixtures.strV "2");
         Some (Fixtures.strV "3")].
Proof. eexists. split; [vm_compute; reflexivity|]. vm_compute. auto. Qed.

(** A member of the protobuf-generated enumeration [ProtoEnum]. *)
Example reflectType_ProtoEnum :
  reflectType Fixtures.method 1 ∅ (Some Fixtures.ProtoEnum)
    (reflect.Val Fixtures.ProtoEnum (reflect.DInt 1)) false
  = Ok (set_OneOf [set_Typ tTypeString emptyType;
                   set_Typ tTypeInteger emptyType] emptyType, ∅).
Proof. reflexivity. Qed.

(** [ReflectString_returns_ValidType] and [ReflectInteger_returns_ValidType] *)
Example reflectString_666 :
  reflectString ∅ (Fixtures.strV "666")
    = Ok (set_Default (Some (Fixtures.strV "666")) (set_Typ tTypeString emptyType)) /\
  reflectInteger ∅ (Fixtures.intV 666)
    = Ok (set_Default (Some (Fixtures.intV 666)) (set_Typ tTypeInteger emptyType)).
Proof. split; reflexivity. Qed.

(** [TestNewReference] *)
Example newReference_string :
  Ref (newReference tTypeString) = "#/definitions/string".
Proof. reflexivity. Qed.

(** [getSliceValue] returns the first element of a sequence that has one
    and a pointer to a fresh zero value otherwise. *)
Example getSliceValue_cases :
  getSliceValue (Fixtures.stringSlice ["a"; "b"]) = Ok (Fixtures.strV "a") /\
  getSliceValue (Fixtures.stringSlice []) = Ok (reflect.New stringT).
Proof. split; reflexivity. Qed.

(** ** Further properties of the composite walk *)

#[local] Set Warnings "-clear-no-such-hyp".

Section CompositeWalk.

Variable method : Capability -> Value -> list any.

Lemma reflectStruct_field_bare (rt : Walk) (rs : WalkStruct) st fv st' :
  bare_object st.1 ->
  reflectStruct_field rt rs st fv = Ok st' ->
  bare_object st'.1.
Proof.
  destruct st as [cur defs], fv as [sf sv]. unfold reflectStruct_field.
  cbn [fst]. intros Hb H.
  destruct (negb _); [injection H as <-; exact Hb|].
  apply bind_Ok in H as ([cur1 defs1] & H1 & H).
  assert (bare_object cur1) as Hb1.
  { destruct (reflect.Anonymous sf).
    - apply bind_Ok in H1 as ([typ d] & _ & H1).
      injection H1 as <- _. unfold bare_object in *. rewrite Hb at 2.
      reflexivity.
    - injection H1 as <- _. exact Hb. }
  destruct (_ || _); [injection H as <-; exact Hb1|].
  apply bind_Ok in H as ([ft d] & _ & H).
  injection H as <-. cbn [fst]. unfold bare_object in *.
  rewrite Hb1 at 2. reflexivity.
Qed.

Lemma reflectStruct_body_bare (rt : Walk) (rs : WalkStruct) definitions v
    node definitions' :
  reflectStruct_body rt rs definitions v = Ok (node, definitions') ->
  bare_object node.
Proof.
  unfold reflectStruct_body. intros H.
  apply bind_Ok in H as (fields & _ & H).
  change (bare_object (node, definitions').1).
  eapply (foldM_invariant (fun st => bare_object st.1)); [| |exact H].
  - intros s a' s'. apply reflectStruct_field_bare.
  - reflexivity.
Qed.

(** X1: the node that [reflectStruct] returns is an object node with
    nothing but its kind and its properties: every other attribute
    (title, default, required, definitions, constraints, ...) is as
    [newType] left it. *)
Theorem reflectStruct_bare_object fuel definitions v node definitions' :
  reflectStruct method fuel definitions v = Ok (node, definitions') ->
  node = set_Properties (Properties node) (newType tTypeObject).
Proof.
  destruct fuel as [|fuel]; [discriminate|]. cbn [reflectStruct].
  unfold reflectStruct_body. intros H.
  apply bind_Ok in H as (fields & _ & H).
  change (bare_object (node, definitions').1).
  eapply (foldM_invariant (fun st => bare_object st.1)); [| |exact H].
  - intros s a s'. apply reflectStruct_field_bare.
  - reflexivity.
Qed.

Lemma member_names_nil : member_names [] = ∅.
Proof. reflexivity. Qed.

Lemma member_names_cons fv l :
  member_names (fv :: l)
  = (if is_member fv then {[ member_name fv ]} else ∅) ∪ member_names l.
Proof.
  unfold member_names. rewrite filter_cons.
  destruct (is_member fv) eqn:Hm.
  - rewrite decide_True by reflexivity. reflexivity.
  - rewrite decide_False by discriminate. set_solver.
Qed.

Lemma reflectStruct_field_dom (rt : Walk) (rs : WalkStruct) cur defs fv cur' defs' :
  is_embedded fv = false ->
  reflectStruct_field rt rs (cur, defs) fv = Ok (cur', defs') ->
  dom (Properties cur')
  = dom (Properties cur) ∪ (if is_member fv then {[ member_name fv ]} else ∅).
Proof.
  destruct fv as [sf sv]. unfold is_embedded, is_member, member_name.
  unfold reflectStruct_field. cbn [fst].
  destruct (String.eqb (reflect.PkgPath sf) "") eqn:Hpkg; cbn [negb andb].
  2:{ intros _ H. injection H as <- _. set_solver. }
  intros Ha H. rewrite Ha in H. cbn [bind] in H.
  destruct (String.eqb (name (parseTags (reflect.Tag sf))) "") eqn:Hn;
    cbn [orb negb] in *.
  { injection H as <- _. set_solver. }
  destruct (ignored (parseTags (reflect.Tag sf))) eqn:Hi; cbn [negb] in *.
  { injection H as <- _. set_solver. }
  apply bind_Ok in H as ([ft d] & _ & H). injection H as <- _.
  cbn. rewrite dom_insert_L. set_solver.
Qed.

Lemma reflectStruct_loop_dom (rt : Walk) (rs : WalkStruct) fields :
  Forall (fun fv => is_embedded fv = false) fields ->
  forall cur defs cur' defs',
    foldM (reflectStruct_field rt rs) (cur, defs) fields = Ok (cur', defs') ->
    dom (Properties cur') = dom (Properties cur) ∪ member_names fields.
Proof.
  induction 1 as [|fv l Hfv Hl IH]; cbn [foldM]; intros cur defs cur' defs' H.
  - injection H as <- _. rewrite member_names_nil. set_solver.
  - apply bind_Ok in H as ([cur1 defs1] & H1 & H).
    apply (reflectStruct_field_dom _ _ _ _ _ _ _ Hfv) in H1.
    apply IH in H. rewrite H, H1, member_names_cons. set_solver.
Qed.

(** X2: when no exported field of a struct is embedded, the property
    names of the node that [reflectStruct] returns are exactly the
    descriptor names of the exported fields whose descriptor has a name and
    is not marked ignored: unexported, unnamed and ignored fields leave no
    property, every other field leaves one. *)
Theorem reflectStruct_property_names fuel definitions v fields node definitions' :
  reflect.Value_Fields v = Ok fields ->
  Forall (fun fv => is_embedded fv = false) fields ->
  reflectStruct method fuel definitions v = Ok (node, definitions') ->
  dom (Properties node) = member_names fields.
Proof.
  intros Hf Hemb. destruct fuel as [|fuel]; [discriminate|].
  cbn [reflectStruct]. unfold reflectStruct_body. rewrite Hf. cbn [bind].
  intros H. apply (reflectStruct_loop_dom _ _ _ Hemb) in H.
  rewrite H. cbn. set_solver.
Qed.

Lemma reflectStruct_loop_unexported (rt : Walk) (rs : WalkStruct) fields st :
  Forall (fun fv => reflect.PkgPath fv.1 <> "") fields ->
  foldM (reflectStruct_field rt rs) st fields = Ok st.
Proof.
  induction 1 as [|[sf sv] l Hfv Hl IH]; cbn [foldM]; [reflexivity|].
  unfold reflectStruct_field at 1. destruct st as [cur defs].
  cbn [fst] in Hfv. apply String.eqb_neq in Hfv. rewrite Hfv. cbn [negb bind].
  exact IH.
Qed.

(** X3: a struct value whose fields are all unexported is
    described by the empty object node, its field values are not looked
    at (whatever their types, tags and embedding), and the registry is
    left as it is. *)
Theorem reflectStruct_unexported_fields fuel definitions v fields :
  reflect.Value_Fields v = Ok fields ->
  Forall (fun fv => reflect.PkgPath fv.1 <> "") fields ->
  reflectStruct method (S fuel) definitions v
    = Ok (newType tTypeObject, definitions).
Proof.
  intros Hf Hun. cbn [reflectStruct]. unfold reflectStruct_body.
  rewrite Hf. cbn [bind]. now apply reflectStruct_loop_unexported.
Qed.

End CompositeWalk.

Lemma reflectStruct_bare_object_witness :
  let node := set_Properties
                {[ "family_name" := set_Default (Some (Fixtures.strV "x"))
                                      (set_Typ tTypeString emptyType) ]}
                (newType tTypeObject) in
  node = set_Properties (Properties node) (newType tTypeObject).
Proof.
  apply (reflectStruct_bare_object Fixtures.method 2 ∅ (Fixtures.grandfather "x")
           _ ∅).
  vm_compute. reflexivity.
Defined.

Lemma reflectStruct_property_names_witness :
  dom (Properties (set_Properties
                     {[ "family_name" := set_Default (Some (Fixtures.strV "x"))
                                           (set_Typ tTypeString emptyType) ]}
                     (newType tTypeObject)))
  = member_names
      [(reflect.mkField "FamilyName" "" false
          [("json", "family_name"); ("required", "true")] stringT,
        Fixtures.strV "x")].
Proof.
  apply (reflectStruct_property_names Fixtures.method 2 ∅
           (Fixtures.grandfather "x") _ _ ∅).
  - reflexivity.
  - repeat constructor.
  - vm_compute. reflexivity.
Defined.

Lemma reflectStruct_unexported_fields_witness :
  reflectStruct Fixtures.method 1 ∅ (reflect.Zero typeTime)
    = Ok (newType tTypeObject, ∅).
Proof.
  apply (reflectStruct_unexported_fields Fixtures.method 0 ∅
           (reflect.Zero typeTime)
           (zip [hidden "time" "wall" uint64T; hidden "time" "ext" int64T;
                 hidden "time" "loc" (reflect.PtrTo time_Location)]
                [reflect.Zero uint64T; reflect.Zero int64T;
                 reflect.Zero (reflect.PtrTo time_Location)])).
  - reflexivity.
  - repeat constructor; discriminate.
Defined.

(** ** The registry only grows *)

Section RegistryGrows.

Variable method : Capability -> Value -> list any.

Lemma reflectVariants_loop_keeps (rt : Walk) variants :
  keeps_names rt ->
  forall nodes definitions nodes' definitions',
    foldM (fun (st : list Type_ * Definitions) (variant : any) =>
             let (nodes, definition) := st in
             r <- rt definition (reflect.TypeOf variant)
                    (reflect.ValueOf variant) false ;;
             let (node, definition) := r in
             Ok (nodes ++ [node], definition))
          (nodes, definitions) variants = Ok (nodes', definitions') ->
    dom definitions ⊆ dom definitions'.
Proof.
  intros Hrt. induction variants as [|variant l IH]; cbn [foldM];
    intros nodes defs nodes' defs' H.
  - injection H as _ <-. reflexivity.
  - apply bind_Ok in H as ([nodes1 defs1] & H1 & H).
    apply bind_Ok in H1 as ([node d] & H1 & H2). injection H2 as _ <-.
    apply Hrt in H1. apply IH in H. set_solver.
Qed.

Lemma reflectVariants_keeps (rt : Walk) definitions variants nodes definitions' :
  keeps_names rt ->
  reflectVariants rt definitions variants = Ok (nodes, definitions') ->
  dom definitions ⊆ dom definitions'.
Proof. intros Hrt. apply reflectVariants_loop_keeps, Hrt. Qed.

Lemma capability_handler_keeps (rt : Walk) c definitions v node definitions' :
  keeps_names rt ->
  capability_handler method c rt definitions v = Ok (node, definitions') ->
  dom definitions ⊆ dom definitions'.
Proof.
  intros Hrt. destruct c; cbn [capability_handler].
  - intros H. injection H as _ <-. reflexivity.
  - unfold reflectOneOf. intros H.
    apply bind_Ok in H as (variants & _ & H).
    apply bind_Ok in H as ([nodes d] & H1 & H).
    apply bind_Ok in H as (dflt & _ & H). injection H as _ <-.
    now apply reflectVariants_keeps in H1.
  - unfold reflectAnyOf. intros H.
    apply bind_Ok in H as (variants & _ & H).
    apply bind_Ok in H as ([nodes d] & H1 & H).
    apply bind_Ok in H as (dflt & _ & H). injection H as _ <-.
    now apply reflectVariants_keeps in H1.
  - unfold reflectAllOf. intros H.
    apply bind_Ok in H as (variants & _ & H).
    apply bind_Ok in H as ([nodes d] & H1 & H).
    apply bind_Ok in H as (dflt & _ & H). injection H as _ <-.
    now apply reflectVariants_keeps in H1.
  - unfold reflectEnum. intros H.
    apply bind_Ok in H as (variants & _ & H).
    destruct variants as [|variant0 l]; [discriminate|].
    apply bind_Ok in H as ([vType d] & H1 & H).
    apply bind_Ok in H as (dflt & _ & H). injection H as _ <-.
    now apply Hrt in H1.
Qed.

Lemma reflectSlice_keeps (rt : Walk) definitions v node definitions' :
  keeps_names rt ->
  reflectSlice rt definitions v = Ok (node, definitions') ->
  dom definitions ⊆ dom definitions'.
Proof.
  intros Hrt. unfold reflectSlice. intros H.
  apply bind_Ok in H as (t & _ & H).
  apply bind_Ok in H as (returnType & _ & H).
  apply bind_Ok in H as (te & _ & H).
  destruct (reflect.Type_eqb t typeByteSlice).
  - injection H as _ <-. reflexivity.
  - apply bind_Ok in H as ([items d] & H1 & H). injection H as _ <-.
    now apply Hrt in H1.
Qed.

Lemma reflectMap_keeps (rt : Walk) definitions v node definitions' :
  keeps_names rt ->
  reflectMap rt definitions v = Ok (node, definitions') ->
  dom definitions ⊆ dom definitions'.
Proof.
  intros Hrt. unfold reflectMap. intros H.
  apply bind_Ok in H as (t & _ & H).
  apply bind_Ok in H as (val & _ & H).
  apply bind_Ok in H as ([n d] & H1 & H). injection H as _ <-.
  now apply Hrt in H1.
Qed.

Lemma reflectKind_keeps (rt : Walk) (rs : WalkStruct) definitions t v root
    node definitions' :
  keeps_names rt -> keeps_names_struct rs ->
  reflectKind rt rs definitions t v root = Ok (node, definitions') ->
  dom definitions ⊆ dom definitions'.
Proof.
  intros Hrt Hrs. unfold reflectKind.
  destruct (reflect.Value_Kind v);
    try (intros H; injection H as _ <-; reflexivity);
    try (intros H; apply bind_Ok in H as (n & _ & H); injection H as _ <-;
         reflexivity).
  - now apply reflectMap_keeps.
  - now apply reflectSlice_keeps.
  - intros H. apply bind_Ok in H as ([cur d] & H1 & H). apply Hrs in H1.
    destruct root.
    + injection H as _ <-. exact H1.
    + apply bind_Ok in H as (vt & _ & H). injection H as _ <-.
      rewrite dom_insert_L. set_solver.
Qed.

Lemma reflectType_body_keeps (rt : Walk) (rs : WalkStruct) :
  keeps_names rt -> keeps_names_struct rs ->
  keeps_names (reflectType_body method rt rs).
Proof.
  intros Hrt Hrs defs t v root node defs'. unfold reflectType_body. intros H.
  apply bind_Ok in H as (v' & _ & H).
  destruct (is_type t typeTime); [injection H as _ <-; reflexivity|].
  destruct (is_type t typeIP); [injection H as _ <-; reflexivity|].
  destruct (is_type t typeURI); [injection H as _ <-; reflexivity|].
  apply bind_Ok in H as (t' & _ & H).
  destruct (reflect.Implements t' CapPBEnum);
    [now apply (capability_handler_keeps rt CapPBEnum) in H|].
  destruct (reflect.Implements t' CapOneOf);
    [now apply (capability_handler_keeps rt CapOneOf) in H|].
  destruct (reflect.Implements t' CapAnyOf);
    [now apply (capability_handler_keeps rt CapAnyOf) in H|].
  destruct (reflect.Implements t' CapAllOf);
    [now apply (capability_handler_keeps rt CapAllOf) in H|].
  destruct (reflect.Implements t' CapEnum);
    [now apply (capability_handler_keeps rt CapEnum) in H|].
  now apply reflectKind_keeps in H.
Qed.

Lemma reflectStruct_field_keeps (rt : Walk) (rs : WalkStruct) st fv st' :
  keeps_names rt -> keeps_names_struct rs ->
  reflectStruct_field rt rs st fv = Ok st' ->
  dom st.2 ⊆ dom st'.2.
Proof.
  intros Hrt Hrs. destruct st as [cur defs], fv as [sf sv].
  unfold reflectStruct_field. cbn [snd]. intros H.
  destruct (negb _); [injection H as <-; reflexivity|].
  apply bind_Ok in H as ([cur1 defs1] & H1 & H).
  assert (dom defs ⊆ dom defs1) as Hd1.
  { destruct (reflect.Anonymous sf).
    - apply bind_Ok in H1 as ([typ d] & H1 & H2). apply Hrs in H1.
      injection H2 as _ <-. rewrite dom_union_L. set_solver.
    - injection H1 as _ <-. reflexivity. }
  destruct (_ || _); [injection H as <-; exact Hd1|].
  apply bind_Ok in H as ([ft d] & H2 & H). apply Hrt in H2.
  injection H as <-. cbn [snd]. set_solver.
Qed.

Lemma reflectStruct_body_keeps (rt : Walk) (rs : WalkStruct) :
  keeps_names rt -> keeps_names_struct rs ->
  keeps_names_struct (reflectStruct_body rt rs).
Proof.
  intros Hrt Hrs defs v node defs'. unfold reflectStruct_body. intros H.
  apply bind_Ok in H as (fields & _ & H).
  revert H. generalize (newType tTypeObject). intros cur.
  revert cur defs. induction fields as [|fv l IH]; cbn [foldM]; intros cur defs H.
  - injection H as _ <-. reflexivity.
  - apply bind_Ok in H as ([cur1 defs1] & H1 & H).
    apply (reflectStruct_field_keeps _ _ _ _ _ Hrt Hrs) in H1. cbn [snd] in H1.
    apply IH in H. set_solver.
Qed.

Lemma walker_keeps_names fuel :
  keeps_names (reflectType method fuel) /\
  keeps_names_struct (reflectStruct method fuel).
Proof.
  induction fuel as [|fuel [IHt IHs]].
  - split; intros ? **; discriminate.
  - split; cbn [reflectType reflectStruct].
    + now apply reflectType_body_keeps.
    + now apply reflectStruct_body_keeps.
Qed.

(** X4: a walk that returns never removes a name from the registry:
    every name registered before the call of [reflectType] is registered
    after it (its entry may have been replaced). *)
Theorem reflectType_keeps_names fuel definitions t v root node definitions' :
  reflectType method fuel definitions t v root = Ok (node, definitions') ->
  dom definitions ⊆ dom definitions'.
Proof. apply (walker_keeps_names fuel). Qed.

End RegistryGrows.

Lemma reflectType_keeps_names_witness :
  dom ({[ "Footer" := emptyType ]} : gmap string Type_)
  ⊆ dom (<[ "GrandfatherType" :=
            set_Properties
              {[ "family_name" := set_Default (Some (Fixtures.strV "x"))
                                    (set_Typ tTypeString emptyType) ]}
              (newType tTypeObject) ]>
         ({[ "Footer" := emptyType ]} : gmap string Type_)).
Proof.
  apply (reflectType_keeps_names Fixtures.method 3 _
           (Some Fixtures.GrandfatherType) (Fixtures.grandfather "x") false
           (newReference "GrandfatherType")).
  vm_compute. reflexivity.
Defined.

(** ** The recursion budget *)

Lemma extends_refl {A} (r : Result A) : extends r r.
Proof. now right. Qed.

Lemma extends_bind {A B} (r r' : Result A) (k k' : A -> Result B) :
  extends r r' -> (forall a, extends (k a) (k' a)) ->
  extends (bind r k) (bind r' k').
Proof.
  intros [->| ->] Hk; [now left|].
  destruct r as [a| |]; cbn; [apply Hk|now right|now left].
Qed.

Lemma extends_foldM {A S} (f f' : S -> A -> Result S) :
  (forall s a, extends (f s a) (f' s a)) ->
  forall l s, extends (foldM f s l) (foldM f' s l).
Proof.
  intros Hf l. induction l as [|a l IH]; intros s; cbn [foldM].
  - apply extends_refl.
  - apply extends_bind; [apply Hf|apply IH].
Qed.

Ltac extends_step :=
  match goal with
  | |- extends (bind _ _) (bind _ _) => apply extends_bind; [|intros ?]
  | |- extends (let (_, _) := ?p in _) _ => destruct p
  | |- extends (if ?b then _ else _) _ => destruct b
  | |- extends (match ?x with _ => _ end) _ => destruct x
  | |- extends ?r ?r => apply extends_refl
  end.

Section Budget.

Variable method : Capability -> Value -> list any.

Lemma reflectVariants_extends (rt rt' : Walk) definitions variants :
  below rt rt' ->
  extends (reflectVariants rt definitions variants)
          (reflectVariants rt' definitions variants).
Proof.
  intros Hrt. unfold reflectVariants. apply extends_foldM.
  intros [nodes d] variant. repeat extends_step. apply Hrt.
Qed.

Lemma capability_handler_extends (rt rt' : Walk) c definitions v :
  below rt rt' ->
  extends (capability_handler method c rt definitions v)
          (capability_handler method c rt' definitions v).
Proof.
  intros Hrt.
  destruct c; cbn [capability_handler];
    unfold reflectOneOf, reflectAnyOf, reflectAllOf, reflectEnum;
    repeat first [ apply reflectVariants_extends; exact Hrt
                 | apply Hrt
                 | extends_step ].
Qed.

Lemma reflectKind_extends (rt rt' : Walk) (rs rs' : WalkStruct)
    definitions t v root :
  below rt rt' -> below_struct rs rs' ->
  extends (reflectKind rt rs definitions t v root)
          (reflectKind rt' rs' definitions t v root).
Proof.
  intros Hrt Hrs. unfold reflectKind, reflectSlice, reflectMap.
  destruct (reflect.Value_Kind v);
    repeat first [ apply Hrt | apply Hrs | extends_step ].
Qed.

Lemma reflectType_body_extends (rt rt' : Walk) (rs rs' : WalkStruct) :
  below rt rt' -> below_struct rs rs' ->
  below (reflectType_body method rt rs) (reflectType_body method rt' rs').
Proof.
  intros Hrt Hrs defs t v root. unfold reflectType_body.
  apply extends_bind; [apply extends_refl|intros v'].
  do 3 (extends_step; [apply extends_refl|]).
  apply extends_bind; [apply extends_refl|intros t'].
  destruct (reflect.Implements t' CapPBEnum); [apply extends_refl|].
  destruct (reflect.Implements t' CapOneOf);
    [now apply (capability_handler_extends rt rt' CapOneOf)|].
  destruct (reflect.Implements t' CapAnyOf);
    [now apply (capability_handler_extends rt rt' CapAnyOf)|].
  destruct (reflect.Implements t' CapAllOf);
    [now apply (capability_handler_extends rt rt' CapAllOf)|].
  destruct (reflect.Implements t' CapEnum);
    [now apply (capability_handler_extends rt rt' CapEnum)|].
  now apply reflectKind_extends.
Qed.

Lemma reflectStruct_body_extends (rt rt' : Walk) (rs rs' : WalkStruct) :
  below rt rt' -> below_struct rs rs' ->
  below_struct (reflectStruct_body rt rs) (reflectStruct_body rt' rs').
Proof.
  intros Hrt Hrs defs v. unfold reflectStruct_body.
  apply extends_bind; [apply extends_refl|intros fields].
  apply extends_foldM. intros [cur d] [sf sv]. unfold reflectStruct_field.
  repeat first [ apply Hrt | apply Hrs | extends_step ].
Qed.

Lemma walker_extends_succ fuel :
  below (reflectType method fuel) (reflectType method (S fuel)) /\
  below_struct (reflectStruct method fuel) (reflectStruct method (S fuel)).
Proof.
  induction fuel as [|fuel [IHt IHs]].
  - split; intros ? **; now left.
  - split.
    + exact (reflectType_body_extends _ _ _ _ IHt IHs).
    + exact (reflectStruct_body_extends _ _ _ _ IHt IHs).
Qed.

(** The outcome of a walk that ends within a recursion depth (a
    node with the registry, or a panic) is its outcome within every larger
    depth: the budget of the model decides whether the model sees the end
    of a walk, never what the walk returns. *)
Theorem reflectType_budget fuel fuel' definitions t v root :
  (fuel <= fuel')%nat ->
  reflectType method fuel definitions t v root <> OutOfFuel ->
  reflectType method fuel' definitions t v root
    = reflectType method fuel definitions t v root.
Proof.
  intros Hle. induction Hle as [|fuel' Hle IH]; [reflexivity|].
  intros Hne. specialize (IH Hne).
  destruct (proj1 (walker_extends_succ fuel') definitions t v root) as [H|H].
  - rewrite IH in H. contradiction.
  - now rewrite H.
Qed.

End Budget.

Lemma reflectType_budget_witness :
  reflectType Fixtures.method 7 ∅ (Some Fixtures.GrandfatherType)
    (Fixtures.grandfather "x") false
  = reflectType Fixtures.method 3 ∅ (Some Fixtures.GrandfatherType)
      (Fixtures.grandfather "x") false.
Proof.
  apply (reflectType_budget Fixtures.method 3 7 ∅
           (Some Fixtures.GrandfatherType) (Fixtures.grandfather "x") false).
  - lia.
  - vm_compute. discriminate.
Defined.

(** ** Further properties of the dispatch *)

Section Dispatch.

Variable Version_ : string.
Variable method : Capability -> Value -> list any.

Lemma plain_value_Interface v :
  plain_value v = true -> reflect.Value_Interface v = Ok (Some v).
Proof.
  destruct v as [|t d]; [discriminate|]. cbn. intros H.
  apply andb_prop in H as [_ H]. destruct d; try discriminate; reflexivity.
Qed.

(** X5: a value of integer, floating point, boolean or string kind,
    of a type without capabilities, is described by a node of kind
    integer, number, boolean or string whose default is the value itself;
    the registry is left as it is. *)
Theorem reflectType_leaf fuel definitions d k data root :
  let t := reflect.Scalar d k in
  let v := reflect.Val t data in
  is_leaf_kind k = true ->
  leaf_data k data = true ->
  no_capability t ->
  reflectType method (S fuel) definitions (Some t) v root
    = Ok (set_Default (Some v) (set_Typ (leaf_type_name k) emptyType),
          definitions).
Proof.
  intros t v Hk Hd Hno.
  rewrite (reflectType_no_capability method fuel definitions t v v root);
    [ | | reflexivity | assumption ].
  - subst v t.
    destruct k; try discriminate Hk; destruct data; try discriminate Hd;
      reflexivity.
  - subst v t. destruct k; try discriminate Hk; reflexivity.
Qed.

Lemma reflectType_body_format_node (rt : Walk) (rs : WalkStruct) definitions
    t fmt v v' root :
  (t, fmt) ∈ [(typeTime, "date-time"); (typeIP, "ipv4"); (typeURI, "uri")] ->
  unwrap (Some t) v = Ok v' ->
  reflectType_body method rt rs definitions (Some t) v root
    = Ok (set_Format fmt (set_Typ tTypeString emptyType), definitions).
Proof.
  intros Hin Hu. unfold reflectType_body. rewrite Hu. cbn [bind].
  apply elem_of_cons in Hin as [Hin|Hin]; [injection Hin as -> ->; reflexivity|].
  apply elem_of_cons in Hin as [Hin|Hin]; [injection Hin as -> ->; reflexivity|].
  apply elem_of_cons in Hin as [Hin|Hin]; [injection Hin as -> ->; reflexivity|].
  inversion Hin.
Qed.

(** X6: a value that is walked under the type [time.Time],
    [net.IP] or [url.URL] is described by a string node with the format
    date-time, ipv4 or uri; the value plays no part (no default is
    attached, an IPv6 address has the format ipv4 as well), the struct or
    sequence behind the type is not walked and the registry is left as it
    is. *)
Theorem reflectType_well_known fuel definitions t fmt v v' root :
  (t, fmt) ∈ [(typeTime, "date-time"); (typeIP, "ipv4"); (typeURI, "uri")] ->
  unwrap (Some t) v = Ok v' ->
  reflectType method (S fuel) definitions (Some t) v root
    = Ok (set_Format fmt (set_Typ tTypeString emptyType), definitions).
Proof.
  intros Hin Hu. cbn [reflectType]. unfold reflectType_body.
  rewrite Hu. cbn [bind].
  repeat (apply elem_of_cons in Hin as [Hin|Hin];
          [injection Hin as -> ->; reflexivity|]).
  inversion Hin.
Qed.

(** The walk of a pointer to a fresh [time.Time]: the pointer type is not
    [time.Time], so the struct is walked and registered. *)
Lemma reflectType_pointer_to_time fuel definitions :
  reflectType method (S (S fuel)) definitions
    (Some (reflect.PtrTo typeTime)) (reflect.New typeTime) false
  = Ok (newReference "Time", <[ "Time" := newType tTypeObject ]> definitions).
Proof. reflexivity. Qed.

(** X7: the element type of a sequence is walked under the pointer
    type, that of a map under the element type itself.  So the items of a
    sequence of [time.Time] are not a date-time string but a reference to
    a definition [Time], which is registered as an object without
    properties; the values of a map of [time.Time] are date-time
    strings. *)
Theorem reflect_sequence_and_map_of_times fuel definitions vs vm ds dm key :
  reflect.Value_Type vs = Ok (reflect.TSlice ds typeTime) ->
  reflect.Value_Type vm = Ok (reflect.TMap dm key typeTime) ->
  reflectSlice (reflectType method (S (S fuel))) definitions vs
    = Ok (set_Items (Some (newReference "Time"))
            (set_Typ tTypeArray (newType "")),
          <[ "Time" := newType tTypeObject ]> definitions) /\
  reflectMap (reflectType method (S fuel)) definitions vm
    = Ok (set_PatternProperties
            {[ ".*" := set_Format "date-time" (set_Typ tTypeString emptyType) ]}
            (set_Typ tTypeObject emptyType),
          definitions).
Proof.
  intros Hs Hm. split.
  - unfold reflectSlice. rewrite Hs. cbn [bind].
    change (kind_is (reflect.Type_Kind (reflect.TSlice ds typeTime)) reflect.Array)
      with false. cbn iota. cbn [reflect.Type_Elem bind].
    change (reflect.Type_eqb (reflect.TSlice ds typeTime) typeByteSlice)
      with (bool_decide (ds = unnamed) && false).
    rewrite andb_false_r.
    rewrite reflectType_pointer_to_time. reflexivity.
  - unfold reflectMap. rewrite Hm. cbn [bind reflect.Type_Elem].
    cbn [reflectType].
    rewrite (reflectType_body_format_node _ _ definitions typeTime "date-time"
               (reflect.New typeTime) (reflect.Zero typeTime) false);
      [reflexivity|apply list_elem_of_here|reflexivity].
Qed.

(** X8: [Reflect] of a nil pointer (to a type without
    capabilities) does not describe the pointee type: it returns the open
    object node and an empty registry.  [Reflect] of the nil interface
    panics with a nil dereference. *)
Theorem Reflect_nil fuel d elem :
  let t := reflect.TPtr d elem in
  no_capability t ->
  Reflect Version_ method (S fuel) (Some (reflect.Val t (reflect.DPtr None)))
    = Ok (mkSchema
            (set_Version Version_
               (set_AdditionalProperties "true" (set_Typ tTypeObject emptyType)))
            ∅) /\
  Reflect Version_ method (S fuel) None = Panic NilDereference.
Proof.
  intros t Hno. split; [|reflexivity].
  unfold Reflect. cbn [reflect.ValueOf reflect.TypeOf reflect.Indirect].
  rewrite (reflectType_unmatched_kind method fuel ∅ t reflect.VInvalid
             reflect.VInvalid true); try reflexivity. exact Hno.
Qed.

(** X9: a value of an interface type without capabilities is
    described by what it holds, whatever methods the type of the content
    has: nil gives the open object node, a content of leaf kind gives the
    leaf node with the content as default. *)
Theorem reflectType_interface_value fuel definitions di dx k data root :
  let t := reflect.TInterface di in
  let x := reflect.Val (reflect.Scalar dx k) data in
  no_capability t ->
  is_leaf_kind k = true ->
  leaf_data k data = true ->
  reflectType method (S fuel) definitions (Some t)
    (reflect.Val t (reflect.DIface None)) root
    = Ok (set_AdditionalProperties "true" (set_Typ tTypeObject emptyType),
          definitions) /\
  reflectType method (S fuel) definitions (Some t)
    (reflect.Val t (reflect.DIface (Some x))) root
    = Ok (set_Default (Some x) (set_Typ (leaf_type_name k) emptyType),
          definitions).
Proof.
  intros t x Hno Hk Hd. split.
  - now rewrite (reflectType_unmatched_kind method fuel definitions t _
                   reflect.VInvalid root).
  - rewrite (reflectType_no_capability method fuel definitions t _ x root);
      [ | | reflexivity | assumption ].
    + subst x.
      destruct k; try discriminate Hk; destruct data; try discriminate Hd;
        reflexivity.
    + subst x t.
      destruct k; try discriminate Hk; destruct data; try discriminate Hd;
        reflexivity.
Qed.

(** X10: when a capability method (one-of, any-of, all-of or
    enumerable) is declared with a pointer receiver, a pointer to the type
    passes the test of [reflectType] for the capability, but the handler
    is given the dereferenced value, whose type lacks the method: the type
    assertion in the handler panics. *)
Theorem reflectType_pointer_receiver fuel definitions T data c root :
  let t := reflect.PtrTo T in
  let x := reflect.Val T data in
  c <> CapPBEnum ->
  reflect.has_method T c ByPointer = true ->
  reflect.has_method T c ByValue = false ->
  (forall c', (capability_rank c' < capability_rank c)%nat ->
              reflect.Implements t c' = false) ->
  reflect.Type_Kind T <> reflect.Ptr ->
  plain_value x = true ->
  reflectType method (S fuel) definitions (Some t)
    (reflect.Val t (reflect.DPtr (Some x))) root = Panic TypeAssertion.
Proof.
  intros t x Hc Hptr Hval Hearlier Hk Hp.
  assert (reflect.Implements T c = false) as HT.
  { destruct T; try exact Hval. now contradict Hk. }
  assert (reflect.Implements t c = true) as Ht.
  { subst t x. cbn. destruct T; cbn in *;
      try (rewrite Hptr; apply orb_true_r).
    - now contradict Hk.
    - apply andb_prop in Hp as [Hp _]. discriminate Hp. }
  assert (unwrap (Some t) (reflect.Val t (reflect.DPtr (Some x))) = Ok x) as Hu.
  { apply andb_prop in Hp as [Hp _]. apply negb_true_iff in Hp.
    subst t x. unfold unwrap.
    change (kind_is (reflect.Value_Kind
                       (reflect.Val (reflect.PtrTo T)
                          (reflect.DPtr (Some (reflect.Val T data)))))
              reflect.Ptr) with true.
    cbn [reflect.Value_Elem bind reflect.IsValid negb reflect.Value_Kind].
    now rewrite Hp. }
  rewrite (reflectType_capability method fuel definitions t _ x root c Hu);
    [ | reflexivity | exact Ht | exact Hearlier ].
  assert (assertMethod method c x = Panic TypeAssertion) as Ha.
  { unfold assertMethod. rewrite (plain_value_Interface x Hp).
    subst x. cbn [bind]. now rewrite HT. }
  destruct c; [now contradict Hc| | | |]; cbn [capability_handler];
    unfold reflectOneOf, reflectAnyOf, reflectAllOf, reflectEnum;
    now rewrite Ha.
Qed.


(** *** Alternatives *)

Lemma reflectVariants_loop_length (rt : Walk) variants :
  forall nodes definitions nodes' definitions',
    foldM (fun (st : list Type_ * Definitions) (variant : any) =>
             let (nodes, definition) := st in
             r <- rt definition (reflect.TypeOf variant)
                    (reflect.ValueOf variant) false ;;
             let (node, definition) := r in
             Ok (nodes ++ [node], definition))
          (nodes, definitions) variants = Ok (nodes', definitions') ->
    length nodes' = (length nodes + length variants)%nat.
Proof.
  induction variants as [|variant l IH]; cbn [foldM];
    intros nodes defs nodes' defs' H.
  - injection H as <- _. cbn. lia.
  - apply bind_Ok in H as ([nodes1 defs1] & H1 & H).
    apply bind_Ok in H1 as ([node d] & H1 & H2). injection H2 as <- _.
    apply IH in H. rewrite H, length_app. cbn. lia.
Qed.

(** X12: the node of a one-of, any-of or all-of type has one
    alternative per element of the list that the method returns, under the
    keyword of the capability; it has no kind and no enumeration, and its
    default is the value itself. *)
Theorem capability_handler_alternatives (rt : Walk) c definitions v variants
    node definitions' :
  c ∈ [CapOneOf; CapAnyOf; CapAllOf] ->
  assertMethod method c v = Ok variants ->
  capability_handler method c rt definitions v = Ok (node, definitions') ->
  length (alternatives c node) = length variants /\
  Typ node = "" /\ Enum node = [] /\
  reflect.Value_Interface v = Ok (Default node).
Proof.
  intros Hc Ha H.
  assert (exists nodes dflt,
            reflectVariants rt definitions variants = Ok (nodes, definitions') /\
            reflect.Value_Interface v = Ok dflt /\
            alternatives c node = nodes /\ Typ node = "" /\ Enum node = [] /\
            Default node = dflt) as (nodes & dflt & Hv & Hd & Hn & Ht & He & Hdf).
  { repeat (apply elem_of_cons in Hc as [->|Hc]); [| | |inversion Hc];
      cbn [capability_handler] in H;
      unfold reflectOneOf, reflectAnyOf, reflectAllOf in H;
      rewrite Ha in H; cbn [bind] in H;
      apply bind_Ok in H as ([nodes d] & H1 & H);
      apply bind_Ok in H as (dflt & H2 & H); injection H as <- <-;
      exists nodes, dflt; auto 10. }
  apply reflectVariants_loop_length in Hv. cbn in Hv.
  rewrite Hn, Hdf. auto.
Qed.

(** X13: when the list that the method of a one-of, any-of
    or all-of type returns holds a nil, the handler does not return a
    node, whatever the registry and the recursion budget: the walk of the
    nil alternative calls a method of its nil type. *)
Theorem capability_handler_nil_alternative fuel c definitions v variants :
  c ∈ [CapOneOf; CapAnyOf; CapAllOf] ->
  assertMethod method c v = Ok variants ->
  None ∈ variants ->
  is_Ok (capability_handler method c (reflectType method fuel) definitions v)
    = false.
Proof.
  intros Hc Ha Hnil.
  assert (forall r, reflectVariants (reflectType method fuel) definitions variants
                    <> Ok r) as Hv.
  { intros r. unfold reflectVariants. apply (foldM_stuck _ None); [|exact Hnil].
    intros [nodes d] s' H. apply bind_Ok in H as (r1 & H & _).
    destruct fuel; discriminate H. }
  destruct (capability_handler _ _ _ _ _) as [r| |] eqn:H; try reflexivity.
  exfalso.
  repeat (apply elem_of_cons in Hc as [->|Hc]); [| | |inversion Hc];
    cbn [capability_handler] in H;
    unfold reflectOneOf, reflectAnyOf, reflectAllOf in H;
    rewrite Ha in H; cbn [bind] in H;
    apply bind_Ok in H as (r1 & H1 & _); now apply Hv in H1.
Qed.

(** *** Members *)

(** X14: the property of an exported, named member of type
    [time.Time], [net.IP] or [url.URL] is the string node of that type
    with the title of the descriptor and its length bounds; a format in
    the descriptor replaces the format of the type, an empty one keeps
    it.  The registry is left as it is. *)
Theorem reflectStruct_field_well_known fuel (rs : WalkStruct) cur definitions
    f x x' t fmt :
  let tags := parseTags (reflect.Tag f) in
  (t, fmt) ∈ [(typeTime, "date-time"); (typeIP, "ipv4"); (typeURI, "uri")] ->
  reflect.Typ f = t ->
  is_embedded (f, x) = false ->
  is_member (f, x) = true ->
  unwrap (Some t) x = Ok x' ->
  reflectStruct_field (reflectType method (S fuel)) rs (cur, definitions) (f, x)
    = Ok (set_Properties
            (<[ name tags :=
                set_Format (if String.eqb (format tags) "" then fmt
                            else format tags)
                  (set_MaxLength (maxLength tags)
                     (set_MinLength (minLength tags)
                        (set_Title (title tags)
                           (set_Typ tTypeString emptyType)))) ]>
               (Properties cur))
            cur,
          definitions).
Proof.
  intros tags Hin Ht Hemb Hmem Hu. subst tags.
  unfold is_embedded, is_member in *. cbn [fst] in *.
  apply andb_prop in Hmem as [Hmem Hign]. apply andb_prop in Hmem as [Hpkg Hname].
  rewrite Hpkg in Hemb. cbn [andb] in Hemb.
  apply negb_true_iff in Hname, Hign.
  unfold reflectStruct_field. rewrite Hpkg, Hemb. cbn [negb bind].
  rewrite Hname, Hign. cbn [orb]. rewrite Ht.
  cbn [reflectType].
  rewrite (reflectType_body_format_node _ _ definitions t fmt x x' false Hin Hu).
  cbn [bind]. unfold applyInfo, applyValidation. cbn.
  destruct (String.eqb (format (parseTags (reflect.Tag f))) ""); reflexivity.
Qed.

(** X15: a struct whose only field is an exported embedded struct
    without a descriptor name has the schema of the embedded struct: the
    same node and the same registry, in which the embedded type itself
    gets no entry of its own. *)
Theorem reflectStruct_only_embedded fuel definitions v f x :
  reflect.Value_Fields v = Ok [(f, x)] ->
  is_embedded (f, x) = true ->
  is_member (f, x) = false ->
  reflectStruct method (S fuel) definitions v
    = reflectStruct method fuel definitions x.
Proof.
  intros Hf Hemb Hmem. unfold is_embedded, is_member in *. cbn [fst] in *.
  apply andb_prop in Hemb as [Hpkg Hanon]. rewrite Hpkg in Hmem.
  cbn [andb] in Hmem.
  assert (String.eqb (name (parseTags (reflect.Tag f))) ""
          || ignored (parseTags (reflect.Tag f)) = true) as Hskip.
  { destruct (String.eqb (name (parseTags (reflect.Tag f))) "");
      [reflexivity|]. cbn [negb andb orb] in *.
    now apply negb_false_iff in Hmem. }
  cbn [reflectStruct]. unfold reflectStruct_body at 1. rewrite Hf.
  cbn [bind foldM]. unfold reflectStruct_field.
  rewrite Hpkg, Hanon, Hskip. cbn [negb].
  destruct (reflectStruct method fuel definitions x) as [[typ d]| |] eqn:Hx;
    try reflexivity.
  cbn [bind]. destruct fuel as [|fuel']; [discriminate|].
  apply reflectStruct_body_bare in Hx. unfold bare_object in Hx.
  rewrite Hx. cbn. rewrite map_union_empty, (left_id_L ∅ (∪)). reflexivity.
Qed.

End Dispatch.

(** ** Further properties of the tag reader and of metadata application *)

Lemma digit_bound c d : strconv.digit c = Some d -> 0 <= d <= 9.
Proof.
  unfold strconv.digit. destruct (_ && _) eqn:H; [|discriminate].
  intros [= <-]. apply andb_prop in H as [H1 H2].
  apply Z.leb_le in H1, H2. lia.
Qed.

Lemma ParseUint_loop_bound s :
  forall n m, 0 <= n <= strconv.maxUint64 ->
    strconv.ParseUint_loop s n = strconv.Num m ->
    0 <= m <= strconv.maxUint64.
Proof.
  induction s as [|c s IH]; cbn [strconv.ParseUint_loop]; intros n m Hn H.
  - now injection H as <-.
  - destruct (strconv.digit c) as [d|] eqn:Hd; [|discriminate].
    apply digit_bound in Hd.
    destruct (_ <=? n); [discriminate|].
    destruct (strconv.maxUint64 <? n * 10 + d) eqn:Hlt; [discriminate|].
    apply Z.ltb_ge in Hlt. apply (IH (n * 10 + d) m); [lia|exact H].
Qed.

(** The result of [strconv.Atoi] is a 64-bit integer; on failure it is 0
    or one of the two bounds. *)
Lemma Atoi_bounds s :
  - 2 ^ 63 <= (strconv.Atoi s).1 <= 2 ^ 63 - 1 /\
  ((strconv.Atoi s).2 = false ->
   (strconv.Atoi s).1 ∈ [0; 2 ^ 63 - 1; - 2 ^ 63]).
Proof.
  unfold strconv.Atoi. destruct s as [|c r]; [cbn; split; [lia|set_solver]|].
  set (neg := Ascii.eqb c "-"%char).
  set (s' := if Ascii.eqb c "+"%char || neg then r else String c r).
  destruct (strconv.ParseUint s') as [| |un] eqn:Hp; cbn [fst snd].
  - split; [lia|set_solver].
  - destruct neg; cbn [fst snd]; split; (lia || set_solver).
  - assert (0 <= un <= strconv.maxUint64) as Hun.
    { unfold strconv.ParseUint in Hp. destruct s'; [discriminate|].
      eapply ParseUint_loop_bound; [|exact Hp]. unfold strconv.maxUint64. lia. }
    destruct (negb neg && (2 ^ 63 <=? un)) eqn:H1; cbn [fst snd];
      [split; [lia|set_solver]|].
    destruct (neg && (2 ^ 63 <? un)) eqn:H2; cbn [fst snd];
      [split; [lia|set_solver]|].
    split; [|discriminate].
    destruct neg; cbn [negb andb] in *; lia.
Qed.

(** X16: every numeric attribute of a descriptor that [parseTags]
    returns is a 64-bit integer, and an attribute whose text [strconv.Atoi]
    rejects is 0 or, when the text is a number out of range, the bound on
    its side: a malformed bound never makes [parseTags] fail. *)
Theorem parseTags_numeric_attributes tag key n :
  (key, n) ∈ numeric_attributes (parseTags tag) ->
  - 2 ^ 63 <= n <= 2 ^ 63 - 1 /\
  ((strconv.Atoi (reflect.Get tag key)).2 = false ->
   n ∈ [0; 2 ^ 63 - 1; - 2 ^ 63]).
Proof.
  assert (forall k, - 2 ^ 63 <= 0 <= 2 ^ 63 - 1 /\
            ((strconv.Atoi (reflect.Get tag k)).2 = false ->
             0 ∈ [0; 2 ^ 63 - 1; - 2 ^ 63])) as H0
    by (intros; split; [lia|set_solver]).
  unfold parseTags.
  destruct (reflect.Lookup tag tagName) as [nm|];
    [|destruct (String.eqb _ "-")];
    unfold numeric_attributes; cbn [minLength maxLength multipleOf minimum
                                     maximum minItems maxItems];
    intros Hin;
    repeat (apply elem_of_cons in Hin as [Hin|Hin];
            [injection Hin as -> ->; first [apply Atoi_bounds|apply H0]|]);
    inversion Hin.
Qed.

(** X17: without a [name] key the name of the descriptor is the
    part of the [json] value before its first comma, so it holds no comma;
    when that part is ["-"] the descriptor is the ignored one and no other
    key of the tag is read, otherwise the descriptor is ignored only on
    the word of the [ignore] key. *)
Theorem parseTags_json_name tag :
  reflect.Lookup tag tagName = None ->
  let part0 := Split_head (reflect.Get tag tagNameJson) in
  has_comma part0 = false /\
  (part0 = "-" -> parseTags tag = ignoredTags) /\
  (part0 <> "-" ->
   name (parseTags tag) = part0 /\
   ignored (parseTags tag) = (strconv.ParseBool (reflect.Get tag tagIgnore)).1).
Proof.
  intros Hl part0. split; [|split].
  - subst part0. generalize (reflect.Get tag tagNameJson). intros s.
    induction s as [|c s IH]; [reflexivity|]. cbn [Split_head].
    destruct (Ascii.eqb c ","%char) eqn:Hc; [reflexivity|].
    cbn [has_comma]. now rewrite Hc.
  - intros Hp. unfold parseTags. rewrite Hl. fold part0. now rewrite Hp.
  - intros Hp. unfold parseTags. rewrite Hl. fold part0.
    apply String.eqb_neq in Hp. rewrite Hp. split; reflexivity.
Qed.

(** X18: [applyValidation] assigns to the constraint attributes of
    the kind of the node and to nothing else: the kind, title, reference,
    default, enumeration, alternatives, items, properties, required set
    and definitions of the node are as before, and applying the same
    descriptor a second time changes nothing. *)
Theorem applyValidation_frame (dst : Type_) (t : tags) :
  let dst' := applyValidation dst t in
  (Typ dst' = Typ dst /\ Title dst' = Title dst /\ Ref dst' = Ref dst /\
   Version dst' = Version dst /\ Default dst' = Default dst /\
   Enum dst' = Enum dst /\ OneOf dst' = OneOf dst /\ AnyOf dst' = AnyOf dst /\
   AllOf dst' = AllOf dst /\ Items dst' = Items dst /\
   Properties dst' = Properties dst /\
   PatternProperties dst' = PatternProperties dst /\
   AdditionalProperties dst' = AdditionalProperties dst /\
   Required dst' = Required dst /\ Definitions_ dst' = Definitions_ dst /\
   Media dst' = Media dst /\ BinaryEncoding dst' = BinaryEncoding dst) /\
  applyValidation dst' t = dst'.
Proof.
  unfold applyValidation.
  destruct (String.eqb (Typ dst) tTypeString) eqn:Hs;
    [|destruct (String.eqb (Typ dst) tTypeNumber) eqn:Hn;
      [|destruct (String.eqb (Typ dst) tTypeArray) eqn:Ha]].
  - destruct (negb (String.eqb (format t) "")) eqn:Hf; cbn;
      rewrite Hs, ?Hf; cbn; auto 20.
  - cbn. rewrite Hs, Hn. cbn. auto 20.
  - cbn. rewrite Hs, Hn, Ha. cbn. auto 20.
  - cbn. rewrite Hs, Hn, Ha. auto 20.
Qed.

(** ** Properties of the conditional-visibility expression *)

Section Expressions.

Import Expression.

Example parseExpression_examples :
  parseExpression (mkTags "" "" false false 0 0 "" 0 0 0 false false 0 0 false
                     "size<=large" "")
    = Ok (Some (mkExpression "size" "<=" "large")) /\
  parseExpression (mkTags "" "" false false 0 0 "" 0 0 0 false false 0 0 false
                     "Color=red" "")
    = Ok (Some (mkExpression "olor" "=" "red")) /\
  parseExpression (mkTags "" "" false false 0 0 "" 0 0 0 false false 0 0 false
                     "a=b=c" "")
    = Ok (Some (mkExpression "a" "=" "b")) /\
  parseExpression (mkTags "" "" false false 0 0 "" 0 0 0 false false 0 0 false
                     "size=10" "")
    = Panic IndexOutOfRange /\
  parseExpression emptyTags = Ok None.
Proof. repeat split; reflexivity. Qed.

Lemma match_plus_stops {R} cls s (k : string -> string -> option R) :
  stops cls s = true -> match_plus cls s k = None.
Proof.
  destruct s as [|c r]; [reflexivity|]. cbn. intros H.
  apply negb_true_iff in H. now rewrite H.
Qed.

(** The greedy repetition takes a whole run when the rest of the pattern
    accepts what follows the run. *)
Lemma match_plus_run {R} cls m :
  forall rest (k : string -> string -> option R) x,
    m <> EmptyString -> all_in cls m = true -> stops cls rest = true ->
    k m rest = Some x ->
    match_plus cls (m +:+ rest) k = Some x.
Proof.
  induction m as [|c m IH]; intros rest k x Hne Hall Hstop Hk;
    [congruence|].
  cbn in Hall. apply andb_prop in Hall as [Hc Hall].
  change (String c m +:+ rest) with (String c (m +:+ rest)).
  cbn [match_plus]. rewrite Hc.
  destruct m as [|c' m'].
  - change (EmptyString +:+ rest) with rest.
    rewrite (match_plus_stops cls rest _ Hstop). exact Hk.
  - rewrite (IH rest (fun m0 rest0 => k (String c m0) rest0) x);
      [reflexivity|discriminate|exact Hall|exact Hstop|exact Hk].
Qed.

Lemma lower_not_operator c : lower c = true -> operator_char c = false.
Proof.
  unfold operator_char. intros H.
  destruct (Ascii.eqb c "=") eqn:H1;
    [apply Ascii.eqb_eq in H1; subst; discriminate H|].
  destruct (Ascii.eqb c "<") eqn:H2;
    [apply Ascii.eqb_eq in H2; subst; discriminate H|].
  destruct (Ascii.eqb c ">") eqn:H3;
    [apply Ascii.eqb_eq in H3; subst; discriminate H|].
  reflexivity.
Qed.

(** The alternation finds the operator that is followed by a lowercase
    letter, also when a shorter operator is a prefix of it. *)
Lemma match_alt_operator {R} op c text (k : string -> string -> option R) x :
  op ∈ operators ->
  lower c = true ->
  (forall alt rest, alt ∈ operators -> stops lower rest = true ->
                    rest <> EmptyString -> k alt rest = None) ->
  k op (String c text) = Some x ->
  match_alt operators (op +:+ String c text) k = Some x.
Proof.
  intros Hop Hc Hfail Hk.
  pose proof (lower_not_operator c Hc) as Hno. unfold operator_char in Hno.
  apply orb_false_elim in Hno as [Hno Hgt].
  apply orb_false_elim in Hno as [Heq Hlt].
  rewrite Ascii.eqb_sym in Heq. rewrite Ascii.eqb_sym in Hlt.
  rewrite Ascii.eqb_sym in Hgt.
  assert (forall alt, alt ∈ operators -> k alt (String "=" (String c text)) = None)
    as Hfail_eq by (intros alt Ha; now apply Hfail).
  pose proof (Hfail_eq "<" ltac:(unfold operators; repeat constructor)) as Hlt_eq.
  pose proof (Hfail_eq ">" ltac:(unfold operators; repeat constructor)) as Hgt_eq.
  unfold operators in Hop.
  repeat (apply elem_of_cons in Hop as [->|Hop]); [| | | | |inversion Hop];
    cbv beta iota zeta delta [String.append match_alt strip_prefix operators];
    simpl;
    rewrite ?Heq, ?Hlt, ?Hgt, ?Hlt_eq, ?Hgt_eq, ?Hk; reflexivity.
Qed.

Lemma FindStringSubmatch_skip junk s :
  all_in (fun c => negb (lower c)) junk = true ->
  FindStringSubmatch (junk +:+ s) = FindStringSubmatch s.
Proof.
  induction junk as [|c junk IH]; [reflexivity|]. cbn [all_in].
  intros H. apply andb_prop in H as [Hc H]. apply negb_true_iff in Hc.
  change (String c junk +:+ s) with (String c (junk +:+ s)).
  cbn [FindStringSubmatch]. unfold match_here at 1.
  cbn [match_plus]. rewrite Hc. apply IH, H.
Qed.

(** X19: a [show_if] text that holds an option of lowercase
    letters, one of the operators [=], [<], [>], [<=], [>=] and a value of
    lowercase letters is parsed into these three parts.  The pattern is
    not anchored: characters before the option that are not lowercase
    letters, and whatever follows the value from its first such character
    on, are dropped without complaint. *)
Theorem parseExpression_parts junk option op value rest t :
  all_in (fun c => negb (lower c)) junk = true ->
  option <> EmptyString -> all_in lower option = true ->
  op ∈ operators ->
  value <> EmptyString -> all_in lower value = true ->
  stops lower rest = true ->
  showIf t = junk +:+ option +:+ op +:+ value +:+ rest ->
  parseExpression t = Ok (Some (mkExpression option op value)).
Proof.
  intros Hjunk Hopt_ne Hopt Hop Hval_ne Hval Hrest Ht.
  unfold parseExpression. rewrite Ht.
  assert (String.eqb (junk +:+ option +:+ op +:+ value +:+ rest) "" = false)
    as Hne.
  { apply String.eqb_neq. destruct junk; [|discriminate].
    destruct option; [congruence|discriminate]. }
  rewrite Hne. cbn [negb]. rewrite (FindStringSubmatch_skip _ _ Hjunk).
  destruct value as [|c value']; [congruence|].
  pose proof Hval as Hval'. cbn in Hval'. apply andb_prop in Hval' as [Hc _].
  assert (match_here (option +:+ op +:+ String c value' +:+ rest)
          = Some (option, op, String c value')) as Hm.
  { unfold match_here. apply match_plus_run; [exact Hopt_ne|exact Hopt| |].
    - unfold operators in Hop.
      repeat (apply elem_of_cons in Hop as [->|Hop]); try reflexivity.
      inversion Hop.
    - cbn [String.append].
      change (String c (value' +:+ rest)) with (String c value' +:+ rest).
      assert (forall a b, op +:+ String c a +:+ b = op +:+ String c (a +:+ b))
        as Hassoc by reflexivity.
      rewrite Hassoc. apply match_alt_operator; [exact Hop|exact Hc| |].
      + intros alt r _ Hstop _. now apply match_plus_stops.
      + change (String c (value' +:+ rest)) with (String c value' +:+ rest).
        now apply match_plus_run. }
  destruct (option +:+ op +:+ String c value' +:+ rest) eqn:Hs;
    cbn [FindStringSubmatch]; rewrite Hm; reflexivity.
Qed.

Lemma strip_prefix_operator alt s :
  alt ∈ operators ->
  match s with
  | EmptyString => True
  | String c _ => operator_char c = false
  end ->
  strip_prefix alt s = None.
Proof.
  intros Halt Hs. unfold operators in Halt.
  destruct s as [|c r];
    repeat (apply elem_of_cons in Halt as [->|Halt]); try reflexivity;
    try (inversion Halt; fail);
    unfold operator_char in Hs;
    apply orb_false_elim in Hs as [Hs Hgt];
    apply orb_false_elim in Hs as [Heq Hlt];
    rewrite Ascii.eqb_sym in Heq; rewrite Ascii.eqb_sym in Hlt;
    rewrite Ascii.eqb_sym in Hgt;
    cbn [strip_prefix]; now rewrite ?Heq, ?Hlt, ?Hgt.
Qed.

Lemma match_alt_no_operator {R} s (k : string -> string -> option R) :
  all_in (fun c => negb (operator_char c)) s = true ->
  match_alt operators s k = None.
Proof.
  intros Hs.
  assert (forall alt, alt ∈ operators -> strip_prefix alt s = None) as Hp.
  { intros alt Halt. apply strip_prefix_operator; [exact Halt|].
    destruct s as [|c r]; [exact I|]. cbn in Hs.
    apply andb_prop in Hs as [Hs _]. now apply negb_true_iff in Hs. }
  unfold operators in *. cbn [match_alt].
  now rewrite !Hp by (repeat constructor).
Qed.

Lemma match_plus_no_operator {R} cls s :
  forall (k : string -> string -> option R),
    all_in (fun c => negb (operator_char c)) s = true ->
    (forall m r, all_in (fun c => negb (operator_char c)) r = true ->
                 k m r = None) ->
    match_plus cls s k = None.
Proof.
  induction s as [|c s IH]; intros k Hs Hk; [reflexivity|].
  cbn in Hs. apply andb_prop in Hs as [_ Hs]. cbn [match_plus].
  destruct (cls c); [|reflexivity].
  rewrite IH; [now apply Hk|exact Hs|]. intros m r Hr. now apply Hk.
Qed.

Lemma FindStringSubmatch_no_operator s :
  all_in (fun c => negb (operator_char c)) s = true ->
  FindStringSubmatch s = None.
Proof.
  induction s as [|c s IH]; intros Hs.
  - reflexivity.
  - cbn [FindStringSubmatch]. unfold match_here.
    rewrite match_plus_no_operator;
      [|exact Hs|intros m r Hr; now apply match_alt_no_operator].
    cbn in Hs. apply andb_prop in Hs as [_ Hs]. now apply IH.
Qed.

(** X20: [parseExpression] returns the nil expression for an
    empty [show_if] text, and panics with an index out of range for every
    other text without one of the characters [=], [<], [>]: the submatch
    of a text without match is nil and is indexed all the same. *)
Theorem parseExpression_no_operator t :
  all_in (fun c => negb (operator_char c)) (showIf t) = true ->
  parseExpression t
  = if String.eqb (showIf t) "" then Ok None else Panic IndexOutOfRange.
Proof.
  intros Hs. unfold parseExpression.
  destruct (String.eqb (showIf t) ""); [reflexivity|]. cbn [negb].
  now rewrite FindStringSubmatch_no_operator.
Qed.

End Expressions.

(** ** Properties of the later revision of the handlers *)

Section LaterHandlers.

Variable method : Capability -> Value -> list any.

Lemma assertMethod_Interface c v variants :
  assertMethod method c v = Ok variants ->
  exists d, reflect.Value_Interface v = Ok d /\ reflect.IsValid v = true.
Proof.
  unfold assertMethod. intros H. apply bind_Ok in H as (i & H & _).
  exists i. split; [exact H|]. now destruct v.
Qed.

(** X21: when the method of a one-of, any-of or all-of
    type returns the empty list, the handler of the earlier revision
    returns a node without alternatives, and the handler of the later
    revision panics with an index out of range where it reads the kind of
    the first alternative. *)
Theorem later_handler_empty_alternatives (rt : Walk) c definitions v :
  c ∈ [CapOneOf; CapAnyOf; CapAllOf] ->
  assertMethod method c v = Ok [] ->
  (exists node,
     capability_handler method c rt definitions v = Ok (node, definitions) /\
     alternatives c node = []) /\
  later_handler method c rt definitions v = Panic IndexOutOfRange.
Proof.
  intros Hc Ha. destruct (assertMethod_Interface _ _ _ Ha) as (d & Hd & _).
  repeat (apply elem_of_cons in Hc as [->|Hc]); [| | |inversion Hc];
    cbn [capability_handler later_handler];
    unfold reflectOneOf, reflectAnyOf, reflectAllOf, Later.reflectOneOf,
      Later.reflectAnyOf, Later.reflectAllOf, Later.reflectAlternatives;
    rewrite Ha; cbn [bind reflectVariants foldM]; rewrite Hd; cbn [bind];
    (split; [eexists; split; reflexivity|reflexivity]).
Qed.

(** X22: on a list of alternatives that is not empty the handler
    of the later revision returns the node of the earlier revision with
    one more attribute: the kind of the first alternative. *)
Theorem later_handler_first_kind (rt : Walk) c definitions v node definitions'
    first rest :
  c ∈ [CapOneOf; CapAnyOf; CapAllOf] ->
  capability_handler method c rt definitions v = Ok (node, definitions') ->
  alternatives c node = first :: rest ->
  later_handler method c rt definitions v
    = Ok (set_Typ (Typ first) node, definitions').
Proof.
  intros Hc H Halt.
  repeat (apply elem_of_cons in Hc as [->|Hc]); [| | |inversion Hc];
    cbn [capability_handler later_handler alternatives] in *;
    unfold reflectOneOf, reflectAnyOf, reflectAllOf, Later.reflectOneOf,
      Later.reflectAnyOf, Later.reflectAllOf, Later.reflectAlternatives in *;
    apply bind_Ok in H as (variants & Ha & H);
    destruct (assertMethod_Interface _ _ _ Ha) as (d & Hd & Hvalid);
    rewrite Ha; cbn [bind];
    apply bind_Ok in H as ([alts defs1] & Hv & H); rewrite Hv; cbn [bind];
    rewrite Hd in H; cbn [bind] in H; injection H as <- <-;
    cbn in Halt; subst alts;
    unfold Later.handleDefaultValue; rewrite Hvalid, Hd; reflexivity.
Qed.

(** X23: each leaf handler of the later revision (integer,
    number, boolean, string) returns on a valid value what the handler of
    the earlier revision returns; on the zero [Value], where the earlier
    handler panics, it returns the node of its kind without a default. *)
Theorem later_leaf_handlers
    (early late : Definitions -> Value -> Result Type_) kind definitions v :
  (early, late, kind)
    ∈ [(reflectInteger, Later.reflectInteger, tTypeInteger);
       (reflectNumber, Later.reflectNumber, tTypeNumber);
       (reflectBool, Later.reflectBool, tTypeBoolean);
       (reflectString, Later.reflectString, tTypeString)] ->
  late definitions v
    = (if reflect.IsValid v then early definitions v
       else Ok (set_Typ kind emptyType)) /\
  (reflect.IsValid v = false -> early definitions v = Panic InvalidValue).
Proof.
  intros Hin.
  repeat (apply elem_of_cons in Hin as [Hin|Hin];
          [injection Hin as -> -> ->;
           destruct v as [|t d]; (split; [reflexivity|]);
           [reflexivity|discriminate]|]).
  inversion Hin.
Qed.

Lemma foldM_all_ok {A S} (f : S -> A -> Result S) l :
  (forall s a, a ∈ l -> is_Ok (f s a) = true) ->
  forall s, is_Ok (foldM f s l) = true.
Proof.
  induction l as [|a l IH]; intros Hf s; [reflexivity|]. cbn [foldM].
  pose proof (Hf s a ltac:(left)) as Ha.
  destruct (f s a) as [s'| |]; try discriminate. cbn [bind].
  apply IH. intros s0 a0 Hin. apply Hf. now right.
Qed.

Lemma collectDefaults_ok v t vs :
  v = reflect.Val t (reflect.DList vs) ->
  is_sequence_type t = true ->
  Forall (fun e => reflect.IsValid e = true) vs ->
  is_Ok (Later.collectDefaults v) = true.
Proof.
  intros -> Hk Hvs. unfold Later.collectDefaults.
  assert (reflect.Value_Len (reflect.Val t (reflect.DList vs)) = Ok (length vs)
          /\ forall i, reflect.Value_Index (reflect.Val t (reflect.DList vs)) i
                       = match vs !! i with
                         | Some x => Ok x
                         | None => Panic IndexOutOfRange
                         end) as [Hlen Hidx].
  { destruct t; try discriminate Hk; split; reflexivity. }
  rewrite Hlen. cbn [bind]. apply foldM_all_ok. intros s i Hi.
  apply elem_of_seq in Hi. rewrite Hidx.
  destruct (vs !! i) as [e|] eqn:He.
  - cbn [bind]. rewrite Forall_forall in Hvs.
    assert (reflect.IsValid e = true) as Hv
      by (apply Hvs; eapply list_elem_of_lookup_2; exact He).
    destruct e as [|te de]; [discriminate|]. destruct de; reflexivity.
  - apply lookup_ge_None in He. lia.
Qed.

(** X24: on a slice or array value whose elements are valid
    values the [reflectSlice] of the later revision returns what the
    [reflectSlice] of the earlier revision returns: the list of elements
    that it collects at its end changes nothing. *)
Theorem Later_reflectSlice_agrees (rt : Walk) definitions v t vs :
  v = reflect.Val t (reflect.DList vs) ->
  is_sequence_type t = true ->
  Forall (fun e => reflect.IsValid e = true) vs ->
  Later.reflectSlice rt definitions v = reflectSlice rt definitions v.
Proof.
  intros Hv Hk Hvs. pose proof (collectDefaults_ok v t vs Hv Hk Hvs) as Hc.
  unfold Later.reflectSlice, reflectSlice.
  destruct (reflect.Value_Type v) as [t'| |]; [|reflexivity|reflexivity].
  cbn [bind].
  destruct (if kind_is (reflect.Type_Kind t') reflect.Array then _ else _)
    as [returnType| |]; [|reflexivity|reflexivity].
  cbn [bind]. destruct (reflect.Type_Elem t') as [te| |];
    [|reflexivity|reflexivity].
  cbn [bind]. destruct (Later.collectDefaults v) as [defaults| |];
    try discriminate Hc.
  destruct (reflect.Type_eqb t' typeByteSlice); [reflexivity|].
  destruct (rt _ _ _ _) as [[items d]| |]; reflexivity.
Qed.

End LaterHandlers.

(** ** Instances of the further properties on the fixtures *)

Lemma reflectType_leaf_witness :
  reflectType Fixtures.method 1 ∅ (Some intT) (Fixtures.intV 666) false
  = Ok (set_Default (Some (Fixtures.intV 666)) (set_Typ tTypeInteger emptyType), ∅).
Proof.
  apply (reflectType_leaf Fixtures.method 0 ∅ (builtin "int") reflect.Int
           (reflect.DInt 666) false).
  - reflexivity.
  - reflexivity.
  - intros c. destruct c; reflexivity.
Defined.

Lemma reflectType_well_known_witness :
  reflectType Fixtures.method 1 ∅ (Some typeIP)
    (reflect.Val typeIP (reflect.DList [])) false
  = Ok (set_Format "ipv4" (set_Typ tTypeString emptyType), ∅).
Proof.
  apply (reflectType_well_known Fixtures.method 0 ∅ typeIP "ipv4"
           (reflect.Val typeIP (reflect.DList []))
           (reflect.Val typeIP (reflect.DList [])) false).
  - apply list_elem_of_further, list_elem_of_here.
  - reflexivity.
Defined.

Lemma reflect_sequence_and_map_of_times_witness :
  reflectSlice (reflectType Fixtures.method 2) ∅
    (reflect.Val (reflect.TSlice unnamed typeTime) (reflect.DList []))
    = Ok (set_Items (Some (newReference "Time"))
            (set_Typ tTypeArray (newType "")),
          <[ "Time" := newType tTypeObject ]> ∅) /\
  reflectMap (reflectType Fixtures.method 1) ∅
    (reflect.Val (reflect.TMap unnamed stringT typeTime) (reflect.DMap []))
    = Ok (set_PatternProperties
            {[ ".*" := set_Format "date-time" (set_Typ tTypeString emptyType) ]}
            (set_Typ tTypeObject emptyType),
          ∅).
Proof.
  apply (reflect_sequence_and_map_of_times Fixtures.method 0 ∅
           (reflect.Val (reflect.TSlice unnamed typeTime) (reflect.DList []))
           (reflect.Val (reflect.TMap unnamed stringT typeTime) (reflect.DMap []))
           unnamed unnamed stringT); reflexivity.
Defined.

Lemma Reflect_nil_witness :
  Reflect "draft" Fixtures.method 1 (Some (Fixtures.nilPtr Fixtures.GrandfatherType))
    = Ok (mkSchema
            (set_Version "draft"
               (set_AdditionalProperties "true" (set_Typ tTypeObject emptyType)))
            ∅) /\
  Reflect "draft" Fixtures.method 1 None = Panic NilDereference.
Proof.
  apply (Reflect_nil "draft" Fixtures.method 0 unnamed Fixtures.GrandfatherType).
  intros c. destruct c; reflexivity.
Defined.

Lemma reflectType_interface_value_witness :
  reflectType Fixtures.method 1 ∅ (Some emptyInterfaceT)
    (reflect.Val emptyInterfaceT (reflect.DIface None)) false
    = Ok (set_AdditionalProperties "true" (set_Typ tTypeObject emptyType), ∅) /\
  reflectType Fixtures.method 1 ∅ (Some emptyInterfaceT)
    (reflect.Val emptyInterfaceT
       (reflect.DIface (Some (reflect.Val Fixtures.EnumAlign (reflect.DString "center")))))
    false
    = Ok (set_Default
            (Some (reflect.Val Fixtures.EnumAlign (reflect.DString "center")))
            (set_Typ tTypeString emptyType), ∅).
Proof.
  apply (reflectType_interface_value Fixtures.method 0 ∅ unnamed
           (mkDecl "EnumAlign" Fixtures.pkg [(CapEnum, ByValue)])
           reflect.String (reflect.DString "center") false).
  - intros c. destruct c; reflexivity.
  - reflexivity.
  - reflexivity.
Defined.

Lemma reflectType_pointer_receiver_witness :
  reflectType Fixtures.method 1 ∅ (Some (reflect.PtrTo MoreFixtures.OneOfType))
    (reflect.Val (reflect.PtrTo MoreFixtures.OneOfType)
       (reflect.DPtr (Some MoreFixtures.oneOfType))) true
  = Panic TypeAssertion.
Proof.
  apply (reflectType_pointer_receiver Fixtures.method 0 ∅ MoreFixtures.OneOfType
           (reflect.DList [reflect.Val (reflect.TInterface unnamed)
                             (reflect.DIface None)])
           CapOneOf true).
  - discriminate.
  - reflexivity.
  - reflexivity.
  - intros c' H. destruct c'; cbn in H; try lia; reflexivity.
  - discriminate.
  - reflexivity.
Defined.


Lemma capability_handler_alternatives_witness :
  let v := Fixtures.implV "implicitAnyOfImpl" CapAnyOf in
  let alt s := set_Default (Some (Fixtures.strV s)) (set_Typ tTypeString emptyType) in
  let node := set_Default (Some v) (set_AnyOf [alt "1"; alt "2"; alt "3"] emptyType) in
  length (alternatives CapAnyOf node)
    = length [Some (Fixtures.strV "1"); Some (Fixtures.strV "2");
              Some (Fixtures.strV "3")] /\
  Typ node = "" /\ Enum node = [] /\
  reflect.Value_Interface v = Ok (Default node).
Proof.
  apply (capability_handler_alternatives Fixtures.method
           (reflectType Fixtures.method 1) CapAnyOf ∅
           (Fixtures.implV "implicitAnyOfImpl" CapAnyOf) _ _ ∅).
  - apply list_elem_of_further, list_elem_of_here.
  - reflexivity.
  - vm_compute. reflexivity.
Defined.

Lemma capability_handler_nil_alternative_witness :
  is_Ok (capability_handler MoreFixtures.method CapOneOf
           (reflectType MoreFixtures.method 3) ∅ MoreFixtures.holey) = false.
Proof.
  apply (capability_handler_nil_alternative MoreFixtures.method 3 CapOneOf ∅
           MoreFixtures.holey [Some (Fixtures.strV "a"); None]).
  - apply list_elem_of_here.
  - reflexivity.
  - apply list_elem_of_further, list_elem_of_here.
Defined.

(** The walk of [Holey] panics at the nil alternative. *)
Example reflectType_Holey :
  reflectType MoreFixtures.method 2 ∅ (Some MoreFixtures.Holey)
    MoreFixtures.holey false = Panic NilDereference.
Proof. reflexivity. Qed.

Lemma reflectStruct_field_well_known_witness :
  reflectStruct_field (reflectType Fixtures.method 1)
    (reflectStruct Fixtures.method 0) (newType tTypeObject, ∅)
    (MoreFixtures.birthDate, reflect.Zero typeTime)
  = Ok (set_Properties
          (<[ "birth_date" :=
              set_Format "date"
                (set_MaxLength 10
                   (set_MinLength 0
                      (set_Title "" (set_Typ tTypeString emptyType)))) ]> ∅)
          (newType tTypeObject),
        ∅).
Proof.
  apply (reflectStruct_field_well_known Fixtures.method 0
           (reflectStruct Fixtures.method 0) (newType tTypeObject) ∅
           MoreFixtures.birthDate (reflect.Zero typeTime) (reflect.Zero typeTime)
           typeTime "date-time").
  - apply list_elem_of_here.
  - reflexivity.
  - reflexivity.
  - reflexivity.
  - reflexivity.
Defined.

Lemma reflectStruct_only_embedded_witness :
  reflectStruct Fixtures.method 3 ∅ MoreFixtures.wrapper
  = reflectStruct Fixtures.method 2 ∅ (Fixtures.grandfather "x").
Proof.
  apply (reflectStruct_only_embedded Fixtures.method 2 ∅ MoreFixtures.wrapper
           (reflect.mkField "GrandfatherType" "" true [] Fixtures.GrandfatherType)
           (Fixtures.grandfather "x")); reflexivity.
Defined.

Lemma parseTags_numeric_attributes_witness :
  - 2 ^ 63 <= 2 ^ 63 - 1 <= 2 ^ 63 - 1 /\
  ((strconv.Atoi
      (reflect.Get [("json", "n"); ("maximum", "99999999999999999999")]
         tagNumberMaximum)).2 = false ->
   2 ^ 63 - 1 ∈ [0; 2 ^ 63 - 1; - 2 ^ 63]).
Proof.
  apply (parseTags_numeric_attributes
           [("json", "n"); ("maximum", "99999999999999999999")]
           tagNumberMaximum (2 ^ 63 - 1)).
  vm_compute. do 4 apply list_elem_of_further. apply list_elem_of_here.
Defined.

Lemma parseTags_json_name_witness :
  has_comma "friends" = false /\
  ("friends" = "-" ->
   parseTags [("json", "friends,omitempty"); ("ignore", "true")] = ignoredTags) /\
  ("friends" <> "-" ->
   name (parseTags [("json", "friends,omitempty"); ("ignore", "true")]) = "friends" /\
   ignored (parseTags [("json", "friends,omitempty"); ("ignore", "true")])
     = (strconv.ParseBool "true").1).
Proof.
  apply (parseTags_json_name [("json", "friends,omitempty"); ("ignore", "true")]).
  reflexivity.
Defined.

Lemma parseExpression_parts_witness :
  Expression.parseExpression
    (mkTags "" "" false false 0 0 "" 0 0 0 false false 0 0 false
       "ITEM-count>=three!" "")
  = Ok (Some (Expression.mkExpression "count" ">=" "three")).
Proof.
  apply (parseExpression_parts "ITEM-" "count" ">=" "three" "!").
  - reflexivity.
  - discriminate.
  - reflexivity.
  - unfold Expression.operators. do 4 apply list_elem_of_further.
    apply list_elem_of_here.
  - discriminate.
  - reflexivity.
  - reflexivity.
  - reflexivity.
Defined.

Lemma parseExpression_no_operator_witness :
  Expression.parseExpression
    (mkTags "" "" false false 0 0 "" 0 0 0 false false 0 0 false "visible" "")
  = (if String.eqb "visible" "" then Ok None else Panic IndexOutOfRange).
Proof.
  apply (parseExpression_no_operator
           (mkTags "" "" false false 0 0 "" 0 0 0 false false 0 0 false
              "visible" "")).
  reflexivity.
Defined.

Lemma later_handler_empty_alternatives_witness :
  (exists node,
     capability_handler MoreFixtures.method CapAllOf
       (reflectType MoreFixtures.method 0) ∅ MoreFixtures.blank = Ok (node, ∅) /\
     alternatives CapAllOf node = []) /\
  later_handler MoreFixtures.method CapAllOf (reflectType MoreFixtures.method 0)
    ∅ MoreFixtures.blank = Panic IndexOutOfRange.
Proof.
  apply (later_handler_empty_alternatives MoreFixtures.method
           (reflectType MoreFixtures.method 0) CapAllOf ∅ MoreFixtures.blank).
  - do 2 apply list_elem_of_further. apply list_elem_of_here.
  - reflexivity.
Defined.

Lemma later_handler_first_kind_witness :
  let v := Fixtures.implV "implicitOneOfImpl" CapOneOf in
  let alt s := set_Default (Some (Fixtures.strV s)) (set_Typ tTypeString emptyType) in
  let node := set_Default (Some v) (set_OneOf [alt "1"; alt "2"; alt "3"] emptyType) in
  later_handler Fixtures.method CapOneOf (reflectType Fixtures.method 1) ∅ v
  = Ok (set_Typ (Typ (alt "1")) node, ∅).
Proof.
  apply (later_handler_first_kind Fixtures.method
           (reflectType Fixtures.method 1) CapOneOf ∅
           (Fixtures.implV "implicitOneOfImpl" CapOneOf) _ ∅ _
           [set_Default (Some (Fixtures.strV "2")) (set_Typ tTypeString emptyType);
            set_Default (Some (Fixtures.strV "3")) (set_Typ tTypeString emptyType)]).
  - apply list_elem_of_here.
  - vm_compute. reflexivity.
  - reflexivity.
Defined.

Lemma Later_reflectSlice_agrees_witness :
  Later.reflectSlice (reflectType Fixtures.method 1) ∅ Fixtures.array4
  = reflectSlice (reflectType Fixtures.method 1) ∅ Fixtures.array4.
Proof.
  apply (Later_reflectSlice_agrees (reflectType Fixtures.method 1) ∅
           Fixtures.array4 (reflect.TArray unnamed 4 intT)
           [Fixtures.intV 1; Fixtures.intV 2; Fixtures.intV 3; Fixtures.intV 4]).
  - reflexivity.
  - reflexivity.
  - repeat constructor.
Defined.

Lemma later_leaf_handlers_witness :
  Later.reflectBool ∅ reflect.VInvalid
    = (if reflect.IsValid reflect.VInvalid then reflectBool ∅ reflect.VInvalid
       else Ok (set_Typ tTypeBoolean emptyType)) /\
  (reflect.IsValid reflect.VInvalid = false ->
   reflectBool ∅ reflect.VInvalid = Panic InvalidValue).
Proof.
  apply (later_leaf_handlers reflectBool Later.reflectBool tTypeBoolean ∅
           reflect.VInvalid).
  apply list_elem_of_further, list_elem_of_further, list_elem_of_here.
Defined.

(** ** Properties of the type-directed revision of the walker *)

Section ReflectorWalk.

Import Reflector.

Variable Version_ : string.
Variable method : Capability -> Value -> list any.
Variable implicitType : rtype -> option any.

Lemma andThen_Done {A B} (r : Outcome A) (k : A -> Outcome B) b :
  andThen r k = Done b -> exists a, r = Done a /\ k a = Done b.
Proof. destruct r; cbn; [eauto|discriminate|discriminate]. Qed.

Lemma loop_invariant {A S} (P : S -> Prop) (f : S -> A -> Outcome S) l :
  (forall s a s', P s -> f s a = Done s' -> P s') ->
  forall s s', P s -> loop f s l = Done s' -> P s'.
Proof.
  intros Hf. induction l as [|a l IH]; cbn [loop]; intros s s' Hs H.
  - now injection H as <-.
  - apply andThen_Done in H as (s1 & H1 & H). eauto.
Qed.

(** *** The registry only grows *)

Lemma reflectVariants_preserves (rt : Walk) definitions variants v nodes
    definitions' :
  preserves rt ->
  reflectVariants rt definitions variants v = Done (nodes, definitions') ->
  definitions ⊆ definitions'.
Proof.
  intros Hrt H. unfold reflectVariants in H.
  change (definitions ⊆ (nodes, definitions').2).
  refine (loop_invariant (fun st => definitions ⊆ st.2) _ _ _ _ _ _ H);
    [|reflexivity].
  intros [ns d] a s' Hs Hf. cbn [snd] in Hs.
  apply andThen_Done in Hf as ([node d1] & H1 & Hf). injection Hf as <-.
  cbn [snd]. etrans; [exact Hs|]. eapply Hrt, H1.
Qed.

Lemma reflectAlternatives_preserves (rt : Walk) definitions t v node
    definitions' :
  preserves rt ->
  reflectOneOf method rt definitions t v = Done (node, definitions')
  \/ reflectAnyOf method rt definitions t v = Done (node, definitions')
  \/ reflectAllOf method rt definitions t v = Done (node, definitions') ->
  definitions ⊆ definitions'.
Proof.
  intros Hrt [H|[H|H]];
    unfold reflectOneOf, reflectAnyOf, reflectAllOf in H;
    apply andThen_Done in H as (variants & _ & H);
    apply andThen_Done in H as ([nodes d] & H1 & H);
    injection H as _ <-; eapply reflectVariants_preserves; eauto.
Qed.

Lemma reflectEnum_preserves (rt : Walk) definitions t v node definitions' :
  preserves rt ->
  reflectEnum method rt definitions t v = Done (node, definitions') ->
  definitions ⊆ definitions'.
Proof.
  intros Hrt H. unfold reflectEnum in H.
  apply andThen_Done in H as (i & _ & H).
  apply andThen_Done in H as (variants & _ & H).
  destruct variants as [|variant0 rest]; [discriminate|].
  apply andThen_Done in H as ([vType d] & H1 & H).
  injection H as _ <-. eapply Hrt, H1.
Qed.

Lemma reflectSlice_preserves (rt : Walk) definitions t v node definitions' :
  preserves rt ->
  Reflector.reflectSlice rt definitions t v = Done (node, definitions') ->
  definitions ⊆ definitions'.
Proof.
  intros Hrt H. unfold Reflector.reflectSlice in H.
  apply andThen_Done in H as (returnType & _ & H).
  destruct (reflect.Type_eqb t typeByteSlice).
  - now injection H as _ <-.
  - apply andThen_Done in H as (te & _ & H).
    apply andThen_Done in H as ([items d] & H1 & H).
    injection H as _ <-. eapply Hrt, H1.
Qed.

Lemma reflectMap_preserves (rt : Walk) definitions t v node definitions' :
  preserves rt ->
  Reflector.reflectMap rt definitions t v = Done (node, definitions') ->
  definitions ⊆ definitions'.
Proof.
  intros Hrt H. unfold Reflector.reflectMap in H.
  apply andThen_Done in H as (te & _ & H).
  apply andThen_Done in H as ([items d] & H1 & H).
  injection H as _ <-. eapply Hrt, H1.
Qed.

Lemma reflectStruct_preserves (rs : WalkFields) definitions t v node
    definitions' :
  preserves_fields rs ->
  definitions !! reflect.Type_Name t = None ->
  Reflector.reflectStruct Version_ rs definitions t v
    = Done (node, definitions') ->
  definitions ⊆ definitions'.
Proof.
  intros Hrs Hnone H. unfold Reflector.reflectStruct in H.
  destruct (reflect.Type_eqb t typeTime); [now injection H as _ <-|].
  destruct (reflect.Type_eqb t typeURI); [now injection H as _ <-|].
  destruct (reflect.Type_eqb t typeIP); [now injection H as _ <-|].
  apply andThen_Done in H as ([st d] & H1 & H). injection H as _ <-.
  apply Hrs in H1.
  apply insert_subseteq_r; [exact Hnone|].
  etrans; [|exact H1]. now apply insert_subseteq.
Qed.

Lemma reflectTypeToSchema_body_preserves (rt : Walk) (rs : WalkFields) :
  preserves rt -> preserves_fields rs ->
  preserves (reflectTypeToSchema_body Version_ method implicitType rt rs).
Proof.
  intros Hrt Hrs definitions t v node definitions' H.
  unfold reflectTypeToSchema_body in H.
  apply andThen_Done in H as (t' & _ & H).
  destruct (definitions !! reflect.Type_Name t') eqn:Hguard;
    [now injection H as _ <-|].
  destruct (reflect.Implements t' CapPBEnum); [now injection H as _ <-|].
  destruct (reflect.Implements t' CapOneOf);
    [eapply reflectAlternatives_preserves; eauto|].
  destruct (reflect.Implements t' CapAnyOf);
    [eapply reflectAlternatives_preserves; eauto|].
  destruct (reflect.Implements t' CapAllOf);
    [eapply reflectAlternatives_preserves; eauto|].
  destruct (implicitType t') as [typ|].
  { unfold reflectImplicit in H.
    destruct (kind_is _ _); [discriminate|]. eapply Hrt, H. }
  destruct (reflect.Implements t' CapEnum);
    [eapply reflectEnum_preserves; eauto|].
  destruct (reflect.Type_Kind t');
    try discriminate;
    try (now injection H as _ <-);
    try (eapply reflectSlice_preserves; eauto; fail);
    try (eapply reflectMap_preserves; eauto; fail);
    try (eapply reflectStruct_preserves; eauto; fail).
  apply andThen_Done in H as (te & _ & H). eapply Hrt, H.
Qed.

Lemma reflectStructFields_body_preserves (rt : Walk) (rs : WalkFields) :
  preserves rt -> preserves_fields rs ->
  preserves_fields (reflectStructFields_body rt rs).
Proof.
  intros Hrt Hrs st definitions t v st' definitions' H.
  unfold reflectStructFields_body in H.
  apply andThen_Done in H as (t1 & _ & H).
  apply andThen_Done in H as (t2 & _ & H).
  apply andThen_Done in H as (fields & _ & H).
  change (definitions ⊆ (st', definitions').2).
  refine (loop_invariant (fun s => definitions ⊆ s.2) _ _ _ _ _ _ H);
    [|reflexivity].
  intros [cur d] [i f] s' Hs Hf. cbn [snd] in Hs.
  unfold reflectStructFields_field in Hf.
  destruct (_ && _).
  { destruct s' as [cur' d']. apply Hrs in Hf. cbn [snd]. etrans; eauto. }
  destruct (String.eqb _ _); [now injection Hf as <-|].
  apply andThen_Done in Hf as (fv & _ & Hf).
  apply andThen_Done in Hf as ([property d1] & H1 & Hf).
  apply Hrt in H1.
  destruct (required _); injection Hf as <-; cbn [snd]; etrans; eauto.
Qed.

Lemma walker_preserves fuel :
  preserves (reflectTypeToSchema Version_ method implicitType fuel) /\
  preserves_fields (reflectStructFields Version_ method implicitType fuel).
Proof.
  induction fuel as [|fuel [IHt IHs]].
  - split; repeat intro; discriminate.
  - split; cbn [reflectTypeToSchema reflectStructFields].
    + now apply reflectTypeToSchema_body_preserves.
    + now apply reflectStructFields_body_preserves.
Qed.

(** X25: a walk of [reflectTypeToSchema] that returns leaves every
    entry of the registry as it is: a definition that is registered is
    neither removed nor replaced, the walk only adds definitions under
    names that were free. *)
Theorem reflectTypeToSchema_preserves fuel definitions t v node definitions' :
  reflectTypeToSchema Version_ method implicitType fuel definitions t v
    = Done (node, definitions') ->
  definitions ⊆ definitions'.
Proof.
  intros H. destruct (walker_preserves fuel) as [Hwalk _].
  exact (Hwalk _ _ _ _ _ H).
Qed.

(** *** Struct types *)

Lemma by_kind_true definitions t :
  by_kind implicitType definitions t = true ->
  definitions !! reflect.Type_Name t = None /\
  reflect.Implements t CapPBEnum = false /\
  reflect.Implements t CapOneOf = false /\
  reflect.Implements t CapAnyOf = false /\
  reflect.Implements t CapAllOf = false /\
  implicitType t = None /\
  reflect.Implements t CapEnum = false.
Proof.
  unfold by_kind. intros H.
  repeat (apply andb_prop in H as [H ?]).
  apply bool_decide_eq_true in H.
  repeat match goal with
         | X : negb _ = true |- _ => apply negb_true_iff in X
         end.
  destruct (implicitType t); [discriminate|]. tauto.
Qed.

(** The walk of a type that is handled by its kind. *)
Lemma reflectTypeToSchema_by_kind fuel definitions t v :
  by_kind implicitType definitions t = true ->
  reflectTypeToSchema Version_ method implicitType (S fuel) definitions
    (Some t) v
  = match reflect.Type_Kind t with
    | reflect.Struct =>
        Reflector.reflectStruct Version_
          (reflectStructFields Version_ method implicitType fuel)
          definitions t v
    | reflect.Map =>
        Reflector.reflectMap
          (reflectTypeToSchema Version_ method implicitType fuel)
          definitions t v
    | reflect.Slice | reflect.Array =>
        Reflector.reflectSlice
          (reflectTypeToSchema Version_ method implicitType fuel)
          definitions t v
    | reflect.Interface =>
        Done (Reflector.reflectInterface definitions t v, definitions)
    | reflect.Int | reflect.Int8 | reflect.Int16 | reflect.Int32
    | reflect.Int64 | reflect.Uint | reflect.Uint8 | reflect.Uint16
    | reflect.Uint32 | reflect.Uint64 =>
        Done (set_Typ tTypeInteger emptyType, definitions)
    | reflect.Float32 | reflect.Float64 =>
        Done (set_Typ tTypeNumber emptyType, definitions)
    | reflect.Bool => Done (set_Typ tTypeBoolean emptyType, definitions)
    | reflect.String => Done (set_Typ tTypeString emptyType, definitions)
    | reflect.Ptr =>
        te <~ lift (reflect.Type_Elem t) ;;
        reflectTypeToSchema Version_ method implicitType fuel definitions
          (Some te) v
    | _ => Fail (Unsupported t)
    end.
Proof.
  intros H. apply by_kind_true in H as (H0 & H1 & H2 & H3 & H4 & H5 & H6).
  cbn [reflectTypeToSchema]. unfold reflectTypeToSchema_body.
  cbn [deref_type lift andThen].
  rewrite H0, H1, H2, H3, H4, H5, H6. reflexivity.
Qed.

(** X26: the first walk of a struct type registers it and returns a
    reference that carries the schema version; from then on the walk of
    every type of the same name (the struct itself, or another type that
    shares the bare name, whatever its kind and capabilities) returns the
    bare reference to that definition, looks at nothing and leaves the
    registry as it is. *)
Theorem reflectTypeToSchema_second_encounter fuel fuel' definitions t v node
    definitions' u v' :
  by_kind implicitType definitions t = true ->
  reflect.Type_Kind t = reflect.Struct ->
  well_known (Some t) = false ->
  reflectTypeToSchema Version_ method implicitType fuel definitions (Some t) v
    = Done (node, definitions') ->
  reflect.Type_Name u = reflect.Type_Name t ->
  node = set_Ref ("#/definitions/" +:+ reflect.Type_Name t)
           (set_Version Version_ emptyType) /\
  is_Some (definitions' !! reflect.Type_Name t) /\
  reflectTypeToSchema Version_ method implicitType (S fuel') definitions'
    (Some u) v'
  = Done (set_Ref ("#/definitions/" +:+ reflect.Type_Name t) emptyType,
          definitions').
Proof.
  intros Hk Hs Hwk H Hu.
  destruct fuel as [|fuel]; [discriminate|].
  rewrite (reflectTypeToSchema_by_kind _ _ _ _ Hk), Hs in H.
  unfold well_known, is_type in Hwk.
  apply orb_false_elim in Hwk as [Hwk Huri].
  apply orb_false_elim in Hwk as [Htime Hip].
  unfold Reflector.reflectStruct in H. rewrite Htime, Huri, Hip in H.
  apply andThen_Done in H as ([st d] & _ & H). injection H as <- <-.
  split; [reflexivity|]. split.
  - rewrite lookup_insert_eq. eauto.
  - cbn [reflectTypeToSchema]. unfold reflectTypeToSchema_body.
    cbn [deref_type lift andThen]. rewrite Hu, lookup_insert_eq. reflexivity.
Qed.

(** *** Types without a case *)

Lemma Type_eqb_uint8T e :
  reflect.Type_eqb e uint8T = true -> reflect.Type_Kind e = reflect.Uint8.
Proof.
  destruct e; cbn; try discriminate.
  intros H. apply andb_prop in H as [_ H].
  now apply bool_decide_eq_true in H.
Qed.

Lemma wrappers_innermost_kind t :
  wrappers t = [] -> innermost t = t.
Proof. destruct t; cbn; (discriminate || reflexivity). Qed.

(** X27: a type of a kind without a case (a channel, a
    function, a complex number, [uintptr], an unsafe pointer) makes the
    walk panic with [unsupported type], also when it lies below pointers,
    slices, arrays and maps: the walk of the outer type panics with the
    inner type in its message, whatever the value. *)
Theorem reflectTypeToSchema_unsupported_inside fuel definitions t v :
  unsupported_kind (reflect.Type_Kind (innermost t)) = true ->
  Forall (fun w => by_kind implicitType definitions w = true)
    (innermost t :: wrappers t) ->
  (length (wrappers t) < fuel)%nat ->
  reflectTypeToSchema Version_ method implicitType fuel definitions (Some t) v
    = Fail (Unsupported (innermost t)).
Proof.
  revert fuel.
  induction t as [d k|d e IH|d e IH|d n e IH|d key _ e IH|d e _|d|d|d fs];
    intros fuel Hu Hall Hfuel;
    (destruct fuel as [|fuel]; [cbn in Hfuel; lia|]);
    apply Forall_cons in Hall as [Hin Hall];
    cbn [wrappers innermost] in *.
  - rewrite (reflectTypeToSchema_by_kind _ _ _ _ Hin).
    cbn [reflect.Type_Kind] in *. destruct k; try discriminate; reflexivity.
  - apply Forall_cons in Hall as [Ht Hall].
    rewrite (reflectTypeToSchema_by_kind _ _ _ _ Ht).
    cbn [reflect.Type_Kind reflect.Type_Elem lift andThen].
    apply IH; [exact Hu|now apply Forall_cons|cbn in Hfuel; lia].
  - apply Forall_cons in Hall as [Ht Hall].
    rewrite (reflectTypeToSchema_by_kind _ _ _ _ Ht).
    cbn [reflect.Type_Kind]. unfold Reflector.reflectSlice.
    change (kind_is (reflect.Type_Kind (reflect.TSlice d e)) reflect.Array)
      with false. cbn [andThen reflect.Type_Elem lift].
    destruct (reflect.Type_eqb (reflect.TSlice d e) typeByteSlice) eqn:Hb.
    { cbn [reflect.Type_eqb typeByteSlice] in Hb.
      apply andb_prop in Hb as [_ Hb]. pose proof (Type_eqb_uint8T _ Hb) as Hk.
      assert (wrappers e = []) as Hw
        by (destruct e; cbn in Hk; (discriminate Hk || reflexivity)).
      rewrite (wrappers_innermost_kind _ Hw), Hk in Hu. discriminate. }
    rewrite IH; [reflexivity|exact Hu|now apply Forall_cons
                |cbn in Hfuel; lia].
  - apply Forall_cons in Hall as [Ht Hall].
    rewrite (reflectTypeToSchema_by_kind _ _ _ _ Ht).
    cbn [reflect.Type_Kind]. unfold Reflector.reflectSlice.
    change (kind_is (reflect.Type_Kind (reflect.TArray d n e)) reflect.Array)
      with true. cbn [andThen reflect.Type_Len reflect.Type_Elem lift].
    change (reflect.Type_eqb (reflect.TArray d n e) typeByteSlice) with false.
    cbn iota.
    rewrite IH; [reflexivity|exact Hu|now apply Forall_cons
                |cbn in Hfuel; lia].
  - apply Forall_cons in Hall as [Ht Hall].
    rewrite (reflectTypeToSchema_by_kind _ _ _ _ Ht).
    cbn [reflect.Type_Kind]. unfold Reflector.reflectMap.
    cbn [andThen reflect.Type_Elem lift].
    rewrite IH; [reflexivity|exact Hu|now apply Forall_cons
                |cbn in Hfuel; lia].
  - rewrite (reflectTypeToSchema_by_kind _ _ _ _ Hin). reflexivity.
  - rewrite (reflectTypeToSchema_by_kind _ _ _ _ Hin). reflexivity.
  - discriminate.
  - discriminate.
Qed.

(** *** The fields of a struct *)

Lemma property_names_cons f fs :
  property_names (f :: fs)
  = (if named f then [property_name f] else []) ++ property_names fs.
Proof.
  unfold property_names. rewrite filter_cons.
  destruct (named f).
  - rewrite decide_True by reflexivity. reflexivity.
  - rewrite decide_False by discriminate. reflexivity.
Qed.

Lemma required_names_cons f fs :
  required_names (f :: fs)
  = (if named f && required (parseTags (reflect.Tag f))
     then [property_name f] else []) ++ required_names fs.
Proof.
  unfold required_names. rewrite filter_cons.
  destruct (named f && required (parseTags (reflect.Tag f))).
  - rewrite decide_True by reflexivity. reflexivity.
  - rewrite decide_False by discriminate. reflexivity.
Qed.

Lemma reflectStructFields_field_names (rt : Walk) (rs : WalkFields) v st
    definitions i f st' definitions' :
  flattened f = false ->
  reflectStructFields_field rt rs v (st, definitions) (i, f)
    = Done (st', definitions') ->
  Required st'
  = Required st ++ (if named f && required (parseTags (reflect.Tag f))
                    then [property_name f] else []) /\
  dom (Properties st')
  = dom (Properties st)
    ∪ list_to_set (if named f then [property_name f] else []).
Proof.
  unfold reflectStructFields_field, named, property_name, flattened.
  intros Hf H. rewrite Hf in *. cbn [negb andb].
  destruct (String.eqb (name (parseTags (reflect.Tag f))) ""); cbn [negb].
  { injection H as <- _. rewrite app_nil_r. split; [reflexivity|set_solver]. }
  apply andThen_Done in H as (fv & _ & H).
  apply andThen_Done in H as ([property d] & _ & H).
  destruct (required (parseTags (reflect.Tag f))); injection H as <- _; cbn.
  - rewrite dom_insert_L. split; [reflexivity|set_solver].
  - rewrite dom_insert_L, app_nil_r. split; [reflexivity|set_solver].
Qed.

Lemma reflectStructFields_loop_names (rt : Walk) (rs : WalkFields) v fs :
  Forall (fun f => flattened f = false) fs ->
  forall (g : nat -> nat) st definitions st' definitions',
    loop (reflectStructFields_field rt rs v) (st, definitions)
      (imap (fun i f => (g i, f)) fs) = Done (st', definitions') ->
    Required st' = Required st ++ required_names fs /\
    dom (Properties st')
    = dom (Properties st) ∪ list_to_set (property_names fs).
Proof.
  induction 1 as [|f fs Hf Hfs IH]; intros g st definitions st' definitions' H.
  - injection H as <- _. rewrite app_nil_r. split; [reflexivity|set_solver].
  - cbn [imap loop] in H.
    apply andThen_Done in H as ([st1 d1] & H1 & H).
    apply (reflectStructFields_field_names _ _ _ _ _ _ _ _ _ Hf) in H1
      as [Hr Hp].
    apply (IH (g ∘ S)) in H as [Hr' Hp'].
    rewrite Hr', Hr, Hp', Hp, required_names_cons, property_names_cons.
    split; [now rewrite app_assoc|].
    rewrite list_to_set_app_L. set_solver.
Qed.

(** X28: when no field of a struct is an exported embedded one,
    a pass of [reflectStructFields] that returns appends to the required
    list of the node the names of the named fields whose descriptor is
    marked required, in the order of declaration, and adds to its
    properties exactly the names of the named fields; a field without a
    name in its descriptor leaves nothing, a field is not passed over for
    being unexported or marked ignored. *)
Theorem reflectStructFields_required fuel st definitions d fs v st'
    definitions' :
  Forall (fun f => flattened f = false) fs ->
  reflectStructFields Version_ method implicitType fuel st definitions
    (Some (reflect.TStruct d fs)) v = Done (st', definitions') ->
  Required st' = Required st ++ required_names fs /\
  dom (Properties st') = dom (Properties st) ∪ list_to_set (property_names fs).
Proof.
  intros Hfs H. destruct fuel as [|fuel]; [discriminate|].
  cbn [reflectStructFields] in H. unfold reflectStructFields_body in H.
  cbn [deref_type lift andThen] in H.
  change (kind_is (reflect.Type_Kind (reflect.TStruct d fs)) reflect.Ptr)
    with false in H.
  cbn [andThen] in H.
  exact (reflectStructFields_loop_names _ _ _ _ Hfs id _ _ _ _ H).
Qed.

(** *** Values behind pointers *)



Lemma reflectStructFields_S fuel st definitions t v :
  reflectStructFields Version_ method implicitType (S fuel) st definitions t v
  = reflectStructFields_body
      (reflectTypeToSchema Version_ method implicitType fuel)
      (reflectStructFields Version_ method implicitType fuel)
      st definitions t v.
Proof. reflexivity. Qed.



(** *** The expanded root *)

Lemma same_head_refl st : same_head st st.
Proof. now repeat split. Qed.

Lemma same_head_trans st1 st2 st3 :
  same_head st1 st2 -> same_head st2 st3 -> same_head st1 st3.
Proof.
  unfold same_head. intros (? & ? & ? & ?) (? & ? & ? & ?).
  repeat split; congruence.
Qed.

Lemma reflectStructFields_body_keeps_head (rt : Walk) (rs : WalkFields) :
  keeps_head rs -> keeps_head (reflectStructFields_body rt rs).
Proof.
  intros Hrs st definitions t v st' definitions' H.
  unfold reflectStructFields_body in H.
  apply andThen_Done in H as (t1 & _ & H).
  apply andThen_Done in H as (t2 & _ & H).
  apply andThen_Done in H as (fields & _ & H).
  change (same_head st (st', definitions').1).
  refine (loop_invariant (fun s => same_head st s.1) _ _ _ _ _ _ H);
    [|apply same_head_refl].
  intros [cur d] [i f] s' Hs Hf. cbn [fst] in Hs.
  unfold reflectStructFields_field in Hf.
  destruct (_ && _).
  { destruct s' as [cur' d']. apply Hrs in Hf. cbn [fst].
    eapply same_head_trans; eauto. }
  destruct (String.eqb _ _); [now injection Hf as <-|].
  apply andThen_Done in Hf as (fv & _ & Hf).
  apply andThen_Done in Hf as ([property d1] & _ & Hf).
  destruct (required _); injection Hf as <-; cbn [fst];
    (eapply same_head_trans; [exact Hs|]); now repeat split.
Qed.

Lemma reflectStructFields_keeps_head fuel :
  keeps_head (reflectStructFields Version_ method implicitType fuel).
Proof.
  induction fuel as [|fuel IH]; [repeat intro; discriminate|].
  intros st definitions t v st' definitions' H.
  rewrite reflectStructFields_S in H.
  now apply reflectStructFields_body_keeps_head in H.
Qed.

(** X30: with [ExpandedStruct] set, a schema that
    [ReflectFromType] returns has the root type written out in place: the
    root node is an object node and no reference, it carries the schema
    version and the [additionalProperties] that the reflector asks for,
    and the registry holds no definition under the name of the root
    type. *)
Theorem ReflectFromType_expanded fuel r t v s :
  ExpandedStruct r = true ->
  ReflectFromType Version_ method implicitType fuel r (Some t) v = Done s ->
  Schema_Definitions s !! reflect.Type_Name t = None /\
  Typ (Schema_Type s) = tTypeObject /\
  Ref (Schema_Type s) = "" /\
  Version (Schema_Type s) = Version_ /\
  AdditionalProperties (Schema_Type s)
  = (if AllowAdditionalProperties r then "true" else "false").
Proof.
  intros He H. unfold ReflectFromType in H. rewrite He in H.
  apply andThen_Done in H as ([st d] & H1 & H).
  cbn [deref_type lift andThen] in H.
  apply andThen_Done in H as (r2 & _ & H). injection H as <-.
  apply reflectStructFields_keeps_head in H1 as (HT & HR & HV & HA).
  cbn [Schema_Definitions Schema_Type].
  split; [apply lookup_delete_eq|].
  rewrite HT, HR, HV, HA.
  destruct (AllowAdditionalProperties r); now repeat split.
Qed.

End ReflectorWalk.

Lemma reflectTypeToSchema_preserves_witness :
  ({[ "Footer" := emptyType ]} : Definitions)
  ⊆ <[ "DesignTypeOptions" := ReflectorFixtures.designTypeOptionsNode ]>
      ({[ "Footer" := emptyType ]} : Definitions).
Proof.
  apply (reflectTypeToSchema_preserves "draft" Fixtures.method
           ReflectorFixtures.implicitType 4 _
           (Some ReflectorFixtures.DesignTypeOptions)
           (ReflectorFixtures.designTypeOptions, Reflector.Free)
           (ReflectorFixtures.designTypeOptionsRef "draft")).
  vm_compute. reflexivity.
Defined.

Lemma reflectTypeToSchema_second_encounter_witness :
  ReflectorFixtures.designTypeOptionsRef "draft"
  = set_Ref ("#/definitions/"
             +:+ reflect.Type_Name ReflectorFixtures.DesignTypeOptions)
      (set_Version "draft" emptyType) /\
  is_Some
    (({[ "DesignTypeOptions" := ReflectorFixtures.designTypeOptionsNode ]}
        : Definitions)
       !! reflect.Type_Name ReflectorFixtures.DesignTypeOptions) /\
  Reflector.reflectTypeToSchema "draft" Fixtures.method
    ReflectorFixtures.implicitType 1
    {[ "DesignTypeOptions" := ReflectorFixtures.designTypeOptionsNode ]}
    (Some ReflectorFixtures.otherDesignTypeOptions)
    (Reflector.ValueOf None)
  = Reflector.Done
      (set_Ref ("#/definitions/"
                +:+ reflect.Type_Name ReflectorFixtures.DesignTypeOptions)
         emptyType,
       {[ "DesignTypeOptions" := ReflectorFixtures.designTypeOptionsNode ]}).
Proof.
  apply (reflectTypeToSchema_second_encounter "draft" Fixtures.method
           ReflectorFixtures.implicitType 4 0 ∅
           ReflectorFixtures.DesignTypeOptions
           (ReflectorFixtures.designTypeOptions, Reflector.Free)).
  - reflexivity.
  - reflexivity.
  - reflexivity.
  - vm_compute. reflexivity.
  - reflexivity.
Defined.

Lemma reflectTypeToSchema_unsupported_inside_witness :
  Reflector.reflectTypeToSchema "draft" Fixtures.method
    ReflectorFixtures.implicitType 4 ∅ (Some ReflectorFixtures.channels)
    (Reflector.ValueOf None)
  = Reflector.Fail
      (Reflector.Unsupported (Reflector.innermost ReflectorFixtures.channels)).
Proof.
  apply (reflectTypeToSchema_unsupported_inside "draft" Fixtures.method
           ReflectorFixtures.implicitType 4 ∅ ReflectorFixtures.channels).
  - reflexivity.
  - repeat constructor.
  - vm_compute. lia.
Defined.

Lemma reflectStructFields_required_witness :
  Required (ReflectorFixtures.designType1Node "draft")
  = Required (set_Typ tTypeObject emptyType)
    ++ Reflector.required_names ReflectorFixtures.designType1Fields /\
  dom (Properties (ReflectorFixtures.designType1Node "draft"))
  = dom (Properties (set_Typ tTypeObject emptyType))
    ∪ list_to_set (Reflector.property_names ReflectorFixtures.designType1Fields).
Proof.
  apply (reflectStructFields_required "draft" Fixtures.method
           ReflectorFixtures.implicitType 5 _ ∅
           (mkDecl "DesignType1" Fixtures.pkg []) _
           (ReflectorFixtures.designType1, Reflector.Free) _
           {[ "DesignTypeOptions" := ReflectorFixtures.designTypeOptionsNode ]}).
  - repeat constructor.
  - vm_compute. reflexivity.
Defined.


Lemma ReflectFromType_expanded_witness :
  let s := mkSchema (ReflectorFixtures.kekNode "draft")
             {[ "DesignTypeOptions" := ReflectorFixtures.designTypeOptionsNode ]} in
  Schema_Definitions s !! reflect.Type_Name ReflectorFixtures.DesignType1 = None /\
  Typ (Schema_Type s) = tTypeObject /\
  Ref (Schema_Type s) = "" /\
  Version (Schema_Type s) = "draft" /\
  AdditionalProperties (Schema_Type s)
  = (if Reflector.AllowAdditionalProperties ReflectorFixtures.kek
     then "true" else "false").
Proof.
  apply (ReflectFromType_expanded "draft" Fixtures.method
           ReflectorFixtures.implicitType 5 ReflectorFixtures.kek
           ReflectorFixtures.DesignType1
           (ReflectorFixtures.designType1, Reflector.Free)).
  - reflexivity.
  - vm_compute. reflexivity.
Defined.
